(** * dateutil.tz: time-zone rule model and offset resolution

    A shallow embedding of [src/dateutil/tz/tz.py] and the properties its
    specification states about it.

    Layout: Part I holds the model (one module per Python class or group of
    functions, definitions named as in the source); Part II holds the
    lemmas and theorems about what the specification states; Part III
    holds further properties read off the code: the two caches of the
    registry, the cache and the choice of [_find_comp], what the
    iCalendar parser builds, [tzlocal], [gettz.nocache] and the resolver
    on fixed and fold-less zones.

    Conventions of the embedding.
    - Python exceptions are values: a function that can raise returns
      [result A], either [Ok a] or [Raise e].
    - [None] is [option]'s [None]; truthiness tests are written out.
    - The host types [datetime.timedelta] and [datetime.datetime] are
      represented by the quantity they denote (see [Host]). *)

From Stdlib Require Import ZArith Lia Bool Ascii String.
From stdpp Require Import gmap strings list fin_maps.

Local Open Scope string_scope.
Local Open Scope Z_scope.

(* ===================================================================== *)
(** * Part I: the model                                                   *)
(* ===================================================================== *)

(** ** Exceptions *)

Inductive exn : Type :=
| ValueError (msg : string)
| TypeError (msg : string)
| KeyError (msg : string)
| AttributeError (msg : string)
| OverflowError (msg : string)
| IndexError (msg : string)
| UnboundLocalError (msg : string).

Inductive result (A : Type) : Type :=
| Ok (a : A)
| Raise (e : exn).

Arguments Ok {A} a.
Arguments Raise {A} e.

#[global] Instance result_ret : MRet result := fun A a => Ok a.

#[global] Instance result_bind : MBind result := fun A B k r =>
  match r with
  | Ok a => k a
  | Raise e => Raise e
  end.

#[global] Instance result_fmap : FMap result := fun A B f r =>
  match r with
  | Ok a => Ok (f a)
  | Raise e => Raise e
  end.

(** [o is not None] *)
Definition is_some {A : Type} (o : option A) : bool :=
  match o with Some _ => true | None => false end.

(** ** The host's date and time types

    [datetime.timedelta] is the signed number of microseconds it denotes
    (Python keeps the normalised triple days/seconds/microseconds of that
    number, and compares triples).  A naive [datetime.datetime] is its
    position on the proleptic Gregorian time line, in microseconds since
    0001-01-01T00:00:00, together with its [fold] attribute; the calendar
    fields are read back with CPython's [_ord2ymd].  Arithmetic and
    constructors keep CPython's range checks ([MINYEAR] .. [MAXYEAR]). *)

Module Host.

Definition timedelta : Type := Z.

Definition ZERO : timedelta := 0.

Definition US_PER_SECOND : Z := 1000000.
Definition US_PER_DAY : Z := 86400 * US_PER_SECOND.

(** [datetime.timedelta(days=d, hours=h, minutes=m, seconds=s)] *)
Definition mk_timedelta (days hours minutes seconds : Z) : timedelta :=
  (((days * 24 + hours) * 60 + minutes) * 60 + seconds) * US_PER_SECOND.

Definition timedelta_seconds (s : Z) : timedelta := mk_timedelta 0 0 0 s.
Definition timedelta_hours (h : Z) : timedelta := mk_timedelta 0 h 0 0.
Definition timedelta_days (d : Z) : timedelta := mk_timedelta d 0 0 0.

Definition MINYEAR : Z := 1.
Definition MAXYEAR : Z := 9999.

Definition _is_leap (year : Z) : bool :=
  (year mod 4 =? 0) && (negb (year mod 100 =? 0) || (year mod 400 =? 0)).

Definition _days_before_year (year : Z) : Z :=
  let y := year - 1 in
  y * 365 + y / 4 - y / 100 + y / 400.

(** [_DAYS_IN_MONTH], indexed from 1 *)
Definition _DAYS_IN_MONTH (month : Z) : Z :=
  match month with
  | 1 => 31 | 2 => 28 | 3 => 31 | 4 => 30 | 5 => 31 | 6 => 30
  | 7 => 31 | 8 => 31 | 9 => 30 | 10 => 31 | 11 => 30 | 12 => 31
  | _ => -1
  end.

(** [_DAYS_BEFORE_MONTH], indexed from 1 *)
Definition _DAYS_BEFORE_MONTH (month : Z) : Z :=
  match month with
  | 1 => 0 | 2 => 31 | 3 => 59 | 4 => 90 | 5 => 120 | 6 => 151
  | 7 => 181 | 8 => 212 | 9 => 243 | 10 => 273 | 11 => 304 | 12 => 334
  | _ => -1
  end.

Definition _days_in_month (year month : Z) : Z :=
  if (month =? 2) && _is_leap year then 29 else _DAYS_IN_MONTH month.

Definition _days_before_month (year month : Z) : Z :=
  _DAYS_BEFORE_MONTH month + (if (2 <? month) && _is_leap year then 1 else 0).

(** Ordinal of a date, 0001-01-01 being day 1. *)
Definition _ymd2ord (year month day : Z) : Z :=
  _days_before_year year + _days_before_month year month + day.

Definition _DI400Y : Z := 146097.
Definition _DI100Y : Z := 36524.
Definition _DI4Y : Z := 1461.

Definition _ord2ymd (ordinal : Z) : Z * Z * Z :=
  let n := ordinal - 1 in
  let n400 := n / _DI400Y in
  let n := n mod _DI400Y in
  let year := n400 * 400 + 1 in
  let n100 := n / _DI100Y in
  let n := n mod _DI100Y in
  let n4 := n / _DI4Y in
  let n := n mod _DI4Y in
  let n1 := n / 365 in
  let n := n mod 365 in
  let year := year + n100 * 100 + n4 * 4 + n1 in
  if (n1 =? 4) || (n100 =? 4) then (year - 1, 12, 31)
  else
    let leapyear := (n1 =? 3) && (negb (n4 =? 24) || (n100 =? 3)) in
    let month := Z.shiftr (n + 50) 5 in
    let preceding :=
      _DAYS_BEFORE_MONTH month + (if (2 <? month) && leapyear then 1 else 0) in
    if n <? preceding then
      let month := month - 1 in
      let preceding :=
        preceding
        - (_DAYS_IN_MONTH month + (if (month =? 2) && leapyear then 1 else 0)) in
      (year, month, n - preceding + 1)
    else (year, month, n - preceding + 1).

(** A naive datetime: microseconds since 0001-01-01T00:00:00, and [fold]. *)
Record naive : Type := mk_naive { ticks : Z; fold : bool }.

Definition MAX_TICKS : Z := 3652059 * US_PER_DAY.

Definition in_range (t : Z) : bool := (0 <=? t) && (t <? MAX_TICKS).

(** [datetime.datetime(year, month, day, hour, minute, second)], naive,
    [fold=0]; the argument checks of the constructor raise [ValueError]. *)
Definition datetime_new (year month day hour minute second : Z) : result naive :=
  if negb ((MINYEAR <=? year) && (year <=? MAXYEAR)) then
    Raise (ValueError "year is out of range")
  else if negb ((1 <=? month) && (month <=? 12)) then
    Raise (ValueError "month must be in 1..12")
  else if negb ((1 <=? day) && (day <=? _days_in_month year month)) then
    Raise (ValueError "day is out of range for month")
  else if negb ((0 <=? hour) && (hour <=? 23)) then
    Raise (ValueError "hour must be in 0..23")
  else if negb ((0 <=? minute) && (minute <=? 59)) then
    Raise (ValueError "minute must be in 0..59")
  else if negb ((0 <=? second) && (second <=? 59)) then
    Raise (ValueError "second must be in 0..59")
  else
    Ok {| ticks := (((_ymd2ord year month day - 1) * 24 + hour) * 60 + minute)
                     * 60 * US_PER_SECOND + second * US_PER_SECOND;
          fold := false |}.

Definition toordinal (d : naive) : Z := ticks d / US_PER_DAY + 1.

Definition year_of (d : naive) : Z := fst (fst (_ord2ymd (toordinal d))).
Definition month_of (d : naive) : Z := snd (fst (_ord2ymd (toordinal d))).
Definition day_of (d : naive) : Z := snd (_ord2ymd (toordinal d)).

(** Time of day, in microseconds since midnight. *)
Definition time_of (d : naive) : Z := ticks d mod US_PER_DAY.

(** [date.weekday()]: Monday is 0, Sunday is 6. *)
Definition weekday_of_ordinal (ordinal : Z) : Z := (ordinal + 6) mod 7.
Definition weekday (d : naive) : Z := weekday_of_ordinal (toordinal d).

(** [dt + td]: the result has [fold=0]; out of range is [OverflowError]. *)
Definition dt_add (d : naive) (td : timedelta) : result naive :=
  let t := ticks d + td in
  if in_range t then Ok {| ticks := t; fold := false |}
  else Raise (OverflowError "date value out of range").

Definition dt_sub (d : naive) (td : timedelta) : result naive := dt_add d (- td).

(** Comparison of naive datetimes ignores [fold]. *)
Definition dt_eqb (a b : naive) : bool := ticks a =? ticks b.
Definition dt_ltb (a b : naive) : bool := ticks a <? ticks b.
Definition dt_leb (a b : naive) : bool := ticks a <=? ticks b.

(** [dt.replace(month=m, day=d)] keeping year and time of day; the
    constructor's checks apply to the new fields. *)
Definition replace_ymd (d : naive) (year month day : Z) : result naive :=
  if negb ((MINYEAR <=? year) && (year <=? MAXYEAR)) then
    Raise (ValueError "year is out of range")
  else if negb ((1 <=? month) && (month <=? 12)) then
    Raise (ValueError "month must be in 1..12")
  else if negb ((1 <=? day) && (day <=? _days_in_month year month)) then
    Raise (ValueError "day is out of range for month")
  else
    Ok {| ticks := (_ymd2ord year month day - 1) * US_PER_DAY + time_of d;
          fold := fold d |}.

(** [enfold(dt, fold)] of [_common]: sets the attribute. *)
Definition enfold (d : naive) (f : bool) : naive :=
  {| ticks := ticks d; fold := f |}.

End Host.

Import Host.

(** ** Time-zone objects as the host sees them

    A [tzinfo] is the object stored in [datetime.tzinfo].  The host calls
    [utcoffset], [dst] and [fromutc] with a datetime that carries the zone
    itself, so these read the wall-clock fields and [fold] of their
    argument.  [is_ambiguous] is optional ([datetime_ambiguous] looks it up
    with [getattr]) and is called with the caller's datetime as it came:
    the method also sees the [tzinfo] that datetime carries. *)

(** What a method can learn of the [tzinfo] its argument carries: whether
    there is one, and what the argument answers when asked for its offsets
    ([dt.utcoffset()], [dt.dst()]). *)
Record attached : Type := mk_attached {
  own_utcoffset : naive -> result timedelta;
  own_dst : naive -> result timedelta
}.

Record tzinfo : Type := mk_tzinfo {
  utcoffset : naive -> result timedelta;
  dst : naive -> result timedelta;
  fromutc : naive -> result naive;
  is_ambiguous : option (option attached -> naive -> result bool)
}.

Definition attach (tz : tzinfo) : attached :=
  {| own_utcoffset := utcoffset tz; own_dst := dst tz |}.

(** An aware or naive [datetime.datetime]. *)
Record datetime : Type := mk_datetime {
  wall : naive;
  dt_tzinfo : option tzinfo
}.

(** [dt.replace(tzinfo=tz)] *)
Definition replace_tzinfo (dt : datetime) (tz : option tzinfo) : datetime :=
  {| wall := wall dt; dt_tzinfo := tz |}.

(** [dt.utcoffset()] of an aware datetime: the zone's answer, which the
    host accepts only strictly between -24 h and +24 h. *)
Definition dt_utcoffset (tz : tzinfo) (w : naive) : result timedelta :=
  off ← utcoffset tz w;
  if (- US_PER_DAY <? off) && (off <? US_PER_DAY) then Ok off
  else Raise (ValueError "offset must be a timedelta strictly between -timedelta(hours=24) and timedelta(hours=24)").

(** [dt.replace(tzinfo=tz).astimezone(other)]: [tz] gives the offset, the
    UTC reading is handed to [other.fromutc].  The host returns the
    datetime as it is when [other] is the very object [tz]; of the calls in
    this module only those of [datetime_exists] with [tz] being [UTC]
    itself meet that case, and there this computation gives the same wall
    time. *)
Definition astimezone (tz : tzinfo) (w : naive) (other : tzinfo) : result naive :=
  off ← dt_utcoffset tz w;
  utc ← dt_sub w off;
  fromutc other utc.

(** ** Fixed offsets: [tzutc] and [tzoffset] *)

Module FixedOffset.

(** [tzutc] has no fields: it is a singleton. *)
Definition tzutc_utcoffset (dt : naive) : result timedelta := Ok ZERO.
Definition tzutc_dst (dt : naive) : result timedelta := Ok ZERO.
Definition tzutc_tzname (dt : naive) : string := "UTC".
Definition tzutc_is_ambiguous (dt : naive) : result bool := Ok false.
Definition tzutc_fromutc (dt : naive) : result naive := Ok dt.

Definition UTC : tzinfo :=
  {| utcoffset := tzutc_utcoffset;
     dst := tzutc_dst;
     fromutc := tzutc_fromutc;
     is_ambiguous := Some (fun _ => tzutc_is_ambiguous) |}.

(** [_get_supported_offset]: the identity from Python 3.6 on, rounding to
    whole minutes before.  The quantity is a whole number of seconds, kept
    here in microseconds, the unit offsets are stored in. *)
Definition _get_supported_offset (py36 : bool) (second_offset : Z) : Z :=
  if py36 then second_offset
  else
    let calculated_offset :=
      60 * US_PER_SECOND * ((second_offset + 30 * US_PER_SECOND) / (60 * US_PER_SECOND)) in
    calculated_offset.

(** The [offset] argument of [tzoffset]: an integer of seconds, or a
    [timedelta] of whole seconds, of which [total_seconds()] returns the
    float that is exactly that number.  (A [timedelta] with microseconds
    goes through a float that need not hold it: it is outside this
    type.) *)
Inductive offset_arg : Type :=
| Seconds (s : Z)
| Delta (seconds : Z).

Record tzoffset : Type := mk_tzoffset {
  _name : option string;
  _offset : timedelta
}.

(** [tzoffset.__init__]: [offset.total_seconds()] when there is one. *)
Definition tzoffset_init (py36 : bool) (name : option string) (offset : offset_arg)
  : tzoffset :=
  let offset :=
    match offset with
    | Delta seconds => seconds * US_PER_SECOND
    | Seconds s => s * US_PER_SECOND
    end in
  {| _name := name; _offset := _get_supported_offset py36 offset |}.

Definition tzoffset_utcoffset (self : tzoffset) (dt : naive) : result timedelta :=
  Ok (_offset self).
Definition tzoffset_dst (self : tzoffset) (dt : naive) : result timedelta := Ok ZERO.
Definition tzoffset_tzname (self : tzoffset) (dt : naive) : option string := _name self.
Definition tzoffset_fromutc (self : tzoffset) (dt : naive) : result naive :=
  dt_add dt (_offset self).
Definition tzoffset_is_ambiguous (self : tzoffset) (dt : naive) : result bool := Ok false.

Definition tzoffset_tzinfo (self : tzoffset) : tzinfo :=
  {| utcoffset := tzoffset_utcoffset self;
     dst := tzoffset_dst self;
     fromutc := tzoffset_fromutc self;
     is_ambiguous := Some (fun _ => tzoffset_is_ambiguous self) |}.

(** The instances the two [__eq__] methods are compared on. *)
Inductive fixed : Type :=
| TzUtc
| TzOffset (z : tzoffset).

(** What a rich comparison method returns. *)
Inductive eq_result : Type :=
| NotImplemented
| PyBool (b : bool).

(** [tzutc.__eq__]; [self] is the singleton. *)
Definition tzutc___eq__ (other : fixed) : eq_result :=
  match other with
  | TzUtc => PyBool true
  | TzOffset z => PyBool (_offset z =? ZERO)
  end.

(** [tzoffset.__eq__] *)
Definition tzoffset___eq__ (self : tzoffset) (other : fixed) : eq_result :=
  match other with
  | TzOffset z => PyBool (_offset self =? _offset z)
  | TzUtc => NotImplemented
  end.

Definition __eq__ (self other : fixed) : eq_result :=
  match self with
  | TzUtc => tzutc___eq__ other
  | TzOffset z => tzoffset___eq__ z other
  end.

(** [a == b]: the left operand's method, then the right operand's
    reflected one; when both decline Python compares identities, which does
    not happen between these two classes (lemma [eq_decided]). *)
Definition py_eq (a b : fixed) : bool :=
  match __eq__ a b with
  | PyBool r => r
  | NotImplemented =>
      match __eq__ b a with
      | PyBool r => r
      | NotImplemented => false
      end
  end.

(** [a != b] is [__ne__], written [not (self == other)] in both classes. *)
Definition py_ne (a b : fixed) : bool := negb (py_eq a b).

End FixedOffset.

(** ** Recurrence rules: [relativedelta]

    Modelled from the spec: [dateutil.relativedelta] is not among the
    sources.  The spec's RecurrenceRule is "month, day-selector (fixed
    day-of-month, nth-weekday-of-month, year-day), time-of-day-offset"; it
    "produces, for a given year, a concrete CivilDateTime".  The record
    keeps the keyword arguments [tz.py] passes ([month], [day], [weekday],
    [yearday], [nlyearday]) and the time-of-day offset as one number of
    seconds, so that [hours=2] and [seconds=7200] are the same rule. *)

Module Relativedelta.

(** [relativedelta.weekday(weekday, n)]; [SU(+1)] is [weekday(6, 1)]. *)
Record weekday_sel : Type := mk_weekday { wd : Z; nth : option Z }.

Definition SU (n : Z) : weekday_sel := {| wd := 6; nth := Some n |}.

Record relativedelta : Type := mk_relativedelta {
  rd_seconds : Z;
  rd_month : option Z;
  rd_day : option Z;
  rd_weekday : option weekday_sel;
  rd_yearday : option Z;
  rd_nlyearday : option Z
}.

(** [relativedelta(hours=.., seconds=.., month=.., day=.., weekday=..,
    yearday=.., nlyearday=..)] *)
Definition relativedelta_new (hours seconds : Z) (month day : option Z)
    (weekday : option weekday_sel) (yearday nlyearday : option Z) : relativedelta :=
  {| rd_seconds := hours * 3600 + seconds;
     rd_month := month;
     rd_day := day;
     rd_weekday := weekday;
     rd_yearday := yearday;
     rd_nlyearday := nlyearday |}.

Definition opt_Z_eqb (a b : option Z) : bool :=
  match a, b with
  | Some x, Some y => x =? y
  | None, None => true
  | _, _ => false
  end.

(** Which occurrence a selector asks for: the first when [n] is absent. *)
Definition nth_or_first (w : weekday_sel) : Z :=
  match nth w with
  | None | Some 0 => 1
  | Some n => n
  end.

Definition weekday_eqb (a b : option weekday_sel) : bool :=
  match a, b with
  | Some x, Some y => (wd x =? wd y) && (nth_or_first x =? nth_or_first y)
  | None, None => true
  | _, _ => false
  end.

(** [relativedelta.__eq__]: the rules agree field by field. *)
Definition relativedelta_eqb (a b : relativedelta) : bool :=
  (rd_seconds a =? rd_seconds b)
  && opt_Z_eqb (rd_month a) (rd_month b)
  && opt_Z_eqb (rd_day a) (rd_day b)
  && weekday_eqb (rd_weekday a) (rd_weekday b)
  && opt_Z_eqb (rd_yearday a) (rd_yearday b)
  && opt_Z_eqb (rd_nlyearday a) (rd_nlyearday b).

(** [bool(rd)]: a rule that sets nothing is false. *)
Definition relativedelta_bool (rd : relativedelta) : bool :=
  negb (rd_seconds rd =? 0)
  || is_some (rd_month rd) || is_some (rd_day rd) || is_some (rd_weekday rd)
  || is_some (rd_yearday rd) || is_some (rd_nlyearday rd).

(** The anchor date of a rule in the year of [dt]: the year-day when one is
    given ([nlyearday] numbers the days of a year without 29 February),
    otherwise the rule's month and day, the day clipped to the month. *)
Definition anchor (dt : naive) (rd : relativedelta) : result naive :=
  let year := year_of dt in
  match rd_nlyearday rd, rd_yearday rd with
  | Some n, _ =>
      jan1 ← replace_ymd dt year 1 1;
      dt_add jan1 (timedelta_days (n - 1 + (if (59 <? n) && _is_leap year then 1 else 0)))
  | None, Some n =>
      jan1 ← replace_ymd dt year 1 1;
      dt_add jan1 (timedelta_days (n - 1))
  | None, None =>
      let month := default (month_of dt) (rd_month rd) in
      let day := Z.min (_days_in_month year month) (default (day_of dt) (rd_day rd)) in
      replace_ymd dt year month day
  end.

(** [dt + rd]: the anchor date, moved by the time-of-day offset, then to
    the [nth] given weekday on or after it ([nth > 0]) or on or before it
    ([nth < 0]). *)
Definition radd (dt : naive) (rd : relativedelta) : result naive :=
  a ← anchor dt rd;
  ret ← dt_add a (timedelta_seconds (rd_seconds rd));
  match rd_weekday rd with
  | None => Ok ret
  | Some w =>
      let n := nth_or_first w in
      let jumpdays := (Z.abs n - 1) * 7 in
      let jumpdays :=
        if 0 <? n then jumpdays + (7 - weekday ret + wd w) mod 7
        else - (jumpdays + (weekday ret - wd w) mod 7) in
      dt_add ret (timedelta_days jumpdays)
  end.

End Relativedelta.

(** ** [tzrange] and [tzstr] *)

Module Tzrange.
Import Relativedelta FixedOffset.

(** Truthiness of an abbreviation: [None] and the empty string are false. *)
Definition truthy (abbr : option string) : bool :=
  match abbr with
  | Some s => negb (String.eqb s "")
  | None => false
  end.

(** What [_start_delta] and [_end_delta] hold: [None], the [False] that
    [tzstr.__init__] passes, or a rule. *)
Inductive delta : Type :=
| DeltaNone
| DeltaFalse
| DeltaRel (rd : relativedelta).

Definition delta_bool (d : delta) : bool :=
  match d with
  | DeltaRel rd => relativedelta_bool rd
  | DeltaNone | DeltaFalse => false
  end.

(** [a == b] on these values. *)
Definition delta_eqb (a b : delta) : bool :=
  match a, b with
  | DeltaNone, DeltaNone => true
  | DeltaFalse, DeltaFalse => true
  | DeltaRel x, DeltaRel y => relativedelta_eqb x y
  | _, _ => false
  end.

Record tzrange : Type := mk_tzrange {
  _std_abbr : option string;
  _dst_abbr : option string;
  _std_offset : timedelta;
  _dst_offset : timedelta;
  _start_delta : delta;
  _end_delta : delta;
  _dst_base_offset_ : timedelta;
  hasdst : bool
}.

Definition offset_us (o : offset_arg) : timedelta :=
  match o with
  | Seconds s => timedelta_seconds s
  | Delta seconds => timedelta_seconds seconds
  end.

(** [tzrange.__init__] *)
Definition tzrange_init (stdabbr : option string) (stdoffset : option offset_arg)
    (dstabbr : option string) (dstoffset : option offset_arg)
    (start end_ : delta) : tzrange :=
  let std_offset :=
    match stdoffset with
    | Some o => offset_us o
    | None => ZERO
    end in
  let dst_offset :=
    match dstoffset with
    | Some o => offset_us o
    | None =>
        if truthy dstabbr && is_some stdoffset then std_offset + timedelta_hours 1
        else ZERO
    end in
  let start_delta :=
    match start with
    | DeltaNone =>
        if truthy dstabbr then
          DeltaRel (relativedelta_new 2 0 (Some 4) (Some 1) (Some (SU 1)) None None)
        else start
    | _ => start
    end in
  let end_delta :=
    match end_ with
    | DeltaNone =>
        if truthy dstabbr then
          DeltaRel (relativedelta_new 1 0 (Some 10) (Some 31) (Some (SU (-1))) None None)
        else end_
    | _ => end_
    end in
  {| _std_abbr := stdabbr;
     _dst_abbr := dstabbr;
     _std_offset := std_offset;
     _dst_offset := dst_offset;
     _start_delta := start_delta;
     _end_delta := end_delta;
     _dst_base_offset_ := dst_offset - std_offset;
     hasdst := delta_bool start_delta |}.

(** [base_year + delta]: only a rule can be added to a datetime. *)
Definition add_delta (base : naive) (d : delta) : result naive :=
  match d with
  | DeltaRel rd => radd base rd
  | DeltaNone =>
      Raise (TypeError "unsupported operand type(s) for +: 'datetime.datetime' and 'NoneType'")
  | DeltaFalse =>
      Raise (TypeError "unsupported operand type(s) for +: 'datetime.datetime' and 'bool'")
  end.

(** [tzrange.transitions] *)
Definition transitions (self : tzrange) (year : Z) : result (option (naive * naive)) :=
  if negb (hasdst self) then Ok None
  else
    base_year ← datetime_new year 1 1 0 0 0;
    start ← add_delta base_year (_start_delta self);
    end_ ← add_delta base_year (_end_delta self);
    Ok (Some (start, end_)).

Definition opt_string_eqb (a b : option string) : bool :=
  match a, b with
  | Some x, Some y => String.eqb x y
  | None, None => true
  | _, _ => false
  end.

(** [tzrange.__eq__] on two [tzrange] (or [tzstr]) instances. *)
Definition tzrange___eq__ (self other : tzrange) : bool :=
  opt_string_eqb (_std_abbr self) (_std_abbr other)
  && opt_string_eqb (_dst_abbr self) (_dst_abbr other)
  && (_std_offset self =? _std_offset other)
  && (_dst_offset self =? _dst_offset other)
  && delta_eqb (_start_delta self) (_start_delta other)
  && delta_eqb (_end_delta self) (_end_delta other).

(** Modelled from the spec: [tzrangebase.utcoffset] and [_isdst] live in
    [_common.py], which is not among the sources.  The spec: "determine
    whether the naive time falls within [dst_start, dst_end) of the current
    year"; the zone reports its DST offset inside that interval and its
    standard offset outside it, and "has no DST ever" without a rule. *)
Definition _isdst (self : tzrange) (dt : naive) : result bool :=
  if negb (hasdst self) then Ok false
  else
    tr ← transitions self (year_of dt);
    match tr with
    | None => Ok false
    | Some (dston, dstoff) => Ok (dt_leb dston dt && dt_ltb dt dstoff)
    end.

Definition tzrange_utcoffset (self : tzrange) (dt : naive) : result timedelta :=
  isdst ← _isdst self dt;
  Ok (if isdst : bool then _dst_offset self else _std_offset self).

(** *** The result of [parser._parsetz]

    The parser is not among the sources; [tzstr] reads these fields of what
    it returns. *)
Record _attr : Type := mk_attr {
  a_month : option Z;
  a_week : option Z;
  a_weekday : option Z;
  a_yday : option Z;
  a_jyday : option Z;
  a_day : option Z;
  a_time : option Z
}.

Record _result : Type := mk_result {
  stdabbr : option string;
  stdoffset : option Z;
  dstabbr : option string;
  dstoffset : option Z;
  start : _attr;
  end_ : _attr;
  any_unused_tokens : bool
}.

(** The keyword arguments [_delta] collects before the defaults apply. *)
Record kwargs : Type := mk_kwargs {
  kw_month : option Z;
  kw_day : option Z;
  kw_weekday : option weekday_sel;
  kw_yearday : option Z;
  kw_nlyearday : option Z
}.

Definition no_kwargs : kwargs :=
  {| kw_month := None; kw_day := None; kw_weekday := None;
     kw_yearday := None; kw_nlyearday := None |}.

Definition kwargs_empty (k : kwargs) : bool :=
  negb (is_some (kw_month k) || is_some (kw_day k) || is_some (kw_weekday k)
        || is_some (kw_yearday k) || is_some (kw_nlyearday k)).

(** The first half of [tzstr._delta]: the date part of the rule. *)
Definition _delta_date (x : _attr) : result kwargs :=
  match a_month x with
  | Some m =>
      match a_weekday x with
      | Some w =>
          match a_week x with
          | Some k =>
              Ok {| kw_month := Some m;
                    kw_day := Some (if 0 <? k then 1 else 31);
                    kw_weekday := Some {| wd := w; nth := Some k |};
                    kw_yearday := None; kw_nlyearday := None |}
          | None =>
              Raise (TypeError "'>' not supported between instances of 'NoneType' and 'int'")
          end
      | None =>
          Ok {| kw_month := Some m;
                kw_day := match a_day x with
                          | Some 0 | None => None
                          | Some d => Some d
                          end;
                kw_weekday := None; kw_yearday := None; kw_nlyearday := None |}
      end
  | None =>
      match a_yday x, a_jyday x with
      | Some y, _ =>
          Ok {| kw_month := None; kw_day := None; kw_weekday := None;
                kw_yearday := Some y; kw_nlyearday := None |}
      | None, Some j =>
          Ok {| kw_month := None; kw_day := None; kw_weekday := None;
                kw_yearday := None; kw_nlyearday := Some j |}
      | None, None => Ok no_kwargs
      end
  end.

(** [tzstr._delta]; [std_offset] and [dst_offset] are the fields of [self]
    it reads. *)
Definition _delta (std_offset dst_offset : timedelta) (x : _attr) (isend : bool)
  : result relativedelta :=
  k ← _delta_date x;
  let k :=
    if kwargs_empty k then
      if negb isend then
        {| kw_month := Some 4; kw_day := Some 1; kw_weekday := Some (SU 1);
           kw_yearday := None; kw_nlyearday := None |}
      else
        {| kw_month := Some 10; kw_day := Some 31; kw_weekday := Some (SU (-1));
           kw_yearday := None; kw_nlyearday := None |}
    else k in
  let seconds := default 7200 (a_time x) in
  let seconds :=
    if isend then
      let delta := dst_offset - std_offset in
      seconds - delta / US_PER_SECOND
    else seconds in
  Ok (relativedelta_new 0 seconds (kw_month k) (kw_day k) (kw_weekday k)
        (kw_yearday k) (kw_nlyearday k)).

(** What the rule parts of a parse result satisfy when the parser names a
    week together with a weekday; [_delta] raises on any other. *)
Definition attr_wf (x : _attr) : bool :=
  negb (is_some (a_month x) && is_some (a_weekday x) && negb (is_some (a_week x))).

Definition is_gmt_or_utc (abbr : option string) : bool :=
  match abbr with
  | Some s => String.eqb s "GMT" || String.eqb s "UTC"
  | None => false
  end.

(** [tzstr.__init__], given what [parser._parsetz(s)] returned. *)
Definition tzstr_init (res : option _result) (posix_offset : bool) : result tzrange :=
  match res with
  | None => Raise (ValueError "unknown string format")
  | Some res =>
      if any_unused_tokens res then Raise (ValueError "unknown string format")
      else
        stdoffset ←
          (if is_gmt_or_utc (stdabbr res) && negb posix_offset then
             match stdoffset res with
             | Some o => Ok (Some (o * -1))
             | None =>
                 Raise (TypeError "unsupported operand type(s) for *=: 'NoneType' and 'int'")
             end
           else Ok (stdoffset res));
        let self :=
          tzrange_init (stdabbr res) (Seconds <$> stdoffset)
                       (dstabbr res) (Seconds <$> dstoffset res)
                       DeltaFalse DeltaFalse in
        '(start_delta, end_delta) ←
          (if negb (truthy (dstabbr res)) then Ok (DeltaNone, DeltaNone)
           else
             sd ← _delta (_std_offset self) (_dst_offset self) (start res) false;
             if relativedelta_bool sd then
               ed ← _delta (_std_offset self) (_dst_offset self) (end_ res) true;
               Ok (DeltaRel sd, DeltaRel ed)
             else Ok (DeltaRel sd, _end_delta self));
        Ok {| _std_abbr := _std_abbr self;
              _dst_abbr := _dst_abbr self;
              _std_offset := _std_offset self;
              _dst_offset := _dst_offset self;
              _start_delta := start_delta;
              _end_delta := end_delta;
              _dst_base_offset_ := _dst_base_offset_ self;
              hasdst := delta_bool start_delta |}
  end.

End Tzrange.

(** ** iCalendar zones: [_tzicalvtzcomp] and [_tzicalvtz] *)

Module Ical.

(** The recurrence set of a component.  [dateutil.rrule] is an external
    collaborator: all the zone asks of it is [before(dt, inc=True)], the
    last occurrence at or before [dt], or [None]. *)
Record rrule : Type := mk_rrule {
  before : naive -> option naive
}.

Record _tzicalvtzcomp : Type := mk_comp {
  tzoffsetfrom : timedelta;
  tzoffsetto : timedelta;
  tzoffsetdiff : timedelta;
  isdst : bool;
  tzname : option string;
  comp_rrule : option rrule
}.

(** [_tzicalvtzcomp.__init__] *)
Definition comp_init (tzoffsetfrom tzoffsetto : Z) (isdst : bool)
    (tzname : option string) (rr : option rrule) : _tzicalvtzcomp :=
  {| tzoffsetfrom := timedelta_seconds tzoffsetfrom;
     tzoffsetto := timedelta_seconds tzoffsetto;
     tzoffsetdiff := timedelta_seconds tzoffsetto - timedelta_seconds tzoffsetfrom;
     isdst := isdst;
     tzname := tzname;
     comp_rrule := rr |}.

(** The zone: its components in definition order, and the two parallel
    cache lists, most recent first. *)
Record _tzicalvtz : Type := mk_vtz {
  _tzid : string;
  _comps : list _tzicalvtzcomp;
  _cachedate : list (naive * bool);
  _cachecomp : list _tzicalvtzcomp
}.

(** [_tzicalvtz.__init__] *)
Definition vtz_init (tzid : string) (comps : list _tzicalvtzcomp) : _tzicalvtz :=
  {| _tzid := tzid; _comps := comps; _cachedate := []; _cachecomp := [] |}.

(** [_tzinfo._fold] of [_common]: [getattr(dt, 'fold', 0)]. *)
Definition _fold (dt : naive) : bool := fold dt.

(** [_tzicalvtz._find_compdt] *)
Definition _find_compdt (comp : _tzicalvtzcomp) (dt : naive) : result (option naive) :=
  dt ← (if (tzoffsetdiff comp <? ZERO) && _fold dt then dt_sub dt (tzoffsetdiff comp)
        else Ok dt);
  match comp_rrule comp with
  | Some rr => Ok (before rr dt)
  | None => Raise (AttributeError "'NoneType' object has no attribute 'before'")
  end.

(** No component has occurred by [dt]: every recurrence set answers
    [None]. *)
Definition none_occurred (comps : list _tzicalvtzcomp) (dt : naive) : Prop :=
  Forall (fun comp => _find_compdt comp dt = Ok None) comps.

(** [self._cachedate.index((dt, fold))]: tuples compare by [==] of their
    members, datetimes by wall time. *)
Fixpoint cache_index (key : naive * bool) (dates : list (naive * bool)) : option nat :=
  match dates with
  | [] => None
  | (d, f) :: rest =>
      if dt_eqb d (fst key) && Bool.eqb f (snd key) then Some O
      else S <$> cache_index key rest
  end.

(** The first loop of [_find_comp]: the component whose last occurrence is
    the latest; the pair is [(lastcompdt, lastcomp)]. *)
Fixpoint latest_comp (comps : list _tzicalvtzcomp) (dt : naive)
    (last : option (naive * _tzicalvtzcomp))
  : result (option (naive * _tzicalvtzcomp)) :=
  match comps with
  | [] => Ok last
  | comp :: rest =>
      compdt ← _find_compdt comp dt;
      let last :=
        match compdt with
        | Some cdt =>
            match last with
            | None => Some (cdt, comp)
            | Some (lastcompdt, _) =>
                if dt_ltb lastcompdt cdt then Some (cdt, comp) else last
            end
        | None => last
        end in
      latest_comp rest dt last
  end.

(** The second loop, [for comp in self._comps: ... else: lastcomp = comp[0]].
    When no component is standard the [else] clause subscripts [comp], the
    loop variable, which holds the last component (or nothing when there
    were none). *)
Definition first_standard (comps : list _tzicalvtzcomp) : result _tzicalvtzcomp :=
  match List.find (fun comp => negb (isdst comp)) comps with
  | Some comp => Ok comp
  | None =>
      match comps with
      | [] =>
          Raise (UnboundLocalError "local variable 'comp' referenced before assignment")
      | _ :: _ =>
          Raise (TypeError "'_tzicalvtzcomp' object is not subscriptable")
      end
  end.

(** The two loops of [_find_comp], which run when the cache has no entry
    for [dt]. *)
Definition select_comp (comps : list _tzicalvtzcomp) (dt : naive)
  : result _tzicalvtzcomp :=
  last ← latest_comp comps dt None;
  match last with
  | Some (_, lastcomp) => Ok lastcomp
  | None => first_standard comps
  end.

(** [_tzicalvtz._find_comp]: the component, and the zone with its caches
    as the call leaves them. *)
Definition _find_comp (self : _tzicalvtz) (dt : naive)
  : result _tzicalvtzcomp * _tzicalvtz :=
  match _comps self with
  | [only] => (Ok only, self)
  | _ =>
      let key := (dt, _fold dt) in
      match cache_index key (_cachedate self) with
      | Some i =>
          match _cachecomp self !! i with
          | Some comp => (Ok comp, self)
          | None => (Raise (IndexError "list index out of range"), self)
          end
      | None =>
          match select_comp (_comps self) dt with
          | Raise e => (Raise e, self)
          | Ok lastcomp =>
              let cachedate := key :: _cachedate self in
              let cachecomp := lastcomp :: _cachecomp self in
              let '(cachedate, cachecomp) :=
                if (10 <? Z.of_nat (length cachedate))
                then (removelast cachedate, removelast cachecomp)
                else (cachedate, cachecomp) in
              (Ok lastcomp,
               {| _tzid := _tzid self; _comps := _comps self;
                  _cachedate := cachedate; _cachecomp := cachecomp |})
          end
      end
  end.

(** What the cache holds when it is sound: under each key the component
    the two loops select for it. *)
Definition cache_entry (comps : list _tzicalvtzcomp) (key : naive * bool)
    (comp : _tzicalvtzcomp) : Prop :=
  snd key = _fold (fst key) /\ select_comp comps (fst key) = Ok comp.

Definition cache_sound (self : _tzicalvtz) : Prop :=
  Forall2 (cache_entry (_comps self)) (_cachedate self) (_cachecomp self).

(** [utcoffset], [dst] and [tzname] of the zone ([dt] is not [None]). *)
Definition vtz_utcoffset (self : _tzicalvtz) (dt : naive) : result timedelta * _tzicalvtz :=
  let '(r, self) := _find_comp self dt in (tzoffsetto <$> r, self).

Definition vtz_dst (self : _tzicalvtz) (dt : naive) : result timedelta * _tzicalvtz :=
  let '(r, self) := _find_comp self dt in
  ((fun comp => if isdst comp then tzoffsetdiff comp else ZERO) <$> r, self).

Definition vtz_tzname (self : _tzicalvtz) (dt : naive) : result (option string) * _tzicalvtz :=
  let '(r, self) := _find_comp self dt in (tzname <$> r, self).

(** The zone after it was asked ([utcoffset], [dst] or [tzname], each of
    which calls [_find_comp] once) at each of [dts] in turn. *)
Definition asked (self : _tzicalvtz) (dts : list naive) : _tzicalvtz :=
  fold_left (fun self dt => snd (_find_comp self dt)) dts self.

End Ical.

(** ** String methods used by the parsers

    Strings are sequences of code points below 256; the methods follow
    Python's [str] on that range. *)

Module Str.

Definition code (c : ascii) : N := N_of_ascii c.

(** Line boundaries of [str.splitlines]. *)
Definition is_linebreak (c : ascii) : bool :=
  let n := code c in
  (N.leb 10 n && N.leb n 13) || (N.leb 28 n && N.leb n 30) || N.eqb n 133.

(** [str.isspace] of one character. *)
Definition is_space (c : ascii) : bool :=
  let n := code c in
  (N.leb 9 n && N.leb n 13) || (N.leb 28 n && N.leb n 32) || N.eqb n 133 || N.eqb n 160.

Definition is_empty (s : string) : bool :=
  match s with EmptyString => true | String _ _ => false end.

(** [s.splitlines()]: a carriage return followed by a line feed is one
    boundary; no empty last line. *)
Fixpoint splitlines_from (cur s : string) : list string :=
  match s with
  | EmptyString => if is_empty cur then [] else [cur]
  | String c rest =>
      if is_linebreak c then
        cur :: splitlines_from EmptyString
                 (if N.eqb (code c) 13 then
                    match rest with
                    | String c' rest' => if N.eqb (code c') 10 then rest' else rest
                    | EmptyString => rest
                    end
                  else rest)
      else splitlines_from (String.append cur (String c EmptyString)) rest
  end.

Definition splitlines (s : string) : list string := splitlines_from EmptyString s.

Fixpoint lstrip (s : string) : string :=
  match s with
  | String c rest => if is_space c then lstrip rest else s
  | EmptyString => s
  end.

Fixpoint rstrip (s : string) : string :=
  match s with
  | String c rest =>
      let rest := rstrip rest in
      if is_empty rest && is_space c then EmptyString else String c rest
  | EmptyString => s
  end.

Definition strip (s : string) : string := rstrip (lstrip s).

(** [s.split(sep)] for a one-character separator. *)
Fixpoint split_from (sep : ascii) (cur s : string) : list string :=
  match s with
  | EmptyString => [cur]
  | String c rest =>
      if Ascii.eqb c sep then cur :: split_from sep EmptyString rest
      else split_from sep (String.append cur (String c EmptyString)) rest
  end.

Definition split (sep : ascii) (s : string) : list string :=
  split_from sep EmptyString s.

(** [s.split(sep, 1)]: the text before the first separator and the text
    after it, or the whole string alone. *)
Fixpoint split1_from (sep : ascii) (cur s : string) : list string :=
  match s with
  | EmptyString => [cur]
  | String c rest =>
      if Ascii.eqb c sep then [cur; rest]
      else split1_from sep (String.append cur (String c EmptyString)) rest
  end.

Definition split1 (sep : ascii) (s : string) : list string :=
  split1_from sep EmptyString s.

Definition upper_char (c : ascii) : ascii :=
  let n := code c in
  if N.leb 97 n && N.leb n 122 then ascii_of_N (n - 32) else c.

(** [s.upper()] on ASCII letters. *)
Fixpoint upper (s : string) : string :=
  match s with
  | String c rest => String (upper_char c) (upper rest)
  | EmptyString => s
  end.

(** [sep.join(parts)] *)
Fixpoint join (sep : string) (parts : list string) : string :=
  match parts with
  | [] => EmptyString
  | [p] => p
  | p :: rest => String.append p (String.append sep (join sep rest))
  end.

Definition digit (c : ascii) : option Z :=
  let n := code c in
  if N.leb 48 n && N.leb n 57 then Some (Z.of_N n - 48) else None.

(** The digits of an integer literal, single underscores allowed between
    them; [acc] is [None] before the first digit. *)
Fixpoint digits (acc : option Z) (after_underscore : bool) (s : string) : option Z :=
  match s with
  | EmptyString => if after_underscore then None else acc
  | String c rest =>
      match digit c with
      | Some d => digits (Some (default 0 acc * 10 + d)) false rest
      | None =>
          if Ascii.eqb c "_" && is_some acc && negb after_underscore
          then digits acc true rest
          else None
      end
  end.

(** [int(s)]: surrounding white space and one sign are accepted. *)
Definition int (s : string) : result Z :=
  let body := strip s in
  let '(sign, body) :=
    match body with
    | String "-" rest => (-1, rest)
    | String "+" rest => (1, rest)
    | _ => (1, body)
    end in
  match digits None false body with
  | Some n => Ok (sign * n)
  | None =>
      Raise (ValueError (String.append "invalid literal for int() with base 10: " s))
  end.

(** [s[a:b]] and [s[a:]] for non-negative indices. *)
Definition slice (s : string) (a b : nat) : string :=
  String.substring a (b - a)%nat s.
Definition slice_from (s : string) (a : nat) : string :=
  String.substring a (String.length s - a)%nat s.

(** The character of a decimal digit. *)
Definition digit_char (d : Z) : ascii := ascii_of_N (Z.to_N (48 + d)).

End Str.

(** ** The iCalendar parser: [tzical] *)

Module Tzical.
Import Ical.

(** [tzical._parse_offset] *)
Definition _parse_offset (s : string) : result Z :=
  let s := Str.strip s in
  match s with
  | EmptyString => Raise (ValueError "empty offset")
  | String c0 rest =>
      let '(signal, s) :=
        if Ascii.eqb c0 "+" then (1, rest)
        else if Ascii.eqb c0 "-" then (-1, rest)
        else (1, s) in
      if Nat.eqb (String.length s) 4 then
        h ← Str.int (Str.slice s 0 2);
        m ← Str.int (Str.slice_from s 2);
        Ok ((h * 3600 + m * 60) * signal)
      else if Nat.eqb (String.length s) 6 then
        h ← Str.int (Str.slice s 0 2);
        m ← Str.int (Str.slice s 2 4);
        sec ← Str.int (Str.slice_from s 4);
        Ok ((h * 3600 + m * 60 + sec) * signal)
      else Raise (ValueError (String.append "invalid offset: " s))
  end.

(** The unfolding loop of [_parse_rfc].  [kept] holds, last first, the
    lines before index [i]; the loop looks at the next line stripped on the
    right, drops it when empty, glues it to the line before when it starts
    with a space and is not the first, and keeps it unstripped otherwise. *)
Fixpoint unfold_lines (kept : list string) (lines : list string) : list string :=
  match lines with
  | [] => rev kept
  | l :: rest =>
      match Str.rstrip l with
      | EmptyString => unfold_lines kept rest
      | String c tail as line =>
          match kept with
          | prev :: before =>
              if Ascii.eqb c " " then
                unfold_lines (String.append prev tail :: before) rest
              else unfold_lines (l :: kept) rest
          | [] => unfold_lines (l :: kept) rest
          end
      end
  end.

(** The local variables of [_parse_rfc] and the dictionary [self._vtz]. *)
Record parser_state : Type := mk_parser_state {
  tzid : option string;
  comps : list _tzicalvtzcomp;
  invtz : bool;
  comptype : option string;
  founddtstart : bool;
  tzoffsetfrom_ : option Z;
  tzoffsetto_ : option Z;
  rrulelines : list string;
  tzname_ : option string;
  _vtz : gmap string _tzicalvtz
}.

Definition initial_state : parser_state :=
  {| tzid := None; comps := []; invtz := false; comptype := None;
     founddtstart := false; tzoffsetfrom_ := None; tzoffsetto_ := None;
     rrulelines := []; tzname_ := None; _vtz := ∅ |}.

Definition str_in (s : string) (l : list string) : bool :=
  existsb (String.eqb s) l.

Definition raise_value_error {A : Type} (prefix rest : string) : result A :=
  Raise (ValueError (String.append prefix rest)).

(** The branch [elif name == "END"] for a component, [value == comptype]:
    the three mandatory fields, then the component is built and appended. *)
Definition end_component (rrulestr : string -> result rrule) (st : parser_state)
    (ctype : string) : result parser_state :=
  if negb (founddtstart st) then Raise (ValueError "mandatory DTSTART not found")
  else
    match tzoffsetfrom_ st with
    | None => Raise (ValueError "mandatory TZOFFSETFROM not found")
    | Some tzoffsetfrom =>
        match tzoffsetto_ st with
        | None => Raise (ValueError "mandatory TZOFFSETFROM not found")
        | Some tzoffsetto =>
            rr ← match rrulelines st with
                 | [] => Ok None
                 | ls => Some <$> rrulestr (Str.join (String (ascii_of_N 10) EmptyString) ls)
                 end;
            let comp :=
              comp_init tzoffsetfrom tzoffsetto (String.eqb ctype "DAYLIGHT")
                        (tzname_ st) rr in
            Ok {| tzid := tzid st; comps := comps st ++ [comp]; invtz := invtz st;
                  comptype := None; founddtstart := founddtstart st;
                  tzoffsetfrom_ := tzoffsetfrom_ st; tzoffsetto_ := tzoffsetto_ st;
                  rrulelines := rrulelines st; tzname_ := tzname_ st;
                  _vtz := _vtz st |}
        end
    end.

(** The branch for [END:VTIMEZONE]. *)
Definition end_vtimezone (st : parser_state) : result parser_state :=
  match comptype st with
  | Some ctype => raise_value_error "component not closed: " ctype
  | None =>
      match tzid st with
      | None | Some EmptyString => Raise (ValueError "mandatory TZID not found")
      | Some id =>
          match comps st with
          | [] => Raise (ValueError "at least one component is needed")
          | _ =>
              Ok {| tzid := tzid st; comps := comps st; invtz := false;
                    comptype := comptype st; founddtstart := founddtstart st;
                    tzoffsetfrom_ := tzoffsetfrom_ st; tzoffsetto_ := tzoffsetto_ st;
                    rrulelines := rrulelines st; tzname_ := tzname_ st;
                    _vtz := <[id := vtz_init id (comps st)]> (_vtz st) |}
          end
      end
  end.

(** A property line inside a component ([elif comptype:]). *)
Definition component_property (st : parser_state) (line name value : string)
    (parms : list string) : result parser_state :=
  if String.eqb name "DTSTART" then
    match List.find (fun parm => negb (String.eqb parm "VALUE=DATE-TIME")) parms with
    | Some parm => raise_value_error "Unsupported DTSTART param in VTIMEZONE: " parm
    | None =>
        Ok {| tzid := tzid st; comps := comps st; invtz := invtz st;
              comptype := comptype st; founddtstart := true;
              tzoffsetfrom_ := tzoffsetfrom_ st; tzoffsetto_ := tzoffsetto_ st;
              rrulelines := rrulelines st ++ [line]; tzname_ := tzname_ st;
              _vtz := _vtz st |}
    end
  else if str_in name ["RRULE"; "RDATE"; "EXRULE"; "EXDATE"] then
    Ok {| tzid := tzid st; comps := comps st; invtz := invtz st;
          comptype := comptype st; founddtstart := founddtstart st;
          tzoffsetfrom_ := tzoffsetfrom_ st; tzoffsetto_ := tzoffsetto_ st;
          rrulelines := rrulelines st ++ [line]; tzname_ := tzname_ st;
          _vtz := _vtz st |}
  else if String.eqb name "TZOFFSETFROM" then
    match parms with
    | p :: _ =>
        Raise (ValueError (String.append "unsupported TZOFFSETFROM parm: "
                             (String.append p " ")))
    | [] =>
        off ← _parse_offset value;
        Ok {| tzid := tzid st; comps := comps st; invtz := invtz st;
              comptype := comptype st; founddtstart := founddtstart st;
              tzoffsetfrom_ := Some off; tzoffsetto_ := tzoffsetto_ st;
              rrulelines := rrulelines st; tzname_ := tzname_ st;
              _vtz := _vtz st |}
    end
  else if String.eqb name "TZOFFSETTO" then
    match parms with
    | p :: _ => raise_value_error "unsupported TZOFFSETTO parm: " p
    | [] =>
        off ← _parse_offset value;
        Ok {| tzid := tzid st; comps := comps st; invtz := invtz st;
              comptype := comptype st; founddtstart := founddtstart st;
              tzoffsetfrom_ := tzoffsetfrom_ st; tzoffsetto_ := Some off;
              rrulelines := rrulelines st; tzname_ := tzname_ st;
              _vtz := _vtz st |}
    end
  else if String.eqb name "TZNAME" then
    match parms with
    | p :: _ => raise_value_error "unsupported TZNAME parm: " p
    | [] =>
        Ok {| tzid := tzid st; comps := comps st; invtz := invtz st;
              comptype := comptype st; founddtstart := founddtstart st;
              tzoffsetfrom_ := tzoffsetfrom_ st; tzoffsetto_ := tzoffsetto_ st;
              rrulelines := rrulelines st; tzname_ := Some value;
              _vtz := _vtz st |}
    end
  else if String.eqb name "COMMENT" then Ok st
  else raise_value_error "unsupported property: " name.

(** A property line of the [VTIMEZONE] itself (the last [else]). *)
Definition vtimezone_property (st : parser_state) (name value : string)
    (parms : list string) : result parser_state :=
  if String.eqb name "TZID" then
    match parms with
    | p :: _ => raise_value_error "unsupported TZID parm: " p
    | [] =>
        Ok {| tzid := Some value; comps := comps st; invtz := invtz st;
              comptype := comptype st; founddtstart := founddtstart st;
              tzoffsetfrom_ := tzoffsetfrom_ st; tzoffsetto_ := tzoffsetto_ st;
              rrulelines := rrulelines st; tzname_ := tzname_ st;
              _vtz := _vtz st |}
    end
  else if str_in name ["TZURL"; "LAST-MODIFIED"; "COMMENT"] then Ok st
  else raise_value_error "unsupported property: " name.

(** The body of [for line in lines]. *)
Definition parse_line (rrulestr : string -> result rrule) (st : parser_state)
    (line : string) : result parser_state :=
  if Str.is_empty line then Ok st
  else
    match Str.split1 ":" line with
    | [name; value] =>
        match Str.split ";" name with
        | [] => Raise (ValueError "empty property name")
        | p0 :: parms =>
            let name := Str.upper p0 in
            if invtz st then
              if String.eqb name "BEGIN" then
                if str_in value ["STANDARD"; "DAYLIGHT"] then
                  Ok {| tzid := tzid st; comps := comps st; invtz := invtz st;
                        comptype := Some value; founddtstart := false;
                        tzoffsetfrom_ := None; tzoffsetto_ := None;
                        rrulelines := []; tzname_ := None; _vtz := _vtz st |}
                else raise_value_error "unknown component: " value
              else if String.eqb name "END" then
                if String.eqb value "VTIMEZONE" then end_vtimezone st
                else
                  match comptype st with
                  | Some ctype =>
                      if String.eqb value ctype then end_component rrulestr st ctype
                      else raise_value_error "invalid component end: " value
                  | None => raise_value_error "invalid component end: " value
                  end
              else if is_some (comptype st) then
                component_property st line name value parms
              else vtimezone_property st name value parms
            else if String.eqb name "BEGIN" && String.eqb value "VTIMEZONE" then
              Ok {| tzid := None; comps := []; invtz := true;
                    comptype := comptype st; founddtstart := founddtstart st;
                    tzoffsetfrom_ := tzoffsetfrom_ st; tzoffsetto_ := tzoffsetto_ st;
                    rrulelines := rrulelines st; tzname_ := tzname_ st;
                    _vtz := _vtz st |}
            else Ok st
        end
    | _ => Raise (ValueError "not enough values to unpack (expected 2, got 1)")
    end.

Fixpoint parse_lines (rrulestr : string -> result rrule) (st : parser_state)
    (lines : list string) : result parser_state :=
  match lines with
  | [] => Ok st
  | line :: rest =>
      st ← parse_line rrulestr st line;
      parse_lines rrulestr st rest
  end.

(** [tzical._parse_rfc]: the dictionary [self._vtz] it fills. *)
Definition _parse_rfc (rrulestr : string -> result rrule) (s : string)
  : result (gmap string _tzicalvtz) :=
  match Str.splitlines s with
  | [] => Raise (ValueError "empty string")
  | lines =>
      st ← parse_lines rrulestr initial_state (unfold_lines [] lines);
      Ok (_vtz st)
  end.

(** [tzical.get] over the dictionary [self._vtz]; [len(self._vtz)] is the
    number of its entries and [next(iter(self._vtz))] the key of the only
    one. *)
Definition get (vtz : gmap string _tzicalvtz) (tzid : option string)
  : result (option _tzicalvtz) :=
  tzid ← match tzid with
         | Some tzid => Ok tzid
         | None =>
             match map_to_list vtz with
             | [] => Raise (ValueError "no timezones defined")
             | [(tzid, _)] => Ok tzid
             | _ :: _ :: _ => Raise (ValueError "more than one timezone available")
             end
         end;
  Ok (vtz !! tzid).

(** What every component and zone built by [_parse_rfc] has: a recurrence
    set, the difference of its two offsets, the key it is stored under as
    its [_tzid], one component or more, and empty caches. *)
Definition component_ok (c : _tzicalvtzcomp) : Prop :=
  comp_rrule c <> None /\ tzoffsetdiff c = tzoffsetto c - tzoffsetfrom c.

Definition zone_ok (id : string) (z : _tzicalvtz) : Prop :=
  _tzid z = id /\ id <> EmptyString /\ _comps z <> []
  /\ Forall component_ok (_comps z)
  /\ _cachedate z = [] /\ _cachecomp z = [].

Definition state_ok (st : parser_state) : Prop :=
  (founddtstart st = true -> rrulelines st <> [])
  /\ Forall component_ok (comps st)
  /\ map_Forall zone_ok (_vtz st).

End Tzical.

(** ** The zone registry: [GettzFunc]

    [T] is the type of zone objects and [is_tzlocal] the test
    [isinstance(rv, tzlocal_classes)].  [nocache] reads the file system and
    the environment; a call is given the function it sees at that moment. *)

Module Gettz.

Section Registry.

Variable T : Type.
Variable is_tzlocal : T -> bool.

(** [__instances] is a [WeakValueDictionary]: an entry lasts while someone
    holds its zone (see [collect]).  [__strong_cache] is an [OrderedDict]:
    the entries in insertion order, oldest first. *)
Record GettzFunc : Type := mk_gettz {
  __instances : gmap (option string) T;
  __strong_cache_size : Z;
  __strong_cache : list (option string * T)
}.

(** [GettzFunc.__init__] *)
Definition init : GettzFunc :=
  {| __instances := ∅; __strong_cache_size := 8; __strong_cache := [] |}.

(** [OrderedDict.pop(name, default)]: the value removed, or the default,
    and the entries left. *)
Fixpoint od_pop (name : option string) (default_ : T) (od : list (option string * T))
  : T * list (option string * T) :=
  match od with
  | [] => (default_, [])
  | (k, v) :: rest =>
      if bool_decide (k = name) then (v, rest)
      else let '(r, rest) := od_pop name default_ rest in (r, (k, v) :: rest)
  end.

(** [od[name] = v] when [name] is not a key: appended last. *)
Definition od_append (od : list (option string * T)) (name : option string) (v : T)
  : list (option string * T) := od ++ [(name, v)].

(** [od.popitem(last=False)] on a non-empty dictionary drops the oldest. *)
Definition od_popfirst (od : list (option string * T)) : list (option string * T) := tail od.

Definition od_len (od : list (option string * T)) : Z := Z.of_nat (length od).

(** The tail of [__call__]: refresh [name] in the strong cache and evict
    the oldest entry if the cache has grown past its size. *)
Definition remember (self : GettzFunc) (name : option string) (rv : T) : GettzFunc :=
  let '(v, od) := od_pop name rv (__strong_cache self) in
  let od := od_append od name v in
  let od := if __strong_cache_size self <? od_len od then od_popfirst od else od in
  {| __instances := __instances self;
     __strong_cache_size := __strong_cache_size self;
     __strong_cache := od |}.

(** [GettzFunc.__call__] *)
Definition __call__ (nocache : option string -> result (option T))
    (self : GettzFunc) (name : option string) : result (option T) * GettzFunc :=
  match __instances self !! name with
  | Some rv => (Ok (Some rv), remember self name rv)
  | None =>
      match nocache name with
      | Raise e => (Raise e, self)
      | Ok None => (Ok None, self)
      | Ok (Some rv) =>
          if negb (is_some name) || is_tzlocal rv then (Ok (Some rv), self)
          else
            let self :=
              {| __instances := <[name := rv]> (__instances self);
                 __strong_cache_size := __strong_cache_size self;
                 __strong_cache := __strong_cache self |} in
            (Ok (Some rv), remember self name rv)
      end
  end.

(** The loop of [set_cache_size]: [popitem] on an empty dictionary is a
    [KeyError], which a negative size runs into. *)
Fixpoint evict_to (size : Z) (od : list (option string * T))
  : result unit * list (option string * T) :=
  match od with
  | [] =>
      if size <? 0 then (Raise (KeyError "dictionary is empty"), [])
      else (Ok tt, [])
  | _ :: rest => if size <? od_len od then evict_to size rest else (Ok tt, od)
  end.

(** [GettzFunc.set_cache_size] *)
Definition set_cache_size (self : GettzFunc) (size : Z) : result unit * GettzFunc :=
  let '(r, od) := evict_to size (__strong_cache self) in
  (r, {| __instances := __instances self;
         __strong_cache_size := size;
         __strong_cache := od |}).

(** [GettzFunc.cache_clear] *)
Definition cache_clear (self : GettzFunc) : GettzFunc :=
  {| __instances := ∅;
     __strong_cache_size := __strong_cache_size self;
     __strong_cache := [] |}.

(** The garbage collector drops a weak entry once nothing holds its zone;
    the strong cache holds the zones of its own keys. *)
Definition collect (self : GettzFunc) (name : option string) : GettzFunc :=
  if existsb (fun kv => bool_decide (fst kv = name)) (__strong_cache self) then self
  else
    {| __instances := delete name (__instances self);
       __strong_cache_size := __strong_cache_size self;
       __strong_cache := __strong_cache self |}.

(** What can happen to the registry. *)
Inductive op : Type :=
| Call (nocache : option string -> result (option T)) (name : option string)
| SetCacheSize (size : Z)
| CacheClear
| Collect (name : option string).

Definition step (self : GettzFunc) (o : op) : GettzFunc :=
  match o with
  | Call nocache name => snd (__call__ nocache self name)
  | SetCacheSize size => snd (set_cache_size self size)
  | CacheClear => cache_clear self
  | Collect name => collect self name
  end.

Definition run (ops : list op) : GettzFunc := fold_left step ops init.

(** The invariant of the registry: the strong cache holds no more
    entries than its size. *)
Definition bounded (self : GettzFunc) : Prop :=
  od_len (__strong_cache self) <= __strong_cache_size self.

(** The sizes a caller passes are not negative. *)
Definition sane (o : op) : Prop :=
  match o with
  | SetCacheSize size => 0 <= size
  | _ => True
  end.

(** The two caches agree: the strong cache has one entry per name, each
    zone in it is the one the weak dictionary holds under that name, and
    [None] is never a key of the weak dictionary. *)
Definition consistent (self : GettzFunc) : Prop :=
  NoDup (map fst (__strong_cache self))
  /\ (forall name z, In (name, z) (__strong_cache self) ->
                     __instances self !! name = Some z)
  /\ __instances self !! (None : option string) = None.

End Registry.

Arguments mk_gettz {T}.
Arguments __instances {T}.
Arguments __strong_cache_size {T}.
Arguments __strong_cache {T}.
Arguments init {T}.
Arguments od_pop {T}.
Arguments od_append {T}.
Arguments od_popfirst {T}.
Arguments od_len {T}.
Arguments remember {T}.
Arguments __call__ {T}.
Arguments evict_to {T}.
Arguments set_cache_size {T}.
Arguments cache_clear {T}.
Arguments collect {T}.
Arguments Call {T}.
Arguments SetCacheSize {T}.
Arguments CacheClear {T}.
Arguments Collect {T}.
Arguments step {T}.
Arguments run {T}.
Arguments sane {T}.
Arguments bounded {T}.
Arguments consistent {T}.

End Gettz.

(** ** The resolver: [datetime_exists], [datetime_ambiguous],
    [resolve_imaginary] *)

Module Resolver.
Import FixedOffset.

(** [dt.dst()] of an aware datetime, with the host's check of the range. *)
Definition dt_dst (tz : tzinfo) (w : naive) : result timedelta :=
  d ← dst tz w;
  if (- US_PER_DAY <? d) && (d <? US_PER_DAY) then Ok d
  else Raise (ValueError "offset must be a timedelta strictly between -timedelta(hours=24) and timedelta(hours=24)").

(** The opening of both predicates: the zone to use. *)
Definition zone_for (dt : datetime) (tz : option tzinfo) : result tzinfo :=
  match tz with
  | Some tz => Ok tz
  | None =>
      match dt_tzinfo dt with
      | None => Raise (ValueError "Datetime is naive and no time zone provided.")
      | Some tz => Ok tz
      end
  end.

(** [datetime_exists] *)
Definition datetime_exists (dt : datetime) (tz : option tzinfo) : result bool :=
  tz ← zone_for dt tz;
  let dt := wall (replace_tzinfo dt None) in
  utc ← astimezone tz dt UTC;
  dt_rt ← astimezone UTC utc tz;
  Ok (dt_eqb dt dt_rt).

(** [datetime_ambiguous]: [tz.is_ambiguous(dt)] is handed [dt] with the
    [tzinfo] it came with; [dt.replace(tzinfo=tz)] comes after it. *)
Definition datetime_ambiguous (dt : datetime) (tz : option tzinfo) : result bool :=
  tz ← zone_for dt tz;
  let own :=
    match is_ambiguous tz with
    | Some is_ambiguous_fn =>
        match is_ambiguous_fn (attach <$> dt_tzinfo dt) (wall dt) with
        | Ok b => Some b
        | Raise _ => None
        end
    | None => None
    end in
  match own with
  | Some b => Ok b
  | None =>
      let dt := replace_tzinfo dt (Some tz) in
      let wall_0 := enfold (wall dt) false in
      let wall_1 := enfold (wall dt) true in
      off_0 ← dt_utcoffset tz wall_0;
      off_1 ← dt_utcoffset tz wall_1;
      let same_offset := off_0 =? off_1 in
      dst_0 ← dt_dst tz wall_0;
      dst_1 ← dt_dst tz wall_1;
      let same_dst := dst_0 =? dst_1 in
      Ok (negb (same_offset && same_dst))
  end.

(** Objects have an identity: the address they were created at.  A heap is
    the next free address; only the object a function returns is given
    one here, its temporaries being garbage by then. *)
Record object : Type := mk_object { addr : nat; value : datetime }.

Definition heap : Type := nat.

Definition new (v : datetime) (h : heap) : object * heap :=
  ({| addr := h; value := v |}, S h).

(** [resolve_imaginary]: [dt += ...] binds [dt] to a new object, [return
    dt] hands back whatever [dt] is bound to. *)
Definition resolve_imaginary (dt : object) (h : heap) : result object * heap :=
  match dt_tzinfo (value dt) with
  | None => (Ok dt, h)
  | Some tz =>
      match datetime_exists (value dt) None with
      | Raise e => (Raise e, h)
      | Ok true => (Ok dt, h)
      | Ok false =>
          let shifted :=
            later ← dt_add (wall (value dt)) (timedelta_hours 24);
            curr_offset ← dt_utcoffset tz later;
            earlier ← dt_sub (wall (value dt)) (timedelta_hours 24);
            old_offset ← dt_utcoffset tz earlier;
            dt_add (wall (value dt)) (curr_offset - old_offset) in
          match shifted with
          | Raise e => (Raise e, h)
          | Ok w =>
              let '(o, h) := new {| wall := w; dt_tzinfo := Some tz |} h in
              (Ok o, h)
          end
      end
  end.

End Resolver.

(** ** Zones used as examples

    A zone given by a table of offset changes, in the manner of a compiled
    zone table: [fromutc] applies the offset in force at the UTC instant;
    [utcoffset] reads a wall time against the changes placed at their wall
    time on the old side, so a reading inside a gap gets the new offset. *)

Module Examples.

Record change : Type := mk_change { at_utc : Z; offset_after : timedelta }.

Fixpoint offset_at_utc (current : timedelta) (table : list change) (t : Z) : timedelta :=
  match table with
  | [] => current
  | c :: rest =>
      if at_utc c <=? t then offset_at_utc (offset_after c) rest t else current
  end.

Fixpoint offset_at_wall (current : timedelta) (table : list change) (t : Z) : timedelta :=
  match table with
  | [] => current
  | c :: rest =>
      if at_utc c + current <=? t then offset_at_wall (offset_after c) rest t
      else current
  end.

Definition table_zone (initial : timedelta) (table : list change) : tzinfo :=
  {| utcoffset := fun w => Ok (offset_at_wall initial table (ticks w));
     dst := fun _ => Ok ZERO;
     fromutc := fun u => dt_add u (offset_at_utc initial table (ticks u));
     is_ambiguous := None |}.

(** Wall times [days] days or more from both ends of the range of
    [datetime], where the arithmetic of the resolver cannot overflow. *)
Definition inland (days : Z) (w : naive) : Prop :=
  days * US_PER_DAY <= ticks w < MAX_TICKS - days * US_PER_DAY.

(** One change of offset, from [before] to [after], at the instant [at_]. *)
Definition single_change (at_ : Z) (before after : timedelta) : tzinfo :=
  table_zone before [{| at_utc := at_; offset_after := after |}].

(** A zone whose [is_ambiguous] always raises: [datetime_ambiguous] falls
    back to comparing the two folds. *)
Definition without_answer (tz : tzinfo) : tzinfo :=
  {| utcoffset := utcoffset tz; dst := dst tz; fromutc := fromutc tz;
     is_ambiguous := Some (fun _ _ => Raise (TypeError "is_ambiguous")) |}.



(** A recurrence set with the single occurrence [onset]. *)
Definition once (onset : naive) : Ical.rrule :=
  {| Ical.before := fun dt => if dt_leb onset dt then Some onset else None |}.

Definition midnight (ordinal : Z) : naive :=
  {| ticks := (ordinal - 1) * US_PER_DAY; fold := false |}.

(** Two DAYLIGHT components and no STANDARD one, with onsets on days
    730000 and 730365 of the calendar (late in the years 1999 and 2000). *)
Definition daylight_only : Ical._tzicalvtz :=
  Ical.vtz_init "Daylight/Only"
    [ Ical.comp_init (-18000) (-14400) true (Some "EDT") (Some (once (midnight 730000)));
      Ical.comp_init (-14400) (-10800) true (Some "EDDT") (Some (once (midnight 730365))) ].

(** A DAYLIGHT component defined before a STANDARD one. *)
Definition daylight_then_standard : Ical._tzicalvtz :=
  Ical.vtz_init "Daylight/Standard"
    [ Ical.comp_init (-18000) (-14400) true (Some "EDT") (Some (once (midnight 730000)));
      Ical.comp_init (-14400) (-18000) false (Some "EST") (Some (once (midnight 730200))) ].

(** iCalendar text: the lines, each ended by CRLF. *)
Definition CRLF : string := String (ascii_of_N 13) (String (ascii_of_N 10) EmptyString).

Definition ical_text (lines : list string) : string :=
  String.append (Str.join CRLF lines) CRLF.

(** A STANDARD component without TZOFFSETTO. *)
Definition missing_tzoffsetto : string :=
  ical_text [ "BEGIN:VTIMEZONE"; "TZID:US-Eastern";
              "BEGIN:STANDARD"; "DTSTART:19671029T020000";
              "TZOFFSETFROM:-0400"; "TZNAME:EST";
              "END:STANDARD"; "END:VTIMEZONE" ].

(** A DAYLIGHT component without TZOFFSETFROM. *)
Definition missing_tzoffsetfrom : string :=
  ical_text [ "BEGIN:VTIMEZONE"; "TZID:US-Eastern";
              "BEGIN:DAYLIGHT"; "DTSTART:19870405T020000";
              "TZOFFSETTO:-0400"; "TZNAME:EDT";
              "END:DAYLIGHT"; "END:VTIMEZONE" ].

(** A STANDARD component without DTSTART. *)
Definition missing_dtstart : string :=
  ical_text [ "BEGIN:VTIMEZONE"; "TZID:US-Eastern";
              "BEGIN:STANDARD";
              "TZOFFSETFROM:-0400"; "TZOFFSETTO:-0500"; "TZNAME:EST";
              "END:STANDARD"; "END:VTIMEZONE" ].

(** A complete component, up to its [END] line. *)
Definition complete_component : string :=
  ical_text [ "BEGIN:VTIMEZONE"; "TZID:US-Eastern";
              "BEGIN:STANDARD"; "DTSTART:19671029T020000";
              "TZOFFSETFROM:-0400"; "TZOFFSETTO:-0500"; "TZNAME:EST";
              "END:STANDARD" ].

(** The registry's [nocache], finding a zone (here a number) for every
    name; and nine calls of [gettz] with nine names. *)
Definition found_everywhere (name : option string) : result (option nat) :=
  Ok (Some (match name with Some n => String.length n | None => O end)).

Definition nine_calls : list (Gettz.op nat) :=
  map (fun n => Gettz.Call found_everywhere (Some n))
      ["a"; "b"; "c"; "d"; "e"; "f"; "g"; "h"; "i"].

(** A date-line jump: the offset goes from -10 h to +14 h at the UTC
    instant 10:00 of day 728294, so the local day that would have been
    day 728294 is skipped, a gap of 24 hours. *)
Definition line_islands : tzinfo :=
  single_change ((728294 - 1) * US_PER_DAY + 10 * 3600 * US_PER_SECOND)
    (timedelta_hours (-10)) (timedelta_hours 14).

(** 12:30 on the skipped day, in that zone, as the object at address 0. *)
Definition skipped_noon : Resolver.object :=
  {| Resolver.addr := 0;
     Resolver.value :=
       {| wall := {| ticks := (728294 - 1) * US_PER_DAY + 45000 * US_PER_SECOND;
                     fold := false |};
          dt_tzinfo := Some line_islands |} |}.

(** Two forward changes of one hour, one hour of UTC apart: the local
    hours 2:00-3:00 and 4:00-5:00 of day 730000 are both skipped. *)
Definition two_gaps : tzinfo :=
  table_zone ZERO
    [ {| at_utc := (730000 - 1) * US_PER_DAY + 2 * 3600 * US_PER_SECOND;
         offset_after := timedelta_hours 1 |};
      {| at_utc := (730000 - 1) * US_PER_DAY + 3 * 3600 * US_PER_SECOND;
         offset_after := timedelta_hours 2 |} ].

(** 2:30 on that day, inside the first gap, as the object at address 0. *)
Definition in_first_gap : Resolver.object :=
  {| Resolver.addr := 0;
     Resolver.value :=
       {| wall := {| ticks := (730000 - 1) * US_PER_DAY + 9000 * US_PER_SECOND;
                     fold := false |};
          dt_tzinfo := Some two_gaps |} |}.

(** A zone with a line that has no colon. *)
Definition stray_line : string :=
  ical_text [ "BEGIN:VTIMEZONE"; "PRODID"; "TZID:US-Eastern";
              "BEGIN:STANDARD"; "DTSTART:19671029T020000";
              "TZOFFSETFROM:-0400"; "TZOFFSETTO:-0500"; "TZNAME:EST";
              "END:STANDARD"; "END:VTIMEZONE" ].



(** A complete zone of one STANDARD component; and a reader of recurrence
    rules that answers with one occurrence on day 1 whatever the text. *)
Definition complete_zone : string :=
  ical_text [ "BEGIN:VTIMEZONE"; "TZID:US-Eastern";
              "BEGIN:STANDARD"; "DTSTART:19671029T020000";
              "TZOFFSETFROM:-0400"; "TZOFFSETTO:-0500"; "TZNAME:EST";
              "END:STANDARD"; "END:VTIMEZONE" ].

Definition rrulestr_once (text : string) : result Ical.rrule :=
  Ok (once (midnight 1)).

Definition us_eastern : Ical._tzicalvtz :=
  Ical.vtz_init "US-Eastern"
    [ Ical.comp_init (-14400) (-18000) false (Some "EST") (Some (once (midnight 1))) ].

End Examples.

(** ** The local zone: [tzlocal] *)

Module Tzlocal.
Import FixedOffset.

(** What [tzlocal] reads of the [time] module: [timezone] and [altzone]
    (seconds west of UTC), [daylight], the pair [tzname], and
    [localtime(t).tm_isdst], which is 0 or 1, as a function of the
    timestamp; it raises where the platform cannot convert [t].
    Timestamps are kept exact, in microseconds: the rounding of the float
    [total_seconds()] returns and of [localtime] is part of that
    function. *)
Record time : Type := mk_time {
  timezone : Z;
  altzone : Z;
  daylight : Z;
  tzname : string * string;
  localtime : Z -> result bool
}.

(** [EPOCH], [datetime.datetime.utcfromtimestamp(0)]: 1970-01-01 00:00. *)
Definition EPOCH : naive :=
  {| ticks := (_ymd2ord 1970 1 1 - 1) * US_PER_DAY; fold := false |}.

(** [_datetime_to_timestamp] *)
Definition _datetime_to_timestamp (dt : naive) : Z := ticks dt - ticks EPOCH.

Record tzlocal : Type := mk_tzlocal {
  _std_offset : timedelta;
  _dst_offset : timedelta;
  _dst_saved : timedelta;
  _hasdst : bool;
  _tznames : string * string
}.

(** [tzlocal.__init__] *)
Definition tzlocal_init (t : time) : tzlocal :=
  let std_offset := timedelta_seconds (- timezone t) in
  let dst_offset :=
    if negb (daylight t =? 0) then timedelta_seconds (- altzone t) else std_offset in
  {| _std_offset := std_offset;
     _dst_offset := dst_offset;
     _dst_saved := dst_offset - std_offset;
     _hasdst := negb (dst_offset - std_offset =? ZERO);
     _tznames := tzname t |}.

(** [tzlocal._naive_is_dst]; the methods read the [time] module as it is
    when they are called. *)
Definition _naive_is_dst (t : time) (dt : naive) : result bool :=
  let timestamp := _datetime_to_timestamp dt in
  localtime t (timestamp + timezone t * US_PER_SECOND).

(** [tzlocal.is_ambiguous] *)
Definition tzlocal_is_ambiguous (t : time) (self : tzlocal) (dt : naive) : result bool :=
  naive_dst ← _naive_is_dst t dt;
  if negb naive_dst then
    earlier ← dt_sub dt (_dst_saved self);
    other ← _naive_is_dst t earlier;
    Ok (negb (Bool.eqb naive_dst other))
  else Ok false.

(** [tzlocal._isdst]; a [datetime] of the host has a [fold]. *)
Definition _isdst (t : time) (self : tzlocal) (dt : naive) : result bool :=
  if negb (_hasdst self) then Ok false
  else
    dstval ← _naive_is_dst t dt;
    ambiguous ← tzlocal_is_ambiguous t self dt;
    if ambiguous : bool then Ok (negb (Ical._fold dt)) else Ok dstval.

(** [utcoffset], [dst] and [tzname] ([dt] is not [None]). *)
Definition tzlocal_utcoffset (t : time) (self : tzlocal) (dt : naive) : result timedelta :=
  isdst ← _isdst t self dt;
  Ok (if isdst : bool then _dst_offset self else _std_offset self).

Definition tzlocal_dst (t : time) (self : tzlocal) (dt : naive) : result timedelta :=
  isdst ← _isdst t self dt;
  Ok (if isdst : bool then _dst_offset self - _std_offset self else ZERO).

Definition tzlocal_tzname (t : time) (self : tzlocal) (dt : naive) : result string :=
  isdst ← _isdst t self dt;
  Ok (if isdst : bool then snd (_tznames self) else fst (_tznames self)).

(** The zones [==] is asked about. *)
Inductive zone : Type :=
| Fixed (f : fixed)
| Local (l : tzlocal).

(** [tzlocal.__eq__] *)
Definition tzlocal___eq__ (self : tzlocal) (other : zone) : eq_result :=
  match other with
  | Local other =>
      PyBool ((_std_offset self =? _std_offset other)
              && (_dst_offset self =? _dst_offset other))
  | Fixed TzUtc =>
      PyBool (negb (_hasdst self)
              && (String.eqb (fst (_tznames self)) "UTC"
                  || String.eqb (fst (_tznames self)) "GMT")
              && (_std_offset self =? ZERO))
  | Fixed (TzOffset other) =>
      PyBool (negb (_hasdst self)
              && match _name other with
                 | Some name => String.eqb (fst (_tznames self)) name
                 | None => false
                 end
              && (_std_offset self =? _offset other))
  end.

(** [__eq__] of each class on any of these zones: [tzutc] and [tzoffset]
    decline a [tzlocal]. *)
Definition zone___eq__ (self other : zone) : eq_result :=
  match self with
  | Local l => tzlocal___eq__ l other
  | Fixed f =>
      match other with
      | Fixed g => __eq__ f g
      | Local _ => NotImplemented
      end
  end.

(** [a == b]: the left operand's method, then the right operand's. *)
Definition zone_eq (a b : zone) : bool :=
  match zone___eq__ a b with
  | PyBool r => r
  | NotImplemented =>
      match zone___eq__ b a with
      | PyBool r => r
      | NotImplemented => false
      end
  end.

(** A [time] module west of Greenwich: five hours in winter, four in
    summer, summer being the timestamps from 10^15 to 2 * 10^15
    microseconds (standard-time reading). *)
Definition eastern : time :=
  {| timezone := 18000; altzone := 14400; daylight := 1;
     tzname := ("EST", "EDT");
     localtime := fun ts =>
       Ok ((1000000000000000 <=? ts - 18000 * US_PER_SECOND)
           && (ts - 18000 * US_PER_SECOND <? 2000000000000000)) |}.

(** Half an hour into the hour that is repeated when summer ends. *)
Definition repeated_half_past : naive :=
  {| ticks := ticks EPOCH + 2000000000000000 + 1800 * US_PER_SECOND; fold := false |}.

(** A [time] module that observes no summer time and calls itself UTC. *)
Definition greenwich : time :=
  {| timezone := 0; altzone := 0; daylight := 0;
     tzname := ("UTC", "UTC");
     localtime := fun _ => Ok false |}.

End Tzlocal.

(** ** Finding a zone by name: [gettz.nocache]

    The function reads the environment: [os.environ], the file system
    ([os.path], [_isfile]), the zone constructors ([tzfile], [tzwin],
    [tzstr], [tzlocal]), the bundled zone files and [time.tzname].  They are
    the fields of [env]; a constructor answers with a zone or raises. *)

Module Nocache.

(** What a call raises: [OSError] (of which [IOError] and [WindowsError]
    are other names) or one of the exceptions of [exn]. *)
Inductive error : Type :=
| OSError (msg : string)
| Exn (e : exn).

Inductive outcome (A : Type) : Type :=
| Return (a : A)
| Throw (e : error).
Arguments Return {A} a.
Arguments Throw {A} e.

(** [except (IOError, OSError, ValueError)] *)
Definition caught_loading (e : error) : bool :=
  match e with
  | OSError _ | Exn (ValueError _) => true
  | Exn _ => false
  end.

(** [except (WindowsError, UnicodeEncodeError)]; the second, kept for
    Python 2.7, is not among the exceptions of [exn]. *)
Definition caught_tzwin (e : error) : bool :=
  match e with
  | OSError _ => true
  | Exn _ => false
  end.

(** [except ValueError] *)
Definition caught_tzstr (e : error) : bool :=
  match e with
  | Exn (ValueError _) => true
  | _ => false
  end.

Record env (T : Type) : Type := mk_env {
  environ_TZ : option string;
  TZFILES : list string;
  TZPATHS : list string;
  isabs : string -> bool;
  join : string -> string -> string;
  _isfile : string -> bool;
  tzfile : string -> option string -> outcome T;
  tzlocal : T;
  tzwin : option (string -> outcome T);
  zonefile_get : string -> option T;
  tzstr : string -> outcome T;
  UTC : T;
  time_tzname : string * string
}.
Arguments environ_TZ {T}.
Arguments TZFILES {T}.
Arguments TZPATHS {T}.
Arguments isabs {T}.
Arguments join {T}.
Arguments _isfile {T}.
Arguments tzfile {T}.
Arguments tzlocal {T}.
Arguments tzwin {T}.
Arguments zonefile_get {T}.
Arguments tzstr {T}.
Arguments UTC {T}.
Arguments time_tzname {T}.

(** [filepath.replace(' ', '_')] *)
Fixpoint replace_spaces (s : string) : string :=
  match s with
  | EmptyString => EmptyString
  | String c rest =>
      String (if Ascii.eqb c " " then "_"%char else c) (replace_spaces rest)
  end.

(** [name.startswith(":")] *)
Definition startswith_colon (s : string) : bool :=
  match s with
  | String c _ => Ascii.eqb c ":"
  | EmptyString => false
  end.

(** Whether the loop [for c in name] meets a digit. *)
Fixpoint has_digit (s : string) : bool :=
  match s with
  | EmptyString => false
  | String c rest => is_some (Str.digit c) || has_digit rest
  end.

Section Lookup.
Context {T : Type}.
Variable e : env T.

(** [for path in TZPATHS: filepath = os.path.join(path, filename); if
    _isfile(filepath): break], and [None] where the [else] clause runs. *)
Fixpoint search_paths (paths : list string) (filename : string) : option string :=
  match paths with
  | [] => None
  | path :: rest =>
      let filepath := join e path filename in
      if _isfile e filepath then Some filepath else search_paths rest filename
  end.

(** [for filepath in TZFILES: ... else: tz = tzlocal()] *)
Fixpoint local_files (files : list string) : outcome T :=
  match files with
  | [] => Return (tzlocal e)
  | filepath :: rest =>
      match (if negb (isabs e filepath) then search_paths (TZPATHS e) filepath
             else Some filepath) with
      | None => local_files rest
      | Some filepath =>
          if _isfile e filepath then
            match tzfile e filepath None with
            | Return tz => Return tz
            | Throw err => if caught_loading err then local_files rest else Throw err
            end
          else local_files rest
      end
  end.

(** Where the loop above finds the file for an entry of [TZFILES]: the
    entry itself when it is absolute, else under the first of [TZPATHS]
    that holds it; [None] where no file is there. *)
Definition located (filepath : string) : option string :=
  match (if negb (isabs e filepath) then search_paths (TZPATHS e) filepath
         else Some filepath) with
  | Some filepath => if _isfile e filepath then Some filepath else None
  | None => None
  end.

(** An entry of [TZFILES] the loop passes over: no file is there, or
    [tzfile] raises one of the errors the loop catches. *)
Definition passed_over (filepath : string) : Prop :=
  match located filepath with
  | None => True
  | Some path =>
      exists err, tzfile e path None = Throw err /\ caught_loading err = true
  end.

(** [for path in TZPATHS: ... tz = tzfile(filepath, key=name); break];
    [None] where the loop ends without [break]. *)
Fixpoint named_files (paths : list string) (name : string) : outcome (option T) :=
  match paths with
  | [] => Return None
  | path :: rest =>
      let filepath := join e path name in
      let found :=
        if _isfile e filepath then Some filepath
        else
          let filepath := replace_spaces filepath in
          if _isfile e filepath then Some filepath else None in
      match found with
      | None => named_files rest name
      | Some filepath =>
          match tzfile e filepath (Some name) with
          | Return tz => Return (Some tz)
          | Throw err => if caught_loading err then named_files rest name else Throw err
          end
      end
  end.

(** The [else] clause of that loop: [tzwin], the bundled zone files, then a
    TZ string when the name holds a digit, [UTC] and [tzlocal] by name when
    it holds none. *)
Definition fall_back (name : string) : outcome (option T) :=
  let from_tzwin :=
    match tzwin e with
    | None => Return None
    | Some tzwin =>
        match tzwin name with
        | Return tz => Return (Some tz)
        | Throw err => if caught_tzwin err then Return None else Throw err
        end
    end in
  match from_tzwin with
  | Throw err => Throw err
  | Return tz =>
      let tz :=
        match tz with
        | Some tz => Some tz
        | None => zonefile_get e name
        end in
      match tz with
      | Some tz => Return (Some tz)
      | None =>
          if has_digit name then
            match tzstr e name with
            | Return tz => Return (Some tz)
            | Throw err => if caught_tzstr err then Return None else Throw err
            end
          else if String.eqb name "GMT" || String.eqb name "UTC" then
            Return (Some (UTC e))
          else if String.eqb name (fst (time_tzname e))
                  || String.eqb name (snd (time_tzname e)) then
            Return (Some (tzlocal e))
          else Return None
      end
  end.

(** [GettzFunc.nocache]; [name] is a [str] or [None]. *)
Definition nocache (name : option string) : outcome (option T) :=
  let name :=
    match name with
    | None | Some EmptyString =>
        match environ_TZ e with
        | Some tz => Some tz
        | None => name
        end
    | Some _ => name
    end in
  let local :=
    match local_files (TZFILES e) with
    | Return tz => Return (Some tz)
    | Throw err => Throw err
    end in
  match name with
  | None => local
  | Some name =>
      if String.eqb name "" || String.eqb name ":" then local
      else
        let name :=
          if startswith_colon name then Str.slice_from name 1 else name in
        if isabs e name then
          if _isfile e name then
            match tzfile e name None with
            | Return tz => Return (Some tz)
            | Throw err => Throw err
            end
          else Return None
        else
          match named_files (TZPATHS e) name with
          | Return (Some tz) => Return (Some tz)
          | Return None => fall_back name
          | Throw err => Throw err
          end
  end.

End Lookup.

(** The environment of a POSIX machine: the module's [TZFILES] and
    [TZPATHS] for [sys.platform != "win32"], [posixpath] for paths whose
    first part does not end with a slash, no [tzwin]; zones are named by
    how they were made. *)
Inductive made : Type :=
| FromFile (path : string)
| FromString (s : string)
| LocalZone
| UtcZone.

Definition posix (files : list string) (tz : option string) : env made :=
  {| environ_TZ := tz;
     TZFILES := ["/etc/localtime"; "localtime"];
     TZPATHS := ["/usr/share/zoneinfo"; "/usr/lib/zoneinfo";
                 "/usr/share/lib/zoneinfo"; "/etc/zoneinfo"];
     isabs := fun s => match s with String "/" _ => true | _ => false end;
     join := fun a b =>
       match b with
       | String "/" _ => b
       | _ => String.append a (String "/" b)
       end;
     _isfile := fun p => existsb (String.eqb p) files;
     tzfile := fun p _ => Return (FromFile p);
     tzlocal := LocalZone;
     tzwin := None;
     zonefile_get := fun _ => None;
     tzstr := fun s => Return (FromString s);
     UTC := UtcZone;
     time_tzname := ("EST", "EDT") |}.

End Nocache.

(** ** The POSIX TZ string parser, for strings without rules

    Modelled from the spec: [parser._parsetz] is not among the sources.
    The spec's grammar is "STDoffset[DST[offset][,start[/time],end[/time]]]"
    with a "bare alphanumeric" abbreviation and a "signed offset
    ([-]HH[:MM[:SS]])"; under the POSIX convention a positive offset is
    west of Greenwich, so "GMT+3" is three hours behind UTC and "EST5" five
    hours behind.  This model reads the part before the rules,
    [STD offset [DST [offset]]], and answers [None] for any other string:
    the rules are outside it. *)

Module Tzparser.
Import Tzrange.

Definition is_letter (c : ascii) : bool :=
  let n := Str.code c in
  (N.leb 65 n && N.leb n 90) || (N.leb 97 n && N.leb n 122).

(** The longest run of letters at the head of [s], and the rest. *)
Fixpoint take_letters (s : string) : string * string :=
  match s with
  | String c rest =>
      if is_letter c then
        let '(a, r) := take_letters rest in (String c a, r)
      else (EmptyString, s)
  | EmptyString => (EmptyString, s)
  end.

(** One or two digits at the head of [s]. *)
Definition take_number (s : string) : option (Z * string) :=
  match s with
  | String c1 rest =>
      match Str.digit c1 with
      | Some d1 =>
          match rest with
          | String c2 rest' =>
              match Str.digit c2 with
              | Some d2 => Some (d1 * 10 + d2, rest')
              | None => Some (d1, rest)
              end
          | EmptyString => Some (d1, rest)
          end
      | None => None
      end
  | EmptyString => None
  end.

(** [:NN] at the head of [s], when there is one. *)
Definition take_colon_number (s : string) : Z * string :=
  match s with
  | String ":" rest =>
      match take_number rest with
      | Some (n, rest') => (n, rest')
      | None => (0, s)
      end
  | _ => (0, s)
  end.

(** A signed offset at the head of [s], in seconds east of Greenwich. *)
Definition take_offset (s : string) : option (Z * string) :=
  let '(signal, body) :=
    match s with
    | String "+" rest => (-1, rest)
    | String "-" rest => (1, rest)
    | _ => (-1, s)
    end in
  match take_number body with
  | Some (h, rest) =>
      let '(m, rest) := take_colon_number rest in
      let '(sec, rest) := take_colon_number rest in
      Some (signal * (h * 3600 + m * 60 + sec), rest)
  | None => None
  end.

Definition no_attr : _attr :=
  {| a_month := None; a_week := None; a_weekday := None; a_yday := None;
     a_jyday := None; a_day := None; a_time := None |}.

Definition _parsetz (s : string) : option _result :=
  let '(std, rest) := take_letters s in
  if Str.is_empty std then None
  else
    match take_offset rest with
    | None => None
    | Some (stdoff, rest) =>
        let '(dstname, rest) := take_letters rest in
        let '(dstoff, rest) :=
          if Str.is_empty dstname then (None, rest)
          else
            match take_offset rest with
            | Some (o, rest) => (Some o, rest)
            | None => (None, rest)
            end in
        if Str.is_empty rest then
          Some {| stdabbr := Some std; stdoffset := Some stdoff;
                  dstabbr := if Str.is_empty dstname then None else Some dstname;
                  dstoffset := dstoff;
                  start := no_attr; end_ := no_attr;
                  any_unused_tokens := false |}
        else None
    end.

End Tzparser.

(** ** Checks by computation

    Calendar facts over the years [MINYEAR] .. [MAXYEAR] are settled by
    running the model on each year. *)

Module Checks.
Import Relativedelta Tzrange.

(** The default rules of [tzrange.__init__]. *)
Definition default_start : relativedelta :=
  relativedelta_new 2 0 (Some 4) (Some 1) (Some (SU 1)) None None.
Definition default_end : relativedelta :=
  relativedelta_new 1 0 (Some 10) (Some 31) (Some (SU (-1))) None None.

(** [transitions] of a zone with the two given rules. *)
Definition rule_transitions (start end_ : relativedelta) (year : Z)
  : result (option (naive * naive)) :=
  base_year ← datetime_new year 1 1 0 0 0;
  start ← radd base_year start;
  end_ ← radd base_year end_;
  Ok (Some (start, end_)).

(** [_ord2ymd] reads 1 January of [year] back from its ordinal. *)
Definition jan1_ok (year : Z) : bool :=
  match _ord2ymd (_days_before_year year + 1) with
  | (y, m, d) => (y =? year) && (m =? 1) && (d =? 1)
  end.

Definition years : list Z := map Z.of_nat (seq 1 (Z.to_nat MAXYEAR)).

End Checks.

Import FixedOffset Relativedelta Tzrange Ical Tzical Gettz Resolver Examples Checks.

(* ===================================================================== *)
(** * Part II: properties                                                 *)
(* ===================================================================== *)

(** ** Fixed offsets *)

(** Between [tzutc] and [tzoffset] instances one of the two [__eq__]
    methods always answers, so [==] never falls back on identity. *)
Lemma eq_decided (a b : fixed) :
  __eq__ a b <> NotImplemented \/ __eq__ b a <> NotImplemented.
Proof.
  destruct a as [|za], b as [|zb]; simpl; (left; discriminate) || (right; discriminate).
Qed.

Lemma py_eq_offsets (z1 z2 : tzoffset) :
  py_eq (TzOffset z1) (TzOffset z2) = true <-> _offset z1 = _offset z2.
Proof.
  unfold py_eq; simpl. apply Z.eqb_eq.
Qed.

Lemma py_eq_sym (a b : fixed) : py_eq a b = py_eq b a.
Proof.
  destruct a as [|za], b as [|zb]; unfold py_eq; simpl; auto using Z.eqb_sym.
Qed.

Lemma tzoffset_init_seconds (name : option string) (s : Z) :
  _offset (tzoffset_init true name (Seconds s)) = timedelta_seconds s.
Proof.
  unfold tzoffset_init, _get_supported_offset, timedelta_seconds, mk_timedelta; simpl.
  lia.
Qed.

(** C7. Two [tzoffset] instances are equal exactly when their offsets are,
    whatever their names; constructed from whole seconds (Python 3.6 on)
    that is when the seconds agree.  [tzoffset("UTC", 0)] equals the
    [tzutc] singleton, on either side of [==]; [tzutc()] differs from every
    [tzoffset] whose offset is not zero. *)
Theorem fixed_offset_equality :
  (forall z1 z2 : tzoffset,
      py_eq (TzOffset z1) (TzOffset z2) = true <-> _offset z1 = _offset z2)
  /\ (forall (n1 n2 : option string) (s1 s2 : Z),
         py_eq (TzOffset (tzoffset_init true n1 (Seconds s1)))
               (TzOffset (tzoffset_init true n2 (Seconds s2))) = true
         <-> s1 = s2)
  /\ (forall py36 : bool,
         py_eq (TzOffset (tzoffset_init py36 (Some "UTC") (Seconds 0))) TzUtc = true
         /\ py_eq TzUtc (TzOffset (tzoffset_init py36 (Some "UTC") (Seconds 0))) = true)
  /\ (forall z : tzoffset,
         _offset z <> ZERO ->
         py_eq TzUtc (TzOffset z) = false /\ py_ne TzUtc (TzOffset z) = true
         /\ py_eq (TzOffset z) TzUtc = false).
Proof.
  split; [exact py_eq_offsets|].
  split.
  { intros n1 n2 s1 s2. rewrite py_eq_offsets, !tzoffset_init_seconds.
    unfold timedelta_seconds, mk_timedelta, US_PER_SECOND. lia. }
  split.
  { intros [|]; split; reflexivity. }
  intros z Hz.
  assert (Hu : py_eq TzUtc (TzOffset z) = false).
  { unfold py_eq; simpl. apply Z.eqb_neq. exact Hz. }
  unfold py_ne. rewrite (py_eq_sym (TzOffset z)), Hu. auto.
Qed.

(** The zone five hours west is not UTC. *)
Lemma fixed_offset_equality_witness :
  py_eq TzUtc (TzOffset (tzoffset_init true (Some "EST") (Seconds (-18000)))) = false.
Proof.
  apply (proj2 (proj2 (proj2 fixed_offset_equality))).
  vm_compute. discriminate.
Defined.

(** ** [tzrange] and [tzstr] *)

Lemma truthy_false_hasdst (stdabbr dstabbr : option string)
    (stdoffset dstoffset : option offset_arg) :
  truthy dstabbr = false ->
  hasdst (tzrange_init stdabbr stdoffset dstabbr dstoffset DeltaNone DeltaNone) = false.
Proof.
  intros H. unfold tzrange_init; simpl. rewrite H. reflexivity.
Qed.

(** A zone without DST rule reports its standard offset at every time. *)
Lemma utcoffset_without_dst (z : tzrange) (dt : naive) :
  hasdst z = false -> tzrange_utcoffset z dt = Ok (_std_offset z).
Proof.
  intros H. unfold tzrange_utcoffset, _isdst. rewrite H. reflexivity.
Qed.

(** The date part of a well-formed rule is readable, and the rule built
    from it is never empty. *)
Lemma _delta_ok (std_offset dst_offset : timedelta) (x : _attr) (isend : bool) :
  attr_wf x = true ->
  exists rd, _delta std_offset dst_offset x isend = Ok rd /\ relativedelta_bool rd = true.
Proof.
  intros Hwf. unfold _delta, _delta_date, attr_wf in *.
  destruct (a_month x) as [m|]; simpl in *.
  - destruct (a_weekday x) as [w|]; simpl in *.
    + destruct (a_week x) as [k|]; simpl in *; [|discriminate].
      eexists; split; [reflexivity|].
      unfold relativedelta_bool; simpl. destruct (negb _); reflexivity.
    + eexists; split; [reflexivity|].
      unfold relativedelta_bool; simpl. destruct (negb _); reflexivity.
  - destruct (a_yday x) as [y|], (a_jyday x) as [j|]; simpl;
      (eexists; split; [reflexivity|]); destruct isend; unfold relativedelta_bool; simpl;
      destruct (negb _); reflexivity.
Qed.

(** [tzstr.__init__] succeeds on a well-formed parse result that has a
    standard offset; the zone it builds has that offset, negated for GMT
    and UTC unless [posix_offset] is set, and has DST exactly when the
    string names a DST abbreviation. *)
Lemma tzstr_init_ok (res : _result) (posix_offset : bool) (off : Z) :
  stdoffset res = Some off ->
  any_unused_tokens res = false ->
  attr_wf (start res) = true ->
  attr_wf (end_ res) = true ->
  exists z,
    tzstr_init (Some res) posix_offset = Ok z
    /\ _std_offset z =
         timedelta_seconds
           (if is_gmt_or_utc (stdabbr res) && negb posix_offset then off * -1 else off)
    /\ hasdst z = truthy (dstabbr res).
Proof.
  intros Hoff Hun Hs He. unfold tzstr_init. rewrite Hun, Hoff.
  destruct (is_gmt_or_utc (stdabbr res) && negb posix_offset); simpl;
    destruct (truthy (dstabbr res)) eqn:Ht; simpl.
  all: try (eexists; split; [reflexivity|]; split; reflexivity).
  all: match goal with
       | |- context [_delta ?a ?b (start ?r) false] =>
           destruct (_delta_ok a b (start r) false Hs) as (sd & Hsd & Hb);
           destruct (_delta_ok a b (end_ r) true He) as (ed & Hed & _)
       end;
       rewrite Hsd; simpl; rewrite Hb, Hed; simpl;
       eexists; split; [reflexivity|]; split; [reflexivity|exact Hb].
Qed.

(** C2. For a TZ string whose standard abbreviation is GMT or UTC and
    which carries an offset [off] (in the POSIX reading, seconds east of
    Greenwich), [tzstr] with the default [posix_offset=False] builds a zone
    with standard offset [-off], and with [posix_offset=True] one with
    standard offset [off]; when the string names no DST abbreviation these
    are the zones' UTC offsets at every time. *)
Theorem tzstr_gmt_sign_flip (res : _result) (off : Z) :
  is_gmt_or_utc (stdabbr res) = true ->
  stdoffset res = Some off ->
  any_unused_tokens res = false ->
  attr_wf (start res) = true ->
  attr_wf (end_ res) = true ->
  exists flipped strict : tzrange,
    tzstr_init (Some res) false = Ok flipped
    /\ tzstr_init (Some res) true = Ok strict
    /\ _std_offset flipped = timedelta_seconds (- off)
    /\ _std_offset strict = timedelta_seconds off
    /\ (truthy (dstabbr res) = false ->
        forall dt : naive,
          tzrange_utcoffset flipped dt = Ok (timedelta_seconds (- off))
          /\ tzrange_utcoffset strict dt = Ok (timedelta_seconds off)).
Proof.
  intros Hgmt Hoff Hun Hs He.
  destruct (tzstr_init_ok res false off Hoff Hun Hs He) as (z1 & H1 & Ho1 & Hd1).
  destruct (tzstr_init_ok res true off Hoff Hun Hs He) as (z2 & H2 & Ho2 & Hd2).
  rewrite Hgmt in Ho1, Ho2. simpl in Ho1, Ho2.
  replace (off * -1) with (- off) in Ho1 by lia.
  exists z1, z2. repeat split; try assumption.
  - rewrite utcoffset_without_dst by congruence. congruence.
  - rewrite utcoffset_without_dst by congruence. congruence.
Qed.

(** "GMT+3": three hours ahead of UTC by default, three hours behind under
    [posix_offset=True]. *)
Lemma tzstr_gmt_sign_flip_witness :
  exists flipped strict : tzrange,
    tzstr_init (Tzparser._parsetz "GMT+3") false = Ok flipped
    /\ tzstr_init (Tzparser._parsetz "GMT+3") true = Ok strict
    /\ (forall dt, tzrange_utcoffset flipped dt = Ok (timedelta_hours 3))
    /\ (forall dt, tzrange_utcoffset strict dt = Ok (timedelta_hours (-3))).
Proof.
  destruct (tzstr_gmt_sign_flip
              {| stdabbr := Some "GMT"; stdoffset := Some (-10800); dstabbr := None;
                 dstoffset := None; start := Tzparser.no_attr; end_ := Tzparser.no_attr;
                 any_unused_tokens := false |}
              (-10800) eq_refl eq_refl eq_refl eq_refl eq_refl)
    as (z1 & z2 & H1 & H2 & _ & _ & Hu).
  exists z1, z2. split; [exact H1|]. split; [exact H2|].
  split; intros dt; destruct (Hu eq_refl dt) as [Ha Hb]; [exact Ha|exact Hb].
Defined.

Lemma opt_string_eqb_refl (a : option string) : opt_string_eqb a a = true.
Proof. destruct a; simpl; [apply String.eqb_refl|reflexivity]. Qed.

(** A TZ string that names a DST abbreviation but gives neither a DST
    offset nor rules builds the zone [tzrange] builds from the same
    abbreviations and standard offset with everything else defaulted: the
    rule [_delta] writes with [seconds=7200] is the default rule written
    with [hours=+2], and the end rule, moved to the standard side by the
    hour of DST, is the default [hours=+1]. *)
Lemma tzstr_defaults_eq_tzrange (res : _result) (off : Z) :
  stdoffset res = Some off ->
  is_gmt_or_utc (stdabbr res) = false ->
  truthy (dstabbr res) = true ->
  dstoffset res = None ->
  start res = Tzparser.no_attr ->
  end_ res = Tzparser.no_attr ->
  any_unused_tokens res = false ->
  exists z,
    tzstr_init (Some res) false = Ok z
    /\ tzrange___eq__ z
         (tzrange_init (stdabbr res) (Some (Seconds off)) (dstabbr res) None
                       DeltaNone DeltaNone) = true.
Proof.
  intros Hoff Hgmt Hdst Hdo Hs He Hun.
  unfold tzstr_init. rewrite Hun, Hoff, Hgmt, Hdst, Hdo, Hs, He. simpl.
  eexists; split; [reflexivity|].
  unfold tzrange___eq__, tzrange_init; simpl. rewrite Hdst; simpl.
  rewrite !opt_string_eqb_refl, !Z.eqb_refl; simpl.
  unfold relativedelta_eqb; simpl.
  replace ((timedelta_seconds off + timedelta_hours 1 - timedelta_seconds off)
             `div` US_PER_SECOND) with 3600.
  - reflexivity.
  - unfold timedelta_seconds, timedelta_hours, mk_timedelta, US_PER_SECOND.
    apply (Z.div_unique _ _ _ 0); lia.
Qed.

(** C3. [tzstr('EST5EDT')], with the default [posix_offset], equals
    [tzrange("EST", -18000, "EDT")], whichever of the two stands on the
    left of [==]. *)
Theorem tzstr_EST5EDT_eq_tzrange :
  exists z : tzrange,
    tzstr_init (Tzparser._parsetz "EST5EDT") false = Ok z
    /\ tzrange___eq__ z
         (tzrange_init (Some "EST") (Some (Seconds (-18000))) (Some "EDT") None
                       DeltaNone DeltaNone) = true
    /\ tzrange___eq__
         (tzrange_init (Some "EST") (Some (Seconds (-18000))) (Some "EDT") None
                       DeltaNone DeltaNone) z = true.
Proof.
  destruct (tzstr_defaults_eq_tzrange
              {| stdabbr := Some "EST"; stdoffset := Some (-18000);
                 dstabbr := Some "EDT"; dstoffset := None;
                 start := Tzparser.no_attr; end_ := Tzparser.no_attr;
                 any_unused_tokens := false |}
              (-18000) eq_refl eq_refl eq_refl eq_refl eq_refl eq_refl eq_refl)
    as (z & Hz & Heq).
  exists z. split; [exact Hz|]. split; [exact Heq|].
  change (tzstr_init (Tzparser._parsetz "EST5EDT") false = Ok z) in Hz.
  vm_compute in Hz. inversion Hz; subst. vm_compute. reflexivity.
Qed.

(** *** Default rules *)

Lemma jan1_all_years : forallb jan1_ok years = true.
Proof. vm_compute. reflexivity. Qed.

Lemma in_years (y : Z) : MINYEAR <= y <= MAXYEAR -> In y years.
Proof.
  unfold years, MINYEAR, MAXYEAR. intros Hy.
  replace y with (Z.of_nat (Z.to_nat y)) by lia.
  apply in_map, in_seq. lia.
Qed.

Lemma ord2ymd_jan1 (y : Z) :
  MINYEAR <= y <= MAXYEAR -> _ord2ymd (_days_before_year y + 1) = (y, 1, 1).
Proof.
  intros Hy. pose proof jan1_all_years as H.
  rewrite forallb_forall in H. specialize (H y (in_years y Hy)).
  unfold jan1_ok in H. destruct (_ord2ymd _) as [[y' m] d].
  apply andb_true_iff in H as [H Hd]. apply andb_true_iff in H as [H Hm].
  apply Z.eqb_eq in H, Hm, Hd. congruence.
Qed.

Lemma days_before_year_bounds (y : Z) :
  MINYEAR <= y <= MAXYEAR -> 0 <= _days_before_year y <= 3651694.
Proof.
  unfold MINYEAR, MAXYEAR, _days_before_year. intros Hy.
  Z.div_mod_to_equations. lia.
Qed.

Lemma datetime_new_ok (y m d h mi s : Z) :
  MINYEAR <= y <= MAXYEAR -> 1 <= m <= 12 -> 1 <= d <= _days_in_month y m ->
  0 <= h <= 23 -> 0 <= mi <= 59 -> 0 <= s <= 59 ->
  datetime_new y m d h mi s =
    Ok {| ticks := (((_ymd2ord y m d - 1) * 24 + h) * 60 + mi) * 60 * US_PER_SECOND
                   + s * US_PER_SECOND;
          fold := false |}.
Proof.
  intros. unfold datetime_new, MINYEAR, MAXYEAR in *.
  rewrite !(proj2 (Z.leb_le _ _)) by lia. reflexivity.
Qed.

Lemma replace_ymd_ok (dt : naive) (y m d : Z) :
  MINYEAR <= y <= MAXYEAR -> 1 <= m <= 12 -> 1 <= d <= _days_in_month y m ->
  replace_ymd dt y m d =
    Ok {| ticks := (_ymd2ord y m d - 1) * US_PER_DAY + time_of dt; fold := fold dt |}.
Proof.
  intros. unfold replace_ymd, MINYEAR, MAXYEAR in *.
  rewrite !(proj2 (Z.leb_le _ _)) by lia. reflexivity.
Qed.

Lemma dt_add_ok (dt : naive) (td : timedelta) :
  0 <= ticks dt + td < MAX_TICKS ->
  dt_add dt td = Ok {| ticks := ticks dt + td; fold := false |}.
Proof.
  intros. unfold dt_add, in_range.
  destruct (Z.leb_spec 0 (ticks dt + td)); [|lia].
  destruct (Z.ltb_spec (ticks dt + td) MAX_TICKS); [|lia]. reflexivity.
Qed.

Lemma toordinal_at (k r : Z) (f : bool) :
  0 <= r < US_PER_DAY -> toordinal {| ticks := k * US_PER_DAY + r; fold := f |} = k + 1.
Proof.
  intros Hr. unfold toordinal; simpl. f_equal.
  symmetry. apply (Z.div_unique _ _ _ r); lia.
Qed.

Lemma time_of_at (k r : Z) (f : bool) :
  0 <= r < US_PER_DAY -> time_of {| ticks := k * US_PER_DAY + r; fold := f |} = r.
Proof.
  intros Hr. unfold time_of; simpl.
  symmetry. apply (Z.mod_unique _ _ k r); lia.
Qed.

(** 1 January of [y], as [transitions] builds it. *)
Lemma base_year_ok (y : Z) :
  MINYEAR <= y <= MAXYEAR ->
  datetime_new y 1 1 0 0 0 =
    Ok {| ticks := _days_before_year y * US_PER_DAY + 0; fold := false |}.
Proof.
  intros Hy. rewrite datetime_new_ok by (unfold _days_in_month; simpl; lia).
  do 2 f_equal. unfold _ymd2ord, _days_before_month, US_PER_DAY; simpl. lia.
Qed.

Lemma year_of_base (y : Z) :
  MINYEAR <= y <= MAXYEAR ->
  year_of {| ticks := _days_before_year y * US_PER_DAY + 0; fold := false |} = y.
Proof.
  intros Hy. unfold year_of. rewrite toordinal_at by (unfold US_PER_DAY, US_PER_SECOND; lia).
  rewrite ord2ymd_jan1 by exact Hy. reflexivity.
Qed.

(** Days before a month that follows February. *)
Lemma days_before_month_late (y m : Z) :
  2 < m ->
  _days_before_month y m = _DAYS_BEFORE_MONTH m + (if _is_leap y then 1 else 0).
Proof.
  intros Hm. unfold _days_before_month.
  rewrite (proj2 (Z.ltb_lt 2 m)) by lia. reflexivity.
Qed.

Lemma toordinal_of (dt : naive) (k r : Z) :
  ticks dt = k * US_PER_DAY + r -> 0 <= r < US_PER_DAY -> toordinal dt = k + 1.
Proof.
  intros Ht Hr. unfold toordinal. rewrite Ht. f_equal.
  symmetry. apply (Z.div_unique _ _ _ r); lia.
Qed.

Lemma radd_steps (dt a ret : naive) (rd : relativedelta) :
  anchor dt rd = Ok a ->
  dt_add a (timedelta_seconds (rd_seconds rd)) = Ok ret ->
  radd dt rd =
    match rd_weekday rd with
    | None => Ok ret
    | Some w =>
        dt_add ret
          (timedelta_days
             (if 0 <? nth_or_first w
              then (Z.abs (nth_or_first w) - 1) * 7 + (7 - weekday ret + wd w) mod 7
              else - ((Z.abs (nth_or_first w) - 1) * 7 + (weekday ret - wd w) mod 7)))
    end.
Proof.
  intros Ha Hr. unfold radd. rewrite Ha; simpl. rewrite Hr; simpl. reflexivity.
Qed.

Lemma default_start_sunday (y : Z) :
  MINYEAR <= y <= MAXYEAR ->
  exists d s,
    radd {| ticks := _days_before_year y * US_PER_DAY + 0; fold := false |} default_start
      = Ok s
    /\ datetime_new y 4 d 2 0 0 = Ok s
    /\ 1 <= d <= 7 /\ weekday s = 6.
Proof.
  intros Hy.
  pose proof (days_before_year_bounds y Hy) as HD.
  set (base := {| ticks := _days_before_year y * US_PER_DAY + 0; fold := false |}).
  set (L := if _is_leap y then 1 else 0).
  assert (HL : 0 <= L <= 1) by (subst L; destruct (_is_leap y); lia).
  assert (Hord : forall d, _ymd2ord y 4 d = _days_before_year y + 90 + L + d).
  { intros d. unfold _ymd2ord. rewrite days_before_month_late by lia.
    subst L. simpl _DAYS_BEFORE_MONTH. lia. }
  assert (Ha : anchor base default_start
               = Ok {| ticks := (_ymd2ord y 4 1 - 1) * US_PER_DAY + 0; fold := false |}).
  { unfold anchor, default_start, relativedelta_new; simpl.
    unfold base. rewrite year_of_base by exact Hy.
    rewrite replace_ymd_ok by (unfold _days_in_month; simpl; lia).
    rewrite time_of_at by (unfold US_PER_DAY, US_PER_SECOND; lia). reflexivity. }
  set (A := _days_before_year y + 90 + L) in *.
  set (ret := {| ticks := A * US_PER_DAY + 7200 * US_PER_SECOND; fold := false |}).
  assert (Hret : dt_add {| ticks := (_ymd2ord y 4 1 - 1) * US_PER_DAY + 0; fold := false |}
                   (timedelta_seconds (rd_seconds default_start)) = Ok ret).
  { rewrite dt_add_ok; simpl; rewrite Hord.
    - unfold ret. do 2 f_equal.
      unfold timedelta_seconds, mk_timedelta, US_PER_DAY, US_PER_SECOND. lia.
    - unfold timedelta_seconds, mk_timedelta, MAX_TICKS, US_PER_DAY, US_PER_SECOND.
      subst A. lia. }
  rewrite (radd_steps _ _ _ _ Ha Hret).
  assert (Hwd : weekday ret = (A + 1 + 6) mod 7).
  { unfold weekday, weekday_of_ordinal.
    rewrite (toordinal_of ret A (7200 * US_PER_SECOND));
      [reflexivity|reflexivity|unfold US_PER_DAY, US_PER_SECOND; lia]. }
  simpl rd_weekday. cbv iota. 
  replace (nth_or_first (SU 1)) with 1 by reflexivity.
  replace (wd (SU 1)) with 6 by reflexivity.
  replace (0 <? 1) with true by reflexivity. cbv iota.
  rewrite Hwd.
  set (j := (Z.abs 1 - 1) * 7 + (7 - (A + 1 + 6) mod 7 + 6) mod 7).
  assert (Hj : 0 <= j <= 6 /\ (A + j + 1 + 6) mod 7 = 6).
  { subst j. simpl Z.abs. Z.div_mod_to_equations. lia. }
  destruct Hj as [Hj Hsun].
  exists (1 + j), {| ticks := (A + j) * US_PER_DAY + 7200 * US_PER_SECOND; fold := false |}.
  split; [|split; [|split]].
  - rewrite dt_add_ok; simpl.
    + do 2 f_equal. unfold timedelta_days, mk_timedelta, US_PER_DAY, US_PER_SECOND. lia.
    + unfold timedelta_days, mk_timedelta, MAX_TICKS, US_PER_DAY, US_PER_SECOND.
      subst A. lia.
  - rewrite datetime_new_ok by (unfold _days_in_month; simpl; lia).
    rewrite Hord. do 2 f_equal. unfold US_PER_DAY, US_PER_SECOND. subst A. lia.
  - lia.
  - unfold weekday, weekday_of_ordinal.
    rewrite (toordinal_of _ (A + j) (7200 * US_PER_SECOND));
      [exact Hsun|reflexivity|unfold US_PER_DAY, US_PER_SECOND; lia].
Qed.

Lemma default_end_sunday (y : Z) :
  MINYEAR <= y <= MAXYEAR ->
  exists d e,
    radd {| ticks := _days_before_year y * US_PER_DAY + 0; fold := false |} default_end
      = Ok e
    /\ datetime_new y 10 d 1 0 0 = Ok e
    /\ 25 <= d <= 31 /\ weekday e = 6.
Proof.
  intros Hy.
  pose proof (days_before_year_bounds y Hy) as HD.
  set (base := {| ticks := _days_before_year y * US_PER_DAY + 0; fold := false |}).
  set (L := if _is_leap y then 1 else 0).
  assert (HL : 0 <= L <= 1) by (subst L; destruct (_is_leap y); lia).
  assert (Hord : forall d, _ymd2ord y 10 d = _days_before_year y + 273 + L + d).
  { intros d. unfold _ymd2ord. rewrite days_before_month_late by lia.
    subst L. simpl _DAYS_BEFORE_MONTH. lia. }
  assert (Ha : anchor base default_end
               = Ok {| ticks := (_ymd2ord y 10 31 - 1) * US_PER_DAY + 0; fold := false |}).
  { unfold anchor, default_end, relativedelta_new; simpl.
    unfold base. rewrite year_of_base by exact Hy.
    rewrite replace_ymd_ok by (unfold _days_in_month; simpl; lia).
    rewrite time_of_at by (unfold US_PER_DAY, US_PER_SECOND; lia). reflexivity. }
  set (A := _days_before_year y + 273 + L + 30) in *.
  set (ret := {| ticks := A * US_PER_DAY + 3600 * US_PER_SECOND; fold := false |}).
  assert (Hret : dt_add {| ticks := (_ymd2ord y 10 31 - 1) * US_PER_DAY + 0; fold := false |}
                   (timedelta_seconds (rd_seconds default_end)) = Ok ret).
  { rewrite dt_add_ok; simpl; rewrite Hord.
    - unfold ret. do 2 f_equal.
      unfold timedelta_seconds, mk_timedelta, US_PER_DAY, US_PER_SECOND. subst A. lia.
    - unfold timedelta_seconds, mk_timedelta, MAX_TICKS, US_PER_DAY, US_PER_SECOND.
      lia. }
  rewrite (radd_steps _ _ _ _ Ha Hret).
  assert (Hwd : weekday ret = (A + 1 + 6) mod 7).
  { unfold weekday, weekday_of_ordinal.
    rewrite (toordinal_of ret A (3600 * US_PER_SECOND));
      [reflexivity|reflexivity|unfold US_PER_DAY, US_PER_SECOND; lia]. }
  simpl rd_weekday. cbv iota.
  replace (nth_or_first (SU (-1))) with (-1) by reflexivity.
  replace (wd (SU (-1))) with 6 by reflexivity.
  replace (0 <? -1) with false by reflexivity. cbv iota.
  rewrite Hwd.
  set (j := (Z.abs (-1) - 1) * 7 + ((A + 1 + 6) mod 7 - 6) mod 7).
  assert (Hj : 0 <= j <= 6 /\ (A - j + 1 + 6) mod 7 = 6).
  { subst j. simpl Z.abs. Z.div_mod_to_equations. lia. }
  destruct Hj as [Hj Hsun].
  exists (31 - j), {| ticks := (A - j) * US_PER_DAY + 3600 * US_PER_SECOND; fold := false |}.
  split; [|split; [|split]].
  - rewrite dt_add_ok; simpl.
    + do 2 f_equal. unfold timedelta_days, mk_timedelta, US_PER_DAY, US_PER_SECOND. lia.
    + unfold timedelta_days, mk_timedelta, MAX_TICKS, US_PER_DAY, US_PER_SECOND.
      subst A. lia.
  - rewrite datetime_new_ok by (unfold _days_in_month; simpl; lia).
    rewrite Hord. do 2 f_equal. unfold US_PER_DAY, US_PER_SECOND. subst A. lia.
  - lia.
  - unfold weekday, weekday_of_ordinal.
    rewrite (toordinal_of _ (A - j) (3600 * US_PER_SECOND));
      [exact Hsun|reflexivity|unfold US_PER_DAY, US_PER_SECOND; lia].
Qed.

Lemma rule_transitions_steps (start end_ : relativedelta) (year : Z)
    (base s e : naive) :
  datetime_new year 1 1 0 0 0 = Ok base ->
  radd base start = Ok s ->
  radd base end_ = Ok e ->
  rule_transitions start end_ year = Ok (Some (s, e)).
Proof.
  intros Hb Hs He. unfold rule_transitions.
  rewrite Hb; simpl. rewrite Hs; simpl. rewrite He; reflexivity.
Qed.

Lemma transitions_default_rules (stdabbr dstabbr : option string)
    (stdoffset dstoffset : option offset_arg) (year : Z) :
  truthy dstabbr = true ->
  transitions (tzrange_init stdabbr stdoffset dstabbr dstoffset DeltaNone DeltaNone) year
  = rule_transitions default_start default_end year.
Proof.
  intros Hd. unfold transitions, tzrange_init; simpl. rewrite Hd. reflexivity.
Qed.

(** C4. A [tzrange] built with a DST abbreviation and no rules has, in
    every year [datetime] can hold, the transitions (2:00 on the first
    Sunday of April, 1:00 on the last Sunday of October): a Sunday among
    1..7 April and a Sunday among 25..31 October.  A [tzrange] built
    without DST abbreviation and without rules has no transitions, in any
    year. *)
Theorem tzrange_default_transitions :
  (forall (stdabbr dstabbr : option string) (stdoffset dstoffset : option offset_arg)
          (year : Z),
      truthy dstabbr = true ->
      MINYEAR <= year <= MAXYEAR ->
      exists (d1 d2 : Z) (dston dstoff : naive),
        transitions
          (tzrange_init stdabbr stdoffset dstabbr dstoffset DeltaNone DeltaNone) year
        = Ok (Some (dston, dstoff))
        /\ datetime_new year 4 d1 2 0 0 = Ok dston
        /\ 1 <= d1 <= 7 /\ weekday dston = 6
        /\ datetime_new year 10 d2 1 0 0 = Ok dstoff
        /\ 25 <= d2 <= 31 /\ weekday dstoff = 6)
  /\ (forall (stdabbr dstabbr : option string) (stdoffset dstoffset : option offset_arg)
             (year : Z),
         truthy dstabbr = false ->
         transitions
           (tzrange_init stdabbr stdoffset dstabbr dstoffset DeltaNone DeltaNone) year
         = Ok None).
Proof.
  split.
  - intros stdabbr dstabbr stdoffset dstoffset year Hd Hy.
    rewrite transitions_default_rules by exact Hd.
    destruct (default_start_sunday year Hy) as (d1 & s & Hs & Hs' & Hd1 & Hw1).
    destruct (default_end_sunday year Hy) as (d2 & e & He & He' & Hd2 & Hw2).
    exists d1, d2, s, e.
    split; [exact (rule_transitions_steps _ _ _ _ _ _ (base_year_ok year Hy) Hs He)|].
    repeat split; (assumption || lia).
  - intros stdabbr dstabbr stdoffset dstoffset year Hd.
    unfold transitions. rewrite truthy_false_hasdst by exact Hd. reflexivity.
Qed.

(** 2023: 2 April 2:00 and 29 October 1:00, for [tzrange("EST", -18000, "EDT")]. *)
Lemma tzrange_default_transitions_witness :
  exists (d1 d2 : Z) (dston dstoff : naive),
    transitions
      (tzrange_init (Some "EST") (Some (Seconds (-18000))) (Some "EDT") None
                    DeltaNone DeltaNone) 2023
    = Ok (Some (dston, dstoff))
    /\ datetime_new 2023 4 d1 2 0 0 = Ok dston
    /\ 1 <= d1 <= 7 /\ weekday dston = 6
    /\ datetime_new 2023 10 d2 1 0 0 = Ok dstoff
    /\ 25 <= d2 <= 31 /\ weekday dstoff = 6.
Proof.
  apply (proj1 tzrange_default_transitions); [reflexivity|].
  unfold MINYEAR, MAXYEAR. lia.
Defined.

(** ** iCalendar zones: the component in effect *)

Lemma latest_comp_none_occurred (comps : list _tzicalvtzcomp) (dt : naive)
    (last : option (naive * _tzicalvtzcomp)) :
  none_occurred comps dt -> latest_comp comps dt last = Ok last.
Proof.
  unfold none_occurred. induction 1 as [|comp rest Hc _ IH]; simpl.
  - reflexivity.
  - rewrite Hc; simpl. exact IH.
Qed.

Lemma select_comp_none_occurred (comps : list _tzicalvtzcomp) (dt : naive) :
  none_occurred comps dt -> select_comp comps dt = first_standard comps.
Proof.
  intros H. unfold select_comp. rewrite latest_comp_none_occurred by exact H.
  reflexivity.
Qed.

(** With no entry for [dt] in the cache, a zone of several components
    answers what the two loops select. *)
Lemma find_comp_uncached (self : _tzicalvtz) (dt : naive) :
  length (_comps self) <> 1%nat ->
  cache_index (dt, _fold dt) (_cachedate self) = None ->
  fst (_find_comp self dt) = select_comp (_comps self) dt.
Proof.
  intros Hlen Hmiss. unfold _find_comp. rewrite Hmiss.
  destruct (_comps self) as [|c1 [|c2 rest]] eqn:Hc.
  - destruct (select_comp [] dt); simpl; [|reflexivity].
    destruct (10 <? _); reflexivity.
  - simpl in Hlen. congruence.
  - destruct (select_comp (c1 :: c2 :: rest) dt); simpl; [|reflexivity].
    destruct (10 <? _); reflexivity.
Qed.

(** Before every onset the component used is the first STANDARD one in
    definition order, when there is one. *)
Lemma find_comp_first_standard (self : _tzicalvtz) (dt : naive)
    (comp : _tzicalvtzcomp) :
  (1 < length (_comps self))%nat ->
  cache_index (dt, _fold dt) (_cachedate self) = None ->
  none_occurred (_comps self) dt ->
  List.find (fun c => negb (isdst c)) (_comps self) = Some comp ->
  fst (_find_comp self dt) = Ok comp.
Proof.
  intros Hlen Hmiss Hnone Hfind.
  rewrite find_comp_uncached by (lia || assumption).
  rewrite select_comp_none_occurred by exact Hnone.
  unfold first_standard. rewrite Hfind. reflexivity.
Qed.

(** Before every onset, and with no STANDARD component at all, the call
    raises: the [else] clause subscripts a component. *)
Lemma find_comp_no_standard_raises (self : _tzicalvtz) (dt : naive) :
  (1 < length (_comps self))%nat ->
  cache_index (dt, _fold dt) (_cachedate self) = None ->
  none_occurred (_comps self) dt ->
  forallb isdst (_comps self) = true ->
  _find_comp self dt
  = (Raise (TypeError "'_tzicalvtzcomp' object is not subscriptable"), self).
Proof.
  intros Hlen Hmiss Hnone Hall.
  pose proof (find_comp_uncached self dt ltac:(lia) Hmiss) as Hu.
  assert (Hsel : select_comp (_comps self) dt
                 = Raise (TypeError "'_tzicalvtzcomp' object is not subscriptable")).
  { rewrite select_comp_none_occurred by exact Hnone.
    unfold first_standard.
    destruct (List.find _ (_comps self)) as [c|] eqn:Hf.
    - apply find_some in Hf as [Hin Hc].
      rewrite forallb_forall in Hall. rewrite (Hall c Hin) in Hc. discriminate.
    - destruct (_comps self); [simpl in Hlen; lia|reflexivity]. }
  unfold _find_comp in *. rewrite Hmiss in *.
  destruct (_comps self) as [|c1 [|c2 rest]]; try (simpl in Hlen; lia).
  rewrite Hsel. reflexivity.
Qed.

(** *** The cache of [_find_comp] never changes its answer *)

Lemma cache_sound_init (tzid : string) (comps : list _tzicalvtzcomp) :
  cache_sound (vtz_init tzid comps).
Proof. constructor. Qed.

Lemma cache_index_sound (comps : list _tzicalvtzcomp) (dt : naive)
    (dates : list (naive * bool)) (cached : list _tzicalvtzcomp) (i : nat) :
  Forall2 (cache_entry comps) dates cached ->
  cache_index (dt, _fold dt) dates = Some i ->
  exists comp, cached !! i = Some comp /\ select_comp comps dt = Ok comp.
Proof.
  intros Hs. revert i. induction Hs as [|[d f] c dates cached [Hf Hc] _ IH]; intros i; simpl.
  - discriminate.
  - destruct (dt_eqb d dt && Bool.eqb f (_fold dt)) eqn:Hhit.
    + intros [= <-]. exists c. split; [reflexivity|].
      apply andb_true_iff in Hhit as [Ht Hfold].
      apply Z.eqb_eq in Ht. apply Bool.eqb_prop in Hfold.
      simpl in Hf, Hc. unfold _fold in *.
      replace dt with d; [exact Hc|].
      destruct d, dt; simpl in *; congruence.
    + destruct (cache_index (dt, _fold dt) dates) as [j|]; simpl; [|discriminate].
      intros [= <-]. exact (IH j eq_refl).
Qed.

Lemma Forall2_removelast {A B : Type} (P : A -> B -> Prop) (l : list A) (k : list B) :
  Forall2 P l k -> Forall2 P (removelast l) (removelast k).
Proof.
  induction 1 as [|x y l k Hxy Hlk IH]; simpl; [constructor|].
  destruct Hlk; [constructor|]. constructor; assumption.
Qed.

(** In a zone whose cache is sound, whether or not the cache has an entry
    for [dt], the answer is what the two loops select, and the cache stays
    sound. *)
Lemma find_comp_cache_transparent (self : _tzicalvtz) (dt : naive) :
  cache_sound self ->
  length (_comps self) <> 1%nat ->
  fst (_find_comp self dt) = select_comp (_comps self) dt
  /\ cache_sound (snd (_find_comp self dt)).
Proof.
  intros Hs Hlen.
  destruct (cache_index (dt, _fold dt) (_cachedate self)) as [i|] eqn:Hidx.
  - destruct (cache_index_sound _ dt _ _ i Hs Hidx) as (comp & Hc & Hsel).
    unfold _find_comp. rewrite Hidx, Hc, Hsel.
    destruct (_comps self) as [|c1 [|c2 rest]]; [|simpl in Hlen; congruence|];
      split; (reflexivity || exact Hs).
  - split; [apply find_comp_uncached; assumption|].
    unfold _find_comp. rewrite Hidx.
    assert (Hcase : forall comps, comps = _comps self ->
              cache_sound
                (match select_comp comps dt with
                 | Ok lastcomp =>
                     let '(cachedate, cachecomp) :=
                       if 10 <? Z.of_nat (length ((dt, _fold dt) :: _cachedate self))
                       then (removelast ((dt, _fold dt) :: _cachedate self),
                             removelast (lastcomp :: _cachecomp self))
                       else ((dt, _fold dt) :: _cachedate self,
                             lastcomp :: _cachecomp self) in
                     (Ok lastcomp,
                      {| _tzid := _tzid self; _comps := _comps self;
                         _cachedate := cachedate; _cachecomp := cachecomp |})
                 | Raise e => (Raise e, self)
                 end).2).
    { intros comps ->. destruct (select_comp (_comps self) dt) as [c|e] eqn:Hsel;
        [|exact Hs].
      assert (Hnew : Forall2 (cache_entry (_comps self))
                       ((dt, _fold dt) :: _cachedate self) (c :: _cachecomp self)).
      { constructor; [split; [reflexivity|exact Hsel]|exact Hs]. }
      destruct (10 <? _); unfold cache_sound; simpl.
      - exact (Forall2_removelast _ _ _ Hnew).
      - exact Hnew. }
    destruct (_comps self) as [|c1 [|c2 rest]] eqn:Hc.
    + exact (Hcase [] eq_refl).
    + simpl in Hlen. congruence.
    + exact (Hcase (c1 :: c2 :: rest) eq_refl).
Qed.

(** C1, at a zone of two DAYLIGHT components and a time before both
    onsets: [_find_comp] raises [TypeError] where the claim (and the
    comment in the source) name the first component; [utcoffset], [dst]
    and [tzname] raise with it.  With a STANDARD component defined second,
    that one is used. *)
Theorem find_comp_before_first_onset :
  _find_comp daylight_only (midnight 1)
  = (Raise (TypeError "'_tzicalvtzcomp' object is not subscriptable"), daylight_only)
  /\ fst (vtz_utcoffset daylight_only (midnight 1))
     = Raise (TypeError "'_tzicalvtzcomp' object is not subscriptable")
  /\ fst (vtz_dst daylight_only (midnight 1))
     = Raise (TypeError "'_tzicalvtzcomp' object is not subscriptable")
  /\ fst (vtz_tzname daylight_only (midnight 1))
     = Raise (TypeError "'_tzicalvtzcomp' object is not subscriptable")
  /\ (tzname <$> fst (_find_comp daylight_then_standard (midnight 1))) = Ok (Some "EST").
Proof.
  assert (H : _find_comp daylight_only (midnight 1)
              = (Raise (TypeError "'_tzicalvtzcomp' object is not subscriptable"),
                 daylight_only)).
  { apply find_comp_no_standard_raises.
    - simpl. lia.
    - reflexivity.
    - repeat constructor.
    - reflexivity. }
  split; [exact H|].
  unfold vtz_utcoffset, vtz_dst, vtz_tzname. rewrite H.
  do 3 (split; [reflexivity|]).
  rewrite (find_comp_first_standard daylight_then_standard (midnight 1)
             (comp_init (-14400) (-18000) false (Some "EST")
                        (Some (once (midnight 730200))))).
  - reflexivity.
  - simpl. lia.
  - reflexivity.
  - repeat constructor.
  - reflexivity.
Qed.

(** ** The iCalendar parser: mandatory fields *)

(** Closing a component that has no DTSTART names DTSTART. *)
Lemma end_component_no_dtstart (rrulestr : string -> result rrule)
    (st : parser_state) (ctype : string) :
  founddtstart st = false ->
  end_component rrulestr st ctype = Raise (ValueError "mandatory DTSTART not found").
Proof. intros H. unfold end_component. rewrite H. reflexivity. Qed.

(** Closing a component that has no TZOFFSETFROM names TZOFFSETFROM. *)
Lemma end_component_no_tzoffsetfrom (rrulestr : string -> result rrule)
    (st : parser_state) (ctype : string) :
  founddtstart st = true ->
  tzoffsetfrom_ st = None ->
  end_component rrulestr st ctype
  = Raise (ValueError "mandatory TZOFFSETFROM not found").
Proof. intros H1 H2. unfold end_component. rewrite H1, H2. reflexivity. Qed.

(** Closing a component that has everything but TZOFFSETTO names
    TZOFFSETFROM as well: the message of the third check repeats the
    second. *)
Lemma end_component_no_tzoffsetto (rrulestr : string -> result rrule)
    (st : parser_state) (ctype : string) (tzoffsetfrom : Z) :
  founddtstart st = true ->
  tzoffsetfrom_ st = Some tzoffsetfrom ->
  tzoffsetto_ st = None ->
  end_component rrulestr st ctype
  = Raise (ValueError "mandatory TZOFFSETFROM not found").
Proof. intros H1 H2 H3. unfold end_component. rewrite H1, H2, H3. reflexivity. Qed.

(** The line [END:<comptype>] inside a component runs those checks. *)
Lemma parse_line_end_component (rrulestr : string -> result rrule)
    (st : parser_state) (ctype : string) :
  invtz st = true ->
  comptype st = Some ctype ->
  ctype = "STANDARD" \/ ctype = "DAYLIGHT" ->
  parse_line rrulestr st (String.append "END:" ctype) = end_component rrulestr st ctype.
Proof.
  intros Hin Hc [-> | ->]; unfold parse_line; simpl; rewrite Hin, Hc; reflexivity.
Qed.

(** C8, at a STANDARD component that has DTSTART and TZOFFSETFROM but no
    TZOFFSETTO: the parse fails, and the message of the error names
    TZOFFSETFROM, the field that is present, not TZOFFSETTO.  A component
    without TZOFFSETFROM or without DTSTART fails with the message that
    names it, and the complete component is read (by a recurrence
    evaluator that accepts its DTSTART line). *)
Theorem parse_rfc_missing_tzoffsetto (rrulestr : string -> result rrule) :
  _parse_rfc rrulestr missing_tzoffsetto
  = Raise (ValueError "mandatory TZOFFSETFROM not found")
  /\ _parse_rfc rrulestr missing_tzoffsetfrom
     = Raise (ValueError "mandatory TZOFFSETFROM not found")
  /\ _parse_rfc rrulestr missing_dtstart
     = Raise (ValueError "mandatory DTSTART not found")
  /\ (forall rr, rrulestr "DTSTART:19671029T020000" = Ok rr ->
      comps <$> parse_lines rrulestr initial_state
                  (unfold_lines [] (Str.splitlines complete_component))
      = Ok [comp_init (-14400) (-18000) false (Some "EST") (Some rr)]).
Proof.
  split; [vm_compute; reflexivity|].
  split; [vm_compute; reflexivity|].
  split; [vm_compute; reflexivity|].
  intros rr Hrr.
  remember (parse_lines rrulestr initial_state
              (unfold_lines [] (Str.splitlines complete_component))) as r eqn:E.
  vm_compute in E. vm_compute in Hrr. rewrite Hrr in E. vm_compute in E.
  subst r. reflexivity.
Qed.

(** ** The zone registry: the strong cache *)

Section RegistryProperties.

Context {T : Type}.
Variable is_tzlocal : T -> bool.

Lemma od_pop_length (name : option string) (d : T) (od : list (option string * T)) :
  (length (od_pop name d od).2 <= length od)%nat.
Proof.
  induction od as [|[k v] rest IH]; simpl; [lia|].
  destruct (bool_decide (k = name)); simpl; [lia|].
  destruct (od_pop name d rest) as [r rest']; simpl in *. lia.
Qed.

Lemma od_len_popfirst (od : list (option string * T)) :
  od <> [] -> od_len (od_popfirst od) = od_len od - 1.
Proof.
  destruct od as [|x rest]; [congruence|]. intros _.
  unfold od_len, od_popfirst; simpl. lia.
Qed.

Lemma remember_size (self : GettzFunc T) (name : option string) (rv : T) :
  __strong_cache_size (remember self name rv) = __strong_cache_size self.
Proof.
  unfold remember. destruct (od_pop name rv (__strong_cache self)). reflexivity.
Qed.

(** What [remember] leaves: the entry of [name] moved (or added) last, and
    the oldest entry dropped when that made the cache longer than its
    size. *)
Lemma remember_cache (self : GettzFunc T) (name : option string) (rv : T) :
  let popped := od_pop name rv (__strong_cache self) in
  let od := od_append popped.2 name popped.1 in
  __strong_cache (remember self name rv)
  = if __strong_cache_size self <? od_len od then od_popfirst od else od.
Proof.
  unfold remember. destruct (od_pop name rv (__strong_cache self)). reflexivity.
Qed.

Lemma remember_bounded (self : GettzFunc T) (name : option string) (rv : T) :
  bounded self -> bounded (remember self name rv).
Proof.
  unfold bounded. intros Hb. rewrite remember_size, remember_cache.
  pose proof (od_pop_length name rv (__strong_cache self)) as Hp.
  set (popped := od_pop name rv (__strong_cache self)) in *. cbv zeta.
  assert (Hlen : od_len (od_append popped.2 name popped.1) = od_len popped.2 + 1).
  { unfold od_len, od_append. rewrite length_app. simpl. lia. }
  destruct (Z.ltb_spec (__strong_cache_size self) (od_len (od_append popped.2 name popped.1))).
  - rewrite od_len_popfirst.
    + unfold od_len in *. lia.
    + unfold od_append. destruct (popped.2); discriminate.
  - lia.
Qed.

Lemma call_bounded (nocache : option string -> result (option T))
    (self : GettzFunc T) (name : option string) :
  bounded self -> bounded (__call__ is_tzlocal nocache self name).2.
Proof.
  intros Hb. unfold __call__.
  destruct (__instances self !! name) as [rv|]; simpl.
  - apply remember_bounded, Hb.
  - destruct (nocache name) as [[rv|]|e]; simpl; try exact Hb.
    destruct (negb (is_some name) || is_tzlocal rv); simpl; [exact Hb|].
    apply remember_bounded. exact Hb.
Qed.

(** [set_cache_size] with a size that is not negative keeps the newest
    entries that fit and raises nothing. *)
Lemma evict_to_skipn (size : Z) (od : list (option string * T)) :
  0 <= size ->
  evict_to size od = (Ok tt, skipn (length od - Z.to_nat size) od).
Proof.
  intros Hs. induction od as [|x rest IH].
  - simpl. rewrite (proj2 (Z.ltb_ge size 0)) by lia. reflexivity.
  - cbn [evict_to].
    destruct (Z.ltb_spec size (od_len (x :: rest))) as [Hlt|Hge].
    + rewrite IH. unfold od_len in Hlt. cbn [length] in *.
      replace (S (length rest) - Z.to_nat size)%nat
        with (S (length rest - Z.to_nat size))%nat by lia.
      reflexivity.
    + unfold od_len in Hge. cbn [length] in *.
      replace (S (length rest) - Z.to_nat size)%nat with 0%nat by lia.
      reflexivity.
Qed.

Lemma set_cache_size_spec (self : GettzFunc T) (size : Z) :
  0 <= size ->
  set_cache_size self size
  = (Ok tt,
     {| __instances := __instances self;
        __strong_cache_size := size;
        __strong_cache :=
          skipn (length (__strong_cache self) - Z.to_nat size) (__strong_cache self) |}).
Proof.
  intros Hs. unfold set_cache_size. rewrite evict_to_skipn by exact Hs. reflexivity.
Qed.

(** A negative size empties the strong cache and then raises: [popitem]
    finds nothing left to drop. *)
Lemma set_cache_size_negative (self : GettzFunc T) (size : Z) :
  size < 0 ->
  set_cache_size self size
  = (Raise (KeyError "dictionary is empty"),
     {| __instances := __instances self;
        __strong_cache_size := size;
        __strong_cache := [] |}).
Proof.
  intros Hs. unfold set_cache_size.
  assert (He : evict_to size (__strong_cache self)
               = (Raise (KeyError "dictionary is empty"), [])).
  { induction (__strong_cache self) as [|x rest IH]; cbn [evict_to].
    - rewrite (proj2 (Z.ltb_lt size 0)) by lia. reflexivity.
    - rewrite (proj2 (Z.ltb_lt size (od_len (x :: rest)))) by (unfold od_len; lia).
      exact IH. }
  rewrite He. reflexivity.
Qed.

Lemma set_cache_size_bounded (self : GettzFunc T) (size : Z) :
  0 <= size -> bounded (set_cache_size self size).2.
Proof.
  intros Hs. rewrite set_cache_size_spec by exact Hs. unfold bounded, od_len; simpl.
  rewrite length_skipn. lia.
Qed.

Lemma step_bounded (self : GettzFunc T) (o : op T) :
  sane o -> bounded self -> bounded (step is_tzlocal self o).
Proof.
  intros Hs Hb. destruct o as [nocache name|size| |name]; simpl.
  - apply call_bounded, Hb.
  - apply set_cache_size_bounded, Hs.
  - unfold bounded, od_len in *; simpl. lia.
  - unfold collect. destruct (existsb _ _); exact Hb.
Qed.

Lemma steps_bounded (ops : list (op T)) (self : GettzFunc T) :
  Forall sane ops -> bounded self -> bounded (fold_left (step is_tzlocal) ops self).
Proof.
  intros Hs. revert self. induction Hs as [|o ops Ho _ IH]; intros self Hb; simpl.
  - exact Hb.
  - apply IH, step_bounded; assumption.
Qed.

Lemma step_size (self : GettzFunc T) (o : op T) :
  (forall size, o <> SetCacheSize size) ->
  __strong_cache_size (step is_tzlocal self o) = __strong_cache_size self.
Proof.
  intros Hn. destruct o as [nocache name|size| |name]; simpl.
  - unfold __call__.
    destruct (__instances self !! name) as [rv|]; simpl; [apply remember_size|].
    destruct (nocache name) as [[rv|]|e]; simpl; try reflexivity.
    destruct (negb (is_some name) || is_tzlocal rv); simpl; [reflexivity|].
    rewrite remember_size. reflexivity.
  - exfalso. exact (Hn size eq_refl).
  - reflexivity.
  - unfold collect. destruct (existsb _ _); reflexivity.
Qed.

End RegistryProperties.

Section RegistryRuns.

Context {T : Type}.
Variable is_tzlocal : T -> bool.

Lemma steps_size (ops : list (op T)) (self : GettzFunc T) :
  Forall (fun o => forall size, o <> SetCacheSize size) ops ->
  __strong_cache_size (fold_left (step is_tzlocal) ops self) = __strong_cache_size self.
Proof.
  intros Hs. revert self. induction Hs as [|o ops Ho _ IH]; intros self; simpl.
  - reflexivity.
  - rewrite IH. apply step_size, Ho.
Qed.

Lemma not_set_cache_size_sane (ops : list (op T)) :
  Forall (fun o => forall size, o <> SetCacheSize size) ops -> Forall sane ops.
Proof.
  intros Hall. eapply Forall_impl; [exact Hall|].
  intros [nocache name|size| |name] H; simpl; try exact I.
  exfalso. exact (H size eq_refl).
Qed.

Lemma init_bounded : bounded (@init T).
Proof. unfold bounded, od_len; simpl. lia. Qed.

(** With room for one entry at least, the name just asked for is the
    newest entry of the strong cache. *)
Lemma remember_newest (self : GettzFunc T) (name : option string) (rv : T) :
  1 <= __strong_cache_size self ->
  exists (older : list (option string * T)) (v : T),
    __strong_cache (remember self name rv) = (older ++ [(name, v)])%list.
Proof.
  intros Hs. rewrite remember_cache. cbv zeta.
  destruct (od_pop name rv (__strong_cache self)) as [v rest]; simpl.
  unfold od_append.
  destruct (Z.ltb_spec (__strong_cache_size self) (od_len (rest ++ [(name, v)]))) as [Hlt|_].
  - destruct rest as [|x rest'].
    + unfold od_len in Hlt; simpl in Hlt. lia.
    + exists rest', v. reflexivity.
  - exists rest, v. reflexivity.
Qed.

End RegistryRuns.

(** ** The zone registry: what the two caches hold *)

Section RegistryConsistency.

Context {T : Type}.
Variable is_tzlocal : T -> bool.

(** [od.pop(name, default)] on a dictionary with one entry per name: the
    entries left do not mention [name], the others are untouched, and the
    value is the one that was stored, or the default. *)
Lemma od_pop_spec (name : option string) (d : T) (od : list (option string * T)) :
  NoDup (map fst od) ->
  let popped := od_pop name d od in
  NoDup (map fst popped.2)
  /\ ~ In name (map fst popped.2)
  /\ (forall kv, In kv popped.2 -> In kv od)
  /\ (popped.1 = d \/ In (name, popped.1) od).
Proof.
  induction od as [|[k v] rest IH]; intros Hnd; simpl.
  - repeat split; auto using NoDup_nil_2.
  - apply NoDup_cons in Hnd as [Hk Hnd]. specialize (IH Hnd).
    destruct (bool_decide (k = name)) eqn:Hkn; simpl.
    + apply bool_decide_eq_true in Hkn. subst k.
      repeat split; auto. intros Hin. apply Hk. apply list_elem_of_In. exact Hin.
    + apply bool_decide_eq_false in Hkn.
      destruct (od_pop name d rest) as [r rest'] eqn:Hp; simpl in *.
      destruct IH as (Hnd' & Hnot & Hsub & Hval).
      repeat split.
      * apply NoDup_cons. split; [|exact Hnd'].
        intros Hin. apply Hk. apply list_elem_of_In. apply list_elem_of_In in Hin.
        apply in_map_iff in Hin as ([k' v'] & Hk' & Hin'). simpl in Hk'. subst k'.
        apply in_map_iff. exists (k, v'). split; [reflexivity|]. apply Hsub, Hin'.
      * intros [Heq|Hin]; [congruence|exact (Hnot Hin)].
      * intros kv [<-|Hin]; [left; reflexivity|right; apply Hsub, Hin].
      * destruct Hval as [->|Hin]; [left; reflexivity|right; right; exact Hin].
Qed.

Lemma tail_In {A : Type} (x : A) (l : list A) : In x (tail l) -> In x l.
Proof. destruct l; simpl; auto. Qed.

Lemma NoDup_map_tail {A B : Type} (f : A -> B) (l : list A) :
  NoDup (map f l) -> NoDup (map f (tail l)).
Proof.
  destruct l as [|x l]; simpl; [auto|]. intros H. apply NoDup_cons in H. tauto.
Qed.

(** [remember] keeps the caches consistent when it is given the zone the
    weak dictionary holds under [name]. *)
Lemma remember_consistent (self : GettzFunc T) (name : option string) (rv : T) :
  consistent self ->
  __instances self !! name = Some rv ->
  consistent (remember self name rv).
Proof.
  intros (Hnd & Hin & Hnone) Hrv. unfold consistent.
  rewrite remember_cache. cbv zeta.
  assert (Hi : __instances (remember self name rv) = __instances self).
  { unfold remember. destruct (od_pop name rv (__strong_cache self)). reflexivity. }
  rewrite Hi.
  destruct (od_pop_spec name rv (__strong_cache self) Hnd) as (Hnd' & Hnot & Hsub & Hval).
  set (popped := od_pop name rv (__strong_cache self)) in *.
  assert (Hv : popped.1 = rv).
  { destruct Hval as [H|H]; [exact H|]. apply Hin in H. congruence. }
  assert (Hall : NoDup (map fst (od_append popped.2 name popped.1))
                 /\ forall k z, In (k, z) (od_append popped.2 name popped.1) ->
                                __instances self !! k = Some z).
  { unfold od_append. split.
    - rewrite map_app. simpl. apply NoDup_app. split; [exact Hnd'|].
      split; [|apply NoDup_singleton].
      intros k Hk Hk'. apply list_elem_of_In in Hk, Hk'. simpl in Hk'.
      destruct Hk' as [<-|[]]. exact (Hnot Hk).
    - intros k z Hkz. apply in_app_iff in Hkz as [Hkz|[Heq|[]]].
      + apply Hin, Hsub, Hkz.
      + injection Heq as <- <-. rewrite Hv. exact Hrv. }
  destruct Hall as [Hnd2 Hin2].
  destruct (__strong_cache_size self <? _).
  - split; [apply NoDup_map_tail, Hnd2|]. split; [|exact Hnone].
    intros k z Hkz. apply Hin2, tail_In, Hkz.
  - split; [exact Hnd2|]. split; [exact Hin2|exact Hnone].
Qed.

Lemma call_consistent (nocache : option string -> result (option T))
    (self : GettzFunc T) (name : option string) :
  consistent self -> consistent (__call__ is_tzlocal nocache self name).2.
Proof.
  intros Hc. unfold __call__.
  destruct (__instances self !! name) as [rv|] eqn:Hl; simpl.
  - apply remember_consistent; assumption.
  - destruct (nocache name) as [[rv|]|e]; simpl; try exact Hc.
    destruct name as [n|]; simpl; [|exact Hc].
    destruct (is_tzlocal rv); simpl; [exact Hc|].
    apply remember_consistent.
    + destruct Hc as (Hnd & Hin & Hnone). unfold consistent; simpl.
      split; [exact Hnd|]. split.
      * intros k z Hkz. specialize (Hin k z Hkz).
        rewrite lookup_insert_ne; [exact Hin|]. congruence.
      * rewrite lookup_insert_ne; [exact Hnone|]. discriminate.
    + simpl. apply lookup_insert_eq.
Qed.

(** Whatever the size, the loop of [set_cache_size] leaves a tail of the
    strong cache. *)
Lemma evict_to_suffix (size : Z) (od : list (option string * T)) :
  exists n, (evict_to size od).2 = skipn n od.
Proof.
  induction od as [|x rest IH]; cbn [evict_to].
  - exists 0%nat. destruct (size <? 0); reflexivity.
  - destruct (size <? od_len (x :: rest)).
    + destruct IH as [n Hn]. exists (S n). exact Hn.
    + exists 0%nat. reflexivity.
Qed.

Lemma skipn_In {A : Type} (n : nat) (x : A) (l : list A) : In x (skipn n l) -> In x l.
Proof.
  revert l. induction n as [|n IH]; intros [|y l]; simpl; auto.
Qed.

Lemma NoDup_map_skipn {A B : Type} (f : A -> B) (n : nat) (l : list A) :
  NoDup (map f l) -> NoDup (map f (skipn n l)).
Proof.
  revert l. induction n as [|n IH]; intros [|y l]; simpl; auto.
  intros H. apply NoDup_cons in H as [_ H]. apply IH, H.
Qed.

Lemma step_consistent (self : GettzFunc T) (o : op T) :
  consistent self -> consistent (step is_tzlocal self o).
Proof.
  intros Hc. destruct o as [nocache name|size| |name]; simpl.
  - apply call_consistent, Hc.
  - destruct Hc as (Hnd & Hin & Hnone). unfold set_cache_size.
    destruct (evict_to_suffix size (__strong_cache self)) as [n Hn].
    destruct (evict_to size (__strong_cache self)) as [r od]; simpl in *. subst od.
    unfold consistent; simpl. split; [apply NoDup_map_skipn, Hnd|].
    split; [|exact Hnone]. intros k z Hkz. apply Hin. exact (skipn_In _ _ _ Hkz).
  - unfold consistent; simpl. split; [apply NoDup_nil_2|].
    split; [intros k z []|apply lookup_empty].
  - unfold collect. destruct (existsb _ _) eqn:Hex; [exact Hc|].
    destruct Hc as (Hnd & Hin & Hnone). unfold consistent; simpl.
    split; [exact Hnd|]. split.
    + intros k z Hkz. rewrite lookup_delete_ne; [apply Hin, Hkz|].
      intros ->. apply not_true_iff_false in Hex. apply Hex.
      apply existsb_exists. exists (k, z). split; [exact Hkz|].
      simpl. apply bool_decide_eq_true. reflexivity.
    + destruct name as [n|]; [rewrite lookup_delete_ne by discriminate; exact Hnone|].
      apply lookup_delete_eq.
Qed.

Lemma run_consistent (ops : list (op T)) : consistent (run is_tzlocal ops).
Proof.
  unfold run.
  assert (H0 : consistent (@init T)).
  { unfold consistent; simpl. split; [apply NoDup_nil_2|].
    split; [intros k z []|apply lookup_empty]. }
  revert H0. generalize (@init T).
  induction ops as [|o ops IH]; intros self Hc; simpl; [exact Hc|].
  apply IH, step_consistent, Hc.
Qed.

Lemma filter_all {A : Type} (P : A -> Prop) `{forall x, Decision (P x)} (l : list A) :
  Forall P l -> filter P l = l.
Proof.
  induction 1 as [|x l Hx _ IH]; [reflexivity|].
  rewrite filter_cons_True by exact Hx. rewrite IH. reflexivity.
Qed.

(** [od.pop(name, default)] on a dictionary with one entry per name leaves
    the other entries, in their order. *)
Lemma od_pop_filter (name : option string) (d : T) (od : list (option string * T)) :
  NoDup (map fst od) ->
  (od_pop name d od).2 = filter (fun kv : option string * T => kv.1 <> name) od.
Proof.
  induction od as [|[k v] rest IH]; intros Hnd; [reflexivity|].
  apply NoDup_cons in Hnd as [Hk Hnd]. cbn [od_pop].
  destruct (bool_decide (k = name)) eqn:Hkn.
  - apply bool_decide_eq_true in Hkn. subst k. cbn [snd].
    rewrite filter_cons_False by (intros H; apply H; reflexivity).
    symmetry. apply filter_all. apply Forall_forall. intros [k' v'] Hin Heq.
    simpl in Heq. subst k'. apply Hk. apply list_elem_of_fmap.
    exists (name, v'). split; [reflexivity|exact Hin].
  - apply bool_decide_eq_false in Hkn.
    rewrite filter_cons_True by exact Hkn.
    destruct (od_pop name d rest) as [r rest'] eqn:Hp. cbn [snd] in *.
    rewrite (IH Hnd). reflexivity.
Qed.

Lemma od_pop_value (name : option string) (d : T) (od : list (option string * T)) :
  (forall z, In (name, z) od -> z = d) -> (od_pop name d od).1 = d.
Proof.
  induction od as [|[k v] rest IH]; intros Hval; [reflexivity|]. cbn [od_pop].
  destruct (bool_decide (k = name)) eqn:Hkn.
  - apply bool_decide_eq_true in Hkn. subst k. apply Hval. left. reflexivity.
  - destruct (od_pop name d rest) as [r rest'] eqn:Hp. cbn [fst] in *.
    apply IH. intros z Hin. apply Hval. right. exact Hin.
Qed.

(** The strong cache after [name] was served with [rv]: [name] is the
    newest entry, the others keep their order, and the oldest is dropped
    when they are more than [__strong_cache_size]. *)
Lemma remember_refreshes (self : GettzFunc T) (name : option string) (rv : T) :
  consistent self ->
  __instances self !! name = Some rv ->
  __strong_cache (remember self name rv)
  = let od := (filter (fun kv : option string * T => kv.1 <> name)
                      (__strong_cache self) ++ [(name, rv)])%list in
    if __strong_cache_size self <? od_len od then tail od else od.
Proof.
  intros (Hnd & Hin & _) Hrv. unfold remember.
  pose proof (od_pop_filter name rv (__strong_cache self) Hnd) as Hf.
  assert (Hv : (od_pop name rv (__strong_cache self)).1 = rv).
  { apply od_pop_value. intros z Hz. specialize (Hin _ _ Hz). congruence. }
  destruct (od_pop name rv (__strong_cache self)) as [v od]. cbn [fst snd] in *.
  subst v od. reflexivity.
Qed.

(** What a call of [gettz] does to the registry. *)
Lemma call_effect (nocache : option string -> result (option T))
    (self : GettzFunc T) (name : option string) (rv : T) :
  consistent self ->
  __instances self !! name = Some rv
  \/ (__instances self !! name = None /\ nocache name = Ok (Some rv)
      /\ is_some name = true /\ is_tzlocal rv = false) ->
  __call__ is_tzlocal nocache self name
  = (Ok (Some rv),
     {| __instances := <[name := rv]> (__instances self);
        __strong_cache_size := __strong_cache_size self;
        __strong_cache :=
          let od := (filter (fun kv : option string * T => kv.1 <> name)
                            (__strong_cache self) ++ [(name, rv)])%list in
          if __strong_cache_size self <? od_len od then tail od else od |}).
Proof.
  intros Hc [Hhit|(Hmiss & Hfound & Hname & Hloc)]; unfold __call__.
  - rewrite Hhit. f_equal.
    pose proof (remember_refreshes self name rv Hc Hhit) as Hr.
    rewrite insert_id by exact Hhit.
    unfold remember in *. destruct (od_pop name rv (__strong_cache self)) as [v od].
    cbn [__strong_cache] in Hr. rewrite Hr. reflexivity.
  - rewrite Hmiss, Hfound, Hname, Hloc. cbn [negb orb]. f_equal.
    set (stored := {| __instances := <[name := rv]> (__instances self);
                      __strong_cache_size := __strong_cache_size self;
                      __strong_cache := __strong_cache self |}).
    assert (Hcs : consistent stored).
    { destruct Hc as (Hnd & Hin & Hnone). split; [exact Hnd|]. split.
      - intros n z Hz. cbn [__instances stored].
        destruct (decide (n = name)) as [->|Hne].
        + specialize (Hin _ _ Hz). congruence.
        + rewrite lookup_insert_ne by congruence. exact (Hin _ _ Hz).
      - cbn [__instances stored]. rewrite lookup_insert_ne; [exact Hnone|].
        intros ->. discriminate. }
    pose proof (remember_refreshes stored name rv Hcs
                  ltac:(cbn [__instances stored]; apply lookup_insert_eq)) as Hr.
    unfold remember in *. cbn [__strong_cache __strong_cache_size __instances stored] in *.
    destruct (od_pop name rv (__strong_cache self)) as [v od].
    cbn [__strong_cache] in Hr. rewrite Hr. reflexivity.
Qed.

(** A call that finds no zone to keep leaves the registry as it was. *)
Lemma call_no_effect (nocache : option string -> result (option T))
    (self : GettzFunc T) (name : option string) :
  __instances self !! name = None ->
  nocache name = Ok None
  \/ (exists e, nocache name = Raise e)
  \/ (exists rv, nocache name = Ok (Some rv)
                 /\ (name = None \/ is_tzlocal rv = true)) ->
  __call__ is_tzlocal nocache self name = (nocache name, self).
Proof.
  intros Hmiss Hcase. unfold __call__. rewrite Hmiss.
  destruct Hcase as [->|[(e & ->)|(rv & -> & [-> | Hloc])]]; try reflexivity.
  rewrite Hloc, orb_true_r. reflexivity.
Qed.

End RegistryConsistency.

(** The claim C9 fails for a negative size: [set_cache_size(-1)] raises
    [KeyError], no number of entries is at most -1, and the size stays in
    force, so that the bound is broken after every later call as well. *)
Lemma set_cache_size_negative_breaks_bound :
  (set_cache_size (run (fun _ : nat => false) nine_calls) (-1)).1
  = Raise (KeyError "dictionary is empty")
  /\ __strong_cache_size (set_cache_size (run (fun _ : nat => false) nine_calls) (-1)).2
     = -1
  /\ od_len (__strong_cache
               (set_cache_size (run (fun _ : nat => false) nine_calls) (-1)).2) = 0
  /\ od_len (__strong_cache
               (__call__ (fun _ : nat => false) found_everywhere
                  (set_cache_size (run (fun _ : nat => false) nine_calls) (-1)).2
                  (Some "a")).2) = 0
  /\ __strong_cache_size
       (__call__ (fun _ : nat => false) found_everywhere
          (set_cache_size (run (fun _ : nat => false) nine_calls) (-1)).2
          (Some "a")).2 = -1.
Proof. vm_compute. repeat split. Qed.

(** C9, amended. While the sizes passed to [set_cache_size] are not
    negative, the strong cache holds at most [__strong_cache_size] entries
    in every state the registry reaches, eight while the size was never
    set.  A call of [gettz] that serves a zone from the weak dictionary, or
    stores a named zone that is not a [tzlocal], makes its name the newest
    entry of the strong cache, leaves the other entries in their order and
    drops the oldest, the one least recently asked for, when they are more
    than the size; any other call leaves the registry as it was.
    [set_cache_size(n)] keeps the [n] newest entries; [cache_clear()]
    empties both caches. *)
Theorem gettz_strong_cache_bounded (T : Type) (is_tzlocal : T -> bool) :
  (forall ops : list (op T), Forall sane ops -> bounded (run is_tzlocal ops))
  /\ (forall ops : list (op T),
         Forall (fun o => forall size, o <> SetCacheSize size) ops ->
         od_len (__strong_cache (run is_tzlocal ops)) <= 8)
  /\ (forall (ops : list (op T)) nocache name,
         Forall sane ops ->
         bounded (__call__ is_tzlocal nocache (run is_tzlocal ops) name).2)
  /\ (forall (ops : list (op T)) nocache name rv,
         let self := run is_tzlocal ops in
         __instances self !! name = Some rv
         \/ (__instances self !! name = None /\ nocache name = Ok (Some rv)
             /\ is_some name = true /\ is_tzlocal rv = false) ->
         __call__ is_tzlocal nocache self name
         = (Ok (Some rv),
            {| __instances := <[name := rv]> (__instances self);
               __strong_cache_size := __strong_cache_size self;
               __strong_cache :=
                 let od := (filter (fun kv : option string * T => kv.1 <> name)
                                   (__strong_cache self) ++ [(name, rv)])%list in
                 if __strong_cache_size self <? od_len od then tail od else od |}))
  /\ (forall (ops : list (op T)) nocache name,
         let self := run is_tzlocal ops in
         __instances self !! name = None ->
         nocache name = Ok None
         \/ (exists e, nocache name = Raise e)
         \/ (exists rv, nocache name = Ok (Some rv)
                        /\ (name = None \/ is_tzlocal rv = true)) ->
         __call__ is_tzlocal nocache self name = (nocache name, self))
  /\ (forall (self : GettzFunc T) size,
         0 <= size ->
         let after := (set_cache_size self size).2 in
         (set_cache_size self size).1 = Ok tt
         /\ __instances after = __instances self
         /\ __strong_cache_size after = size
         /\ __strong_cache after
            = skipn (length (__strong_cache self) - Z.to_nat size) (__strong_cache self)
         /\ od_len (__strong_cache after) <= size)
  /\ (forall self : GettzFunc T,
         __instances (cache_clear self) = ∅ /\ __strong_cache (cache_clear self) = []).
Proof.
  split.
  { intros ops Hs. apply steps_bounded; [exact Hs|apply init_bounded]. }
  split.
  { intros ops Hs.
    pose proof (steps_bounded is_tzlocal ops init (not_set_cache_size_sane ops Hs)
                  init_bounded) as Hb.
    unfold bounded in Hb. unfold run.
    rewrite (steps_size is_tzlocal ops init Hs) in Hb. exact Hb. }
  split.
  { intros ops nocache name Hs. apply call_bounded.
    apply steps_bounded; [exact Hs|apply init_bounded]. }
  split.
  { intros ops nocache name rv self Hcase.
    exact (call_effect is_tzlocal nocache self name rv
             (run_consistent is_tzlocal ops) Hcase). }
  split.
  { intros ops nocache name self Hmiss Hcase.
    exact (call_no_effect is_tzlocal nocache self name Hmiss Hcase). }
  split.
  { intros self size Hs. cbv zeta.
    pose proof (set_cache_size_bounded self size Hs) as Hb.
    rewrite set_cache_size_spec in * by exact Hs. simpl in *.
    repeat split. exact Hb. }
  intros self. split; reflexivity.
Qed.

(** After eight zones [a] to [h], asking for a ninth drops [a], the one
    asked for longest ago, and puts [i] last. *)
Lemma gettz_strong_cache_bounded_witness :
  map fst (__strong_cache
             (__call__ (fun _ : nat => false) found_everywhere
                (run (fun _ : nat => false) (firstn 8 nine_calls)) (Some "i")).2)
  = [Some "b"; Some "c"; Some "d"; Some "e"; Some "f"; Some "g"; Some "h"; Some "i"].
Proof.
  rewrite (proj1 (proj2 (proj2 (proj2 (gettz_strong_cache_bounded nat (fun _ => false)))))
             (firstn 8 nine_calls) found_everywhere (Some "i") 1%nat).
  - vm_compute. reflexivity.
  - right. vm_compute. repeat split.
Defined.

(** After those nine calls the first zone asked for is the one that is
    gone, and the last one is the newest. *)
Example nine_calls_evict_oldest :
  map fst (__strong_cache (run (fun _ : nat => false) nine_calls))
  = [Some "b"; Some "c"; Some "d"; Some "e"; Some "f"; Some "g"; Some "h"; Some "i"].
Proof. vm_compute. reflexivity. Qed.

(** ** The resolver *)

Lemma bind_ok {A B : Type} (a : A) (k : A -> result B) : (Ok a ≫= k) = k a.
Proof. reflexivity. Qed.



(** An aware datetime that exists is handed back as it came. *)
Lemma resolve_imaginary_existing (dt : object) (h : heap) :
  datetime_exists (value dt) None = Ok true ->
  resolve_imaginary dt h = (Ok dt, h).
Proof.
  intros He. unfold resolve_imaginary. rewrite He.
  destruct (dt_tzinfo (value dt)); reflexivity.
Qed.

(** An aware datetime that does not exist is replaced by a new one. *)
Lemma resolve_imaginary_shifted (dt : object) (h : heap) (tz : tzinfo)
    (later earlier shifted : naive) (curr_offset old_offset : timedelta) :
  dt_tzinfo (value dt) = Some tz ->
  datetime_exists (value dt) None = Ok false ->
  dt_add (wall (value dt)) (timedelta_hours 24) = Ok later ->
  dt_utcoffset tz later = Ok curr_offset ->
  dt_sub (wall (value dt)) (timedelta_hours 24) = Ok earlier ->
  dt_utcoffset tz earlier = Ok old_offset ->
  dt_add (wall (value dt)) (curr_offset - old_offset) = Ok shifted ->
  resolve_imaginary dt h
  = (Ok {| addr := h; value := {| wall := shifted; dt_tzinfo := Some tz |} |}, S h).
Proof.
  intros Htz He Hl Hc Hea Ho Hs. unfold resolve_imaginary.
  rewrite Htz, He, Hl; simpl. rewrite Hc; simpl. rewrite Hea; simpl.
  rewrite Ho; simpl. rewrite Hs. reflexivity.
Qed.

Section SingleChange.

Variables (at_ : Z) (before after : timedelta).
Hypothesis Hbefore : - US_PER_DAY < before < US_PER_DAY.
Hypothesis Hafter : - US_PER_DAY < after < US_PER_DAY.

Let tz : tzinfo := single_change at_ before after.

Lemma single_change_utcoffset (w : naive) :
  dt_utcoffset tz w = Ok (if at_ + before <=? ticks w then after else before).
Proof.
  unfold dt_utcoffset, tz, single_change, table_zone; simpl.
  destruct (at_ + before <=? ticks w); simpl.
  - rewrite (proj2 (Z.ltb_lt (- US_PER_DAY) after)) by lia.
    rewrite (proj2 (Z.ltb_lt after US_PER_DAY)) by lia. reflexivity.
  - rewrite (proj2 (Z.ltb_lt (- US_PER_DAY) before)) by lia.
    rewrite (proj2 (Z.ltb_lt before US_PER_DAY)) by lia. reflexivity.
Qed.

(** A wall time exists in the zone unless it lies in the gap the change
    opens (when the offset grows). *)
Lemma single_change_exists (w : naive) (own : option tzinfo) :
  inland 2 w ->
  datetime_exists {| wall := w; dt_tzinfo := own |} (Some tz)
  = Ok (negb ((at_ + before <=? ticks w) && (ticks w <? at_ + after))).
Proof.
  unfold inland. intros Hw.
  assert (HD : US_PER_DAY = 86400000000) by reflexivity.
  assert (HM : MAX_TICKS = 3652059 * 86400000000) by reflexivity.
  unfold datetime_exists, zone_for, astimezone.
  rewrite bind_ok. cbn [wall replace_tzinfo]. rewrite single_change_utcoffset.
  rewrite bind_ok. change (dt_utcoffset UTC) with (fun _ : naive => Ok ZERO).
  cbn [fromutc UTC tzutc_fromutc tz single_change table_zone offset_at_utc at_utc
       offset_after].
  unfold dt_sub, ZERO.
  destruct (Z.leb_spec (at_ + before) (ticks w)) as [Hge|Hlt].
  - rewrite (dt_add_ok w) by lia. unfold tzutc_fromutc. rewrite !bind_ok.
    rewrite dt_add_ok by (cbn [ticks]; lia). rewrite bind_ok. cbn [ticks].
    destruct (Z.leb_spec at_ (ticks w + - after + - 0)) as [Hu|Hu].
    + rewrite dt_add_ok by (cbn [ticks]; lia). rewrite bind_ok.
      unfold dt_eqb; cbn [ticks].
      rewrite (proj2 (Z.ltb_ge (ticks w) (at_ + after))) by lia.
      rewrite (proj2 (Z.eqb_eq _ _)) by lia. reflexivity.
    + rewrite dt_add_ok by (cbn [ticks]; lia). rewrite bind_ok.
      unfold dt_eqb; cbn [ticks].
      rewrite (proj2 (Z.ltb_lt (ticks w) (at_ + after))) by lia.
      rewrite (proj2 (Z.eqb_neq _ _)) by lia. reflexivity.
  - rewrite (dt_add_ok w) by lia. unfold tzutc_fromutc. rewrite !bind_ok.
    rewrite dt_add_ok by (cbn [ticks]; lia). rewrite bind_ok. cbn [ticks].
    rewrite (proj2 (Z.leb_gt at_ (ticks w + - before + - 0))) by lia.
    rewrite dt_add_ok by (cbn [ticks]; lia). rewrite bind_ok.
    unfold dt_eqb; cbn [ticks].
    rewrite (proj2 (Z.eqb_eq _ _)) by lia. reflexivity.
Qed.

(** In a zone whose offset grows once, by 24 hours at most, the resolved
    datetime exists, and resolving it again returns it. *)
Lemma single_change_resolved (a : nat) (h : heap) (w : naive) :
  before < after <= before + US_PER_DAY ->
  inland 3 w ->
  exists (r : object) (h' : heap),
    resolve_imaginary {| addr := a; value := {| wall := w; dt_tzinfo := Some tz |} |} h
    = (Ok r, h')
    /\ datetime_exists (value r) None = Ok true
    /\ resolve_imaginary r h' = (Ok r, h').
Proof.
  intros Hgap Hw.
  set (dt := {| addr := a; value := {| wall := w; dt_tzinfo := Some tz |} |}).
  assert (HD : US_PER_DAY = 86400000000) by reflexivity.
  assert (HM : MAX_TICKS = 3652059 * 86400000000) by reflexivity.
  assert (H24 : timedelta_hours 24 = US_PER_DAY) by reflexivity.
  assert (He : datetime_exists (value dt) None
               = Ok (negb ((at_ + before <=? ticks w) && (ticks w <? at_ + after))))
    by (apply single_change_exists; unfold inland in *; lia).
  destruct ((at_ + before <=? ticks w) && (ticks w <? at_ + after)) eqn:Hin;
    simpl in He.
  - apply andb_true_iff in Hin as [Hlo Hhi].
    apply Z.leb_le in Hlo. apply Z.ltb_lt in Hhi.
    unfold inland in Hw.
    set (shifted := {| ticks := ticks w + (after - before); fold := false |}).
    exists {| addr := h; value := {| wall := shifted; dt_tzinfo := Some tz |} |}, (S h).
    assert (Hex : datetime_exists {| wall := shifted; dt_tzinfo := Some tz |} None
                  = Ok true).
    { change (datetime_exists {| wall := shifted; dt_tzinfo := Some tz |} (Some tz)
              = Ok true).
      rewrite single_change_exists by (unfold inland, shifted; cbn [ticks]; lia).
      unfold shifted; cbn [ticks].
      rewrite (proj2 (Z.ltb_ge (ticks w + (after - before)) (at_ + after))) by lia.
      rewrite andb_false_r. reflexivity. }
    split; [|split].
    + apply (resolve_imaginary_shifted dt h tz
               {| ticks := ticks w + timedelta_hours 24; fold := false |}
               {| ticks := ticks w + - timedelta_hours 24; fold := false |}
               shifted after before).
      * reflexivity.
      * exact He.
      * apply dt_add_ok. cbn [ticks wall value dt]. lia.
      * rewrite single_change_utcoffset. cbn [ticks].
        rewrite (proj2 (Z.leb_le _ _)) by lia. reflexivity.
      * unfold dt_sub. apply dt_add_ok. cbn [ticks wall value dt]. lia.
      * rewrite single_change_utcoffset. cbn [ticks].
        rewrite (proj2 (Z.leb_gt _ _)) by lia. reflexivity.
      * apply dt_add_ok. cbn [ticks wall value dt]. lia.
    + exact Hex.
    + apply resolve_imaginary_existing. exact Hex.
  - exists dt, h.
    split; [apply resolve_imaginary_existing, He|].
    split; [exact He|apply resolve_imaginary_existing, He].
Qed.


End SingleChange.

(** *** The shift of [resolve_imaginary] *)





(** *** [resolve_imaginary] applied twice *)

(** In the zone of the two gaps 2:30, in the first gap, is resolved to
    4:30, which lies in the second gap and does not exist; resolving 4:30
    gives 6:30. *)
Lemma resolve_imaginary_not_idempotent :
  exists (r1 r2 : object),
    resolve_imaginary in_first_gap 1%nat = (Ok r1, 2%nat)
    /\ resolve_imaginary r1 2%nat = (Ok r2, 3%nat)
    /\ ticks (wall (value r1)) = (730000 - 1) * US_PER_DAY + 16200 * US_PER_SECOND
    /\ ticks (wall (value r2)) = (730000 - 1) * US_PER_DAY + 23400 * US_PER_SECOND
    /\ dt_eqb (wall (value r1)) (wall (value r2)) = false
    /\ datetime_exists (value r1) None = Ok false.
Proof.
  exists {| addr := 1;
            value := {| wall := {| ticks := (730000 - 1) * US_PER_DAY
                                            + 16200 * US_PER_SECOND;
                                   fold := false |};
                        dt_tzinfo := Some two_gaps |} |},
         {| addr := 2;
            value := {| wall := {| ticks := (730000 - 1) * US_PER_DAY
                                            + 23400 * US_PER_SECOND;
                                   fold := false |};
                        dt_tzinfo := Some two_gaps |} |}.
  repeat split; reflexivity.
Qed.

(** C6. [resolve_imaginary] is not idempotent, and what it returns need
    not exist: at 2:30 in the zone of the two gaps it returns 4:30, which
    does not exist (the docstring: "Returns an existing datetime"), and
    applied to 4:30 it returns 6:30.  What holds: a datetime that exists is
    returned as the object it is, so the function is idempotent wherever
    its result exists; and in a zone whose offset grows once, by 24 hours
    at most, the result exists for every datetime three days or more
    inside the range of [datetime]. *)
Theorem resolve_imaginary_result_may_not_exist :
  (exists (r1 r2 : object),
      resolve_imaginary in_first_gap 1%nat = (Ok r1, 2%nat)
      /\ datetime_exists (value r1) None = Ok false
      /\ resolve_imaginary r1 2%nat = (Ok r2, 3%nat)
      /\ dt_eqb (wall (value r1)) (wall (value r2)) = false)
  /\ (forall (dt : object) (h : heap),
         datetime_exists (value dt) None = Ok true ->
         resolve_imaginary dt h = (Ok dt, h))
  /\ (forall (at_ : Z) (before after : timedelta) (a : nat) (h : heap) (w : naive),
         - US_PER_DAY < before < US_PER_DAY ->
         - US_PER_DAY < after < US_PER_DAY ->
         before < after <= before + US_PER_DAY ->
         inland 3 w ->
         exists (r : object) (h' : heap),
           resolve_imaginary
             {| addr := a;
                value := {| wall := w;
                            dt_tzinfo := Some (single_change at_ before after) |} |} h
           = (Ok r, h')
           /\ datetime_exists (value r) None = Ok true
           /\ resolve_imaginary r h' = (Ok r, h')).
Proof.
  split.
  { destruct resolve_imaginary_not_idempotent as (r1 & r2 & H1 & H2 & _ & _ & Hne & Hex).
    exists r1, r2. auto. }
  split; [exact resolve_imaginary_existing|].
  intros at_ before after a h w Hb Ha Hgap Hw.
  exact (single_change_resolved at_ before after Hb Ha a h w Hgap Hw).
Qed.

(** 12:30 on the day the date line skipped resolves to a datetime that
    exists and that a second application returns as it is. *)
Lemma resolve_imaginary_result_may_not_exist_witness :
  exists (r : object) (h' : heap),
    resolve_imaginary skipped_noon 1%nat = (Ok r, h')
    /\ datetime_exists (value r) None = Ok true
    /\ resolve_imaginary r h' = (Ok r, h').
Proof.
  apply (proj2 (proj2 resolve_imaginary_result_may_not_exist)
           ((728294 - 1) * US_PER_DAY + 10 * 3600 * US_PER_SECOND)
           (timedelta_hours (-10)) (timedelta_hours 14) 0%nat 1%nat).
  - split; reflexivity.
  - split; reflexivity.
  - split; [reflexivity|]. discriminate.
  - split; discriminate || reflexivity.
Defined.

(* ===================================================================== *)
(** * Part III: further properties of the code                            *)
(* ===================================================================== *)

(** ** The zone registry: what a reachable state serves *)

(** X1. In every state the registry reaches, a zone held in the strong
    cache is what [gettz] returns for its name, without a look at the file
    system: the weak dictionary still has it. *)
Theorem gettz_strong_entry_served (T : Type) (is_tzlocal : T -> bool)
    (ops : list (op T)) (name : option string) (z : T)
    (nocache : option string -> result (option T)) :
  In (name, z) (__strong_cache (run is_tzlocal ops)) ->
  (__call__ is_tzlocal nocache (run is_tzlocal ops) name).1 = Ok (Some z).
Proof.
  intros Hin. destruct (run_consistent is_tzlocal ops) as (_ & Hi & _).
  unfold __call__. rewrite (Hi name z Hin). reflexivity.
Qed.

(** After the nine calls, "i" is served from the cache even when the file
    system fails. *)
Lemma gettz_strong_entry_served_witness :
  (__call__ (fun _ : nat => false) (fun _ => Raise (OverflowError "gone"))
            (run (fun _ : nat => false) nine_calls) (Some "i")).1
  = Ok (Some 1%nat).
Proof.
  apply gettz_strong_entry_served.
  vm_compute. do 7 right. left. reflexivity.
Defined.

(** X2. A zone that [gettz] returned for a name, and that is not a
    [tzlocal], is returned again by the next call for that name, whatever
    the file system holds by then.  ([after] is the registry as the first
    call leaves it: no weak reference has been collected in between.) *)
Theorem gettz_same_zone_again (T : Type) (is_tzlocal : T -> bool)
    (self after : GettzFunc T) (name : string) (rv : T)
    (nocache nocache' : option string -> result (option T)) :
  __call__ is_tzlocal nocache self (Some name) = (Ok (Some rv), after) ->
  is_tzlocal rv = false ->
  (__call__ is_tzlocal nocache' after (Some name)).1 = Ok (Some rv).
Proof.
  unfold __call__ at 1. intros Hcall Hloc.
  assert (Hi : forall (s : GettzFunc T) n v, __instances (remember s n v) = __instances s).
  { intros s n v. unfold remember. destruct (od_pop n v (__strong_cache s)). reflexivity. }
  assert (Hafter : __instances after !! Some name = Some rv).
  { destruct (__instances self !! Some name) as [rv0|] eqn:Hl.
    - injection Hcall as <- <-. rewrite Hi. exact Hl.
    - destruct (nocache (Some name)) as [[rv0|]|e]; try discriminate.
      simpl in Hcall. destruct (is_tzlocal rv0) eqn:Hl0; simpl in Hcall.
      + injection Hcall as <- <-. congruence.
      + injection Hcall as <- <-. rewrite Hi. simpl. apply lookup_insert_eq. }
  unfold __call__. rewrite Hafter. reflexivity.
Qed.

Lemma gettz_same_zone_again_witness :
  (__call__ (fun _ : nat => false) (fun _ => Ok None)
            (__call__ (fun _ : nat => false) found_everywhere init (Some "Europe/Paris")).2
            (Some "Europe/Paris")).1
  = Ok (Some 12%nat).
Proof.
  apply (gettz_same_zone_again nat (fun _ => false) init _ "Europe/Paris" 12%nat
           found_everywhere (fun _ => Ok None)); reflexivity.
Defined.

(** X3. [gettz()] without a name is never cached: in every state the
    registry reaches it returns what [nocache] returns (or raises what it
    raises) and leaves both caches as they were. *)
Theorem gettz_without_name_uncached (T : Type) (is_tzlocal : T -> bool)
    (ops : list (op T)) (nocache : option string -> result (option T)) :
  __call__ is_tzlocal nocache (run is_tzlocal ops) None
  = (nocache None, run is_tzlocal ops).
Proof.
  destruct (run_consistent is_tzlocal ops) as (_ & _ & Hnone).
  unfold __call__. rewrite Hnone.
  destruct (nocache None) as [[rv|]|e]; reflexivity.
Qed.

(** X4. [set_cache_size] with a negative size drops every entry of the
    strong cache, raises [KeyError] and leaves the negative size in place;
    from then on no call of [gettz] keeps a zone in the strong cache. *)
Theorem set_cache_size_negative_empties (T : Type) (is_tzlocal : T -> bool)
    (self : GettzFunc T) (size : Z) :
  size < 0 ->
  let after := (set_cache_size self size).2 in
  (set_cache_size self size).1 = Raise (KeyError "dictionary is empty")
  /\ __strong_cache after = []
  /\ __strong_cache_size after = size
  /\ forall nocache name,
       __strong_cache (__call__ is_tzlocal nocache after name).2 = [].
Proof.
  intros Hs. cbv zeta. rewrite set_cache_size_negative by exact Hs. simpl.
  do 3 (split; [reflexivity|]). intros nocache name.
  assert (Hr : forall (s : GettzFunc T) n v,
             __strong_cache s = [] -> __strong_cache_size s < 0 ->
             __strong_cache (remember s n v) = []).
  { intros s n v He Hn. unfold remember. rewrite He. cbn [od_pop].
    rewrite (proj2 (Z.ltb_lt _ (od_len (od_append [] n v))))
      by (unfold od_len; simpl; lia).
    reflexivity. }
  unfold __call__.
  destruct (_ !! name) as [rv|]; [apply Hr; [reflexivity|exact Hs]|].
  destruct (nocache name) as [[rv|]|e]; try reflexivity.
  destruct (negb (is_some name) || is_tzlocal rv);
    [reflexivity|apply Hr; [reflexivity|exact Hs]].
Qed.

Lemma set_cache_size_negative_empties_witness :
  (set_cache_size (run (fun _ : nat => false) nine_calls) (-1)).1
  = Raise (KeyError "dictionary is empty").
Proof.
  apply (set_cache_size_negative_empties nat (fun _ => false)). lia.
Defined.

(** ** The components of an iCalendar zone *)

Lemma find_comp_comps (self : _tzicalvtz) (dt : naive) :
  _comps (snd (_find_comp self dt)) = _comps self.
Proof.
  destruct self as [id comps cd cc]. unfold _find_comp. cbn [_comps _cachedate _cachecomp].
  destruct comps as [|c1 [|c2 rest]]; [|reflexivity|];
    (destruct (cache_index _ _); [destruct (_ !! _); reflexivity|];
     destruct (select_comp _ dt); [|reflexivity];
     destruct (10 <? _); reflexivity).
Qed.

Lemma removelast_pred {A : Type} (l : list A) :
  length (removelast l) = pred (length l).
Proof.
  induction l as [|x [|y l] IH]; try reflexivity.
  change (removelast (x :: y :: l)) with (x :: removelast (y :: l)).
  cbn [length] in *. rewrite IH. reflexivity.
Qed.

Lemma find_comp_cache_length (self : _tzicalvtz) (dt : naive) :
  (length (_cachedate self) <= 10)%nat ->
  (length (_cachedate (snd (_find_comp self dt))) <= 10)%nat.
Proof.
  intros Hlen. unfold _find_comp.
  destruct (_comps self) as [|c1 [|c2 rest]]; [|exact Hlen|];
    (destruct (cache_index _ _); [destruct (_ !! _); exact Hlen|];
     destruct (select_comp _ dt); [|exact Hlen];
     destruct (10 <? _) eqn:Hten; cbn [snd _cachedate];
     [rewrite removelast_pred; cbn [length]; lia
     |apply Z.ltb_ge in Hten; cbn [length] in *; lia]).
Qed.

Lemma asked_invariant (tzid : string) (comps : list _tzicalvtzcomp) (dts : list naive) :
  let self := asked (vtz_init tzid comps) dts in
  _comps self = comps /\ cache_sound self /\ (length (_cachedate self) <= 10)%nat.
Proof.
  cbv zeta. unfold asked.
  assert (H : forall self, _comps self = comps -> cache_sound self ->
            (length (_cachedate self) <= 10)%nat ->
            let self' := fold_left (fun self dt => snd (_find_comp self dt)) dts self in
            _comps self' = comps /\ cache_sound self'
            /\ (length (_cachedate self') <= 10)%nat).
  { induction dts as [|dt dts IH]; intros self Hc Hs Hl; cbn [fold_left].
    - auto.
    - apply IH.
      + rewrite find_comp_comps. exact Hc.
      + destruct (Nat.eq_dec (length (_comps self)) 1%nat) as [Hone|Hmany].
        * unfold _find_comp. destruct (_comps self) as [|c1 [|c2 rest]];
            try discriminate. exact Hs.
        * apply find_comp_cache_transparent; assumption.
      + apply find_comp_cache_length. exact Hl. }
  apply H; [reflexivity|apply cache_sound_init|simpl; lia].
Qed.

(** X5. The cache of [_find_comp] is invisible: a zone that has been asked
    at any datetimes before answers at [dt] what a new zone of the same
    components answers, while it holds at most ten cached answers and the
    components it was built with. *)
Theorem find_comp_history_independent (tzid : string)
    (comps : list _tzicalvtzcomp) (dts : list naive) (dt : naive) :
  let self := asked (vtz_init tzid comps) dts in
  fst (_find_comp self dt) = fst (_find_comp (vtz_init tzid comps) dt)
  /\ (length (_cachedate self) <= 10)%nat
  /\ length (_cachecomp self) = length (_cachedate self)
  /\ _comps self = comps.
Proof.
  cbv zeta. destruct (asked_invariant tzid comps dts) as (Hc & Hs & Hl).
  split; [|split; [exact Hl|split; [|exact Hc]]].
  - destruct (Nat.eq_dec (length comps) 1%nat) as [Hone|Hmany].
    + unfold _find_comp. rewrite Hc. simpl.
      destruct comps as [|c1 [|c2 rest]]; try discriminate. reflexivity.
    + assert (Hmany' : length (_comps (asked (vtz_init tzid comps) dts)) <> 1%nat)
        by (rewrite Hc; exact Hmany).
      rewrite (proj1 (find_comp_cache_transparent _ dt Hs Hmany')).
      rewrite (proj1 (find_comp_cache_transparent (vtz_init tzid comps) dt
                        (cache_sound_init tzid comps) Hmany)).
      rewrite Hc. reflexivity.
  - symmetry. exact (Forall2_length _ _ _ Hs).
Qed.

(** The first loop of [_find_comp], with what it has seen so far: the
    pair it holds is the first among the latest occurrences. *)
Lemma latest_comp_spec (dt : naive) (comps seen : list _tzicalvtzcomp)
    (last : option (naive * _tzicalvtzcomp)) (t : naive) (c : _tzicalvtzcomp) :
  latest_comp comps dt last = Ok (Some (t, c)) ->
  match last with
  | None => Forall (fun c' => _find_compdt c' dt = Ok None) seen
  | Some (t0, c0) =>
      exists pre post, seen = (pre ++ c0 :: post)%list
        /\ _find_compdt c0 dt = Ok (Some t0)
        /\ (forall c' t', In c' pre -> _find_compdt c' dt = Ok (Some t') ->
                          ticks t' < ticks t0)
        /\ (forall c' t', In c' post -> _find_compdt c' dt = Ok (Some t') ->
                          ticks t' <= ticks t0)
  end ->
  exists pre post, (seen ++ comps = pre ++ c :: post)%list
    /\ _find_compdt c dt = Ok (Some t)
    /\ (forall c' t', In c' pre -> _find_compdt c' dt = Ok (Some t') ->
                      ticks t' < ticks t)
    /\ (forall c' t', In c' post -> _find_compdt c' dt = Ok (Some t') ->
                      ticks t' <= ticks t).
Proof.
  revert seen last. induction comps as [|comp rest IH]; intros seen last Hl Hlast.
  - simpl in Hl. injection Hl as ->. rewrite app_nil_r. exact Hlast.
  - cbn [latest_comp] in Hl.
    destruct (_find_compdt comp dt) as [[cdt|]|e] eqn:Hcd; try discriminate;
      rewrite bind_ok in Hl;
      replace (seen ++ comp :: rest)%list with ((seen ++ [comp]) ++ rest)%list
        by (rewrite <- app_assoc; reflexivity);
      apply (IH _ _ Hl); clear IH Hl.
    + destruct last as [[t0 c0]|].
      * destruct Hlast as (pre & post & -> & Hc0 & Hpre & Hpost).
        destruct (dt_ltb t0 cdt) eqn:Hlt; unfold dt_ltb in Hlt.
        -- apply Z.ltb_lt in Hlt.
           exists (pre ++ c0 :: post)%list, []. split; [reflexivity|].
           split; [exact Hcd|]. split; [|intros ? ? []].
           intros c' t' Hin Hc'. apply in_app_or in Hin as [Hin|[<-|Hin]].
           ++ specialize (Hpre _ _ Hin Hc'). lia.
           ++ rewrite Hc0 in Hc'. injection Hc' as <-. exact Hlt.
           ++ specialize (Hpost _ _ Hin Hc'). lia.
        -- apply Z.ltb_ge in Hlt.
           exists pre, (post ++ [comp])%list. split; [rewrite <- app_assoc; reflexivity|].
           split; [exact Hc0|]. split; [exact Hpre|].
           intros c' t' Hin Hc'. apply in_app_or in Hin as [Hin|[<-|[]]].
           ++ exact (Hpost _ _ Hin Hc').
           ++ rewrite Hcd in Hc'. injection Hc' as <-. exact Hlt.
      * exists seen, []. split; [reflexivity|]. split; [exact Hcd|].
        split; [|intros ? ? []].
        intros c' t' Hin Hc'. rewrite Forall_forall in Hlast.
        apply list_elem_of_In in Hin.
        rewrite (Hlast _ Hin) in Hc'. discriminate.
    + destruct last as [[t0 c0]|].
      * destruct Hlast as (pre & post & -> & Hc0 & Hpre & Hpost).
        exists pre, (post ++ [comp])%list. split; [rewrite <- app_assoc; reflexivity|].
        split; [exact Hc0|]. split; [exact Hpre|].
        intros c' t' Hin Hc'. apply in_app_or in Hin as [Hin|[<-|[]]].
        -- exact (Hpost _ _ Hin Hc').
        -- rewrite Hcd in Hc'. discriminate.
      * apply Forall_app. split; [exact Hlast|]. constructor; [exact Hcd|constructor].
Qed.

Lemma latest_comp_some (dt : naive) (comps : list _tzicalvtzcomp)
    (last : naive * _tzicalvtzcomp) (r : option (naive * _tzicalvtzcomp)) :
  latest_comp comps dt (Some last) = Ok r -> r <> None.
Proof.
  revert last. induction comps as [|comp rest IH]; intros last Hl.
  - simpl in Hl. injection Hl as <-. discriminate.
  - cbn [latest_comp] in Hl.
    destruct (_find_compdt comp dt) as [[cdt|]|e]; try discriminate;
      rewrite bind_ok in Hl.
    + destruct last as [t0 c0]. destruct (dt_ltb t0 cdt); exact (IH _ Hl).
    + exact (IH _ Hl).
Qed.

Lemma latest_comp_occurred (dt : naive) (comps : list _tzicalvtzcomp)
    (c0 : _tzicalvtzcomp) (t0 : naive) :
  In c0 comps -> _find_compdt c0 dt = Ok (Some t0) ->
  latest_comp comps dt None <> Ok None.
Proof.
  induction comps as [|comp rest IH]; intros Hin Hc0; [destruct Hin|].
  cbn [latest_comp].
  destruct (_find_compdt comp dt) as [[cdt|]|e] eqn:Hcd; try discriminate;
    rewrite bind_ok.
  - intros Hl. exact (latest_comp_some _ _ _ _ Hl eq_refl).
  - destruct Hin as [<-|Hin]; [congruence|]. exact (IH Hin Hc0).
Qed.

(** X6. The component in effect at [dt] is the one whose recurrence set
    has the latest occurrence at or before [dt]; among components whose
    latest occurrences coincide, the one defined first.  [select_comp] is
    what [_find_comp] answers in a zone of several components
    ([find_comp_cache_transparent]). *)
Theorem select_comp_latest_onset (comps : list _tzicalvtzcomp) (dt : naive)
    (c c0 : _tzicalvtzcomp) (t0 : naive) :
  select_comp comps dt = Ok c ->
  In c0 comps -> _find_compdt c0 dt = Ok (Some t0) ->
  exists pre post t,
    comps = (pre ++ c :: post)%list
    /\ _find_compdt c dt = Ok (Some t)
    /\ (forall c' t', In c' pre -> _find_compdt c' dt = Ok (Some t') ->
                      ticks t' < ticks t)
    /\ (forall c' t', In c' post -> _find_compdt c' dt = Ok (Some t') ->
                      ticks t' <= ticks t).
Proof.
  intros Hsel Hin Hc0. unfold select_comp in Hsel.
  destruct (latest_comp comps dt None) as [[[t c1]|]|e] eqn:Hl; try discriminate.
  - rewrite bind_ok in Hsel. injection Hsel as <-.
    destruct (latest_comp_spec dt comps [] None t c1 Hl (List.Forall_nil _))
      as (pre & post & Heq & H).
    exists pre, post, t. split; [exact Heq|exact H].
  - exfalso. exact (latest_comp_occurred _ _ _ _ Hin Hc0 Hl).
Qed.

(** After its onset the STANDARD component of the example zone is in
    effect, though it is defined second. *)
Lemma select_comp_latest_onset_witness :
  exists pre post t,
    _comps daylight_then_standard
    = (pre ++ Ical.comp_init (-14400) (-18000) false (Some "EST")
                (Some (once (midnight 730200))) :: post)%list
    /\ _find_compdt (Ical.comp_init (-14400) (-18000) false (Some "EST")
                       (Some (once (midnight 730200)))) (midnight 730300)
       = Ok (Some t)
    /\ (forall c' t', In c' pre -> _find_compdt c' (midnight 730300) = Ok (Some t') ->
                      ticks t' < ticks t)
    /\ (forall c' t', In c' post -> _find_compdt c' (midnight 730300) = Ok (Some t') ->
                      ticks t' <= ticks t).
Proof.
  apply (select_comp_latest_onset _ (midnight 730300) _
           (Ical.comp_init (-18000) (-14400) true (Some "EDT")
              (Some (once (midnight 730000)))) (midnight 730000)).
  - reflexivity.
  - left. reflexivity.
  - reflexivity.
Defined.

(** ** What the iCalendar parser builds *)

Lemma initial_state_ok : state_ok initial_state.
Proof.
  split; [discriminate|]. split; [constructor|]. apply map_Forall_empty.
Qed.

Lemma end_component_ok (rrulestr : string -> result rrule) (st st' : parser_state)
    (ctype : string) :
  state_ok st -> end_component rrulestr st ctype = Ok st' -> state_ok st'.
Proof.
  intros (Hd & Hc & Hv). unfold end_component.
  destruct (founddtstart st) eqn:Hf; [|discriminate]. cbn [negb].
  destruct (tzoffsetfrom_ st) as [from|]; [|discriminate].
  destruct (tzoffsetto_ st) as [to|]; [|discriminate].
  specialize (Hd eq_refl).
  destruct (rrulelines st) as [|l ls] eqn:Hr; [congruence|].
  destruct (rrulestr _) as [rr|e]; [|discriminate].
  cbn. intros [= <-]. split; [|split]; cbn.
  - intros _. discriminate.
  - apply Forall_app. split; [exact Hc|]. constructor; [|constructor].
    split; [discriminate|reflexivity].
  - exact Hv.
Qed.

Lemma end_vtimezone_ok (st st' : parser_state) :
  state_ok st -> end_vtimezone st = Ok st' -> state_ok st'.
Proof.
  intros (Hd & Hc & Hv). unfold end_vtimezone, raise_value_error.
  destruct (comptype st); [discriminate|].
  destruct (tzid st) as [[|c id]|]; try discriminate.
  destruct (comps st) as [|c1 rest] eqn:Hcomps; [discriminate|].
  intros [= <-]. split; [|split]; cbn.
  - exact Hd.
  - exact Hc.
  - apply map_Forall_insert_2; [|exact Hv].
    repeat split; try discriminate. exact Hc.
Qed.

Lemma component_property_ok (st st' : parser_state) (line name value : string)
    (parms : list string) :
  state_ok st -> component_property st line name value parms = Ok st' -> state_ok st'.
Proof.
  intros (Hd & Hc & Hv). unfold component_property, raise_value_error.
  repeat match goal with
         | |- context [if ?b then _ else _] => destruct b
         | |- context [match List.find ?f ?l with _ => _ end] => destruct (List.find f l)
         | |- context [match parms with _ => _ end] => destruct parms
         | |- context [_parse_offset ?v] => destruct (_parse_offset v); cbn
         end;
    try discriminate;
    intros [= <-]; (split; [|split]); cbn; try assumption;
    intros _ Hnil; apply app_eq_nil in Hnil as [_ Hnil]; discriminate.
Qed.

Lemma vtimezone_property_ok (st st' : parser_state) (name value : string)
    (parms : list string) :
  state_ok st -> vtimezone_property st name value parms = Ok st' -> state_ok st'.
Proof.
  intros (Hd & Hc & Hv). unfold vtimezone_property, raise_value_error.
  repeat match goal with
         | |- context [if ?b then _ else _] => destruct b
         | |- context [match parms with _ => _ end] => destruct parms
         end;
    try discriminate;
    intros [= <-]; (split; [|split]); cbn; assumption.
Qed.

Lemma parse_line_ok (rrulestr : string -> result rrule) (st st' : parser_state)
    (line : string) :
  state_ok st -> parse_line rrulestr st line = Ok st' -> state_ok st'.
Proof.
  intros Hok. unfold parse_line, raise_value_error.
  destruct (Str.is_empty line); [intros [= <-]; exact Hok|].
  destruct (Str.split1 ":" line) as [|name [|value [|? ?]]]; try discriminate.
  destruct (Str.split ";" name) as [|p0 parms]; [discriminate|].
  destruct (invtz st).
  - destruct (String.eqb (Str.upper p0) "BEGIN").
    { destruct (str_in value _); [|discriminate].
      intros [= <-]. destruct Hok as (Hd & Hc & Hv).
      split; [|split]; cbn; try assumption. discriminate. }
    destruct (String.eqb (Str.upper p0) "END").
    { destruct (String.eqb value "VTIMEZONE"); [apply end_vtimezone_ok; exact Hok|].
      destruct (comptype st) as [ctype|]; [|discriminate].
      destruct (String.eqb value ctype); [|discriminate].
      apply end_component_ok; exact Hok. }
    destruct (is_some (comptype st)).
    + apply component_property_ok; exact Hok.
    + apply vtimezone_property_ok; exact Hok.
  - destruct (_ && _); intros [= <-]; [|exact Hok].
    destruct Hok as (Hd & Hc & Hv). split; [|split]; cbn; try assumption.
    constructor.
Qed.

Lemma parse_lines_ok (rrulestr : string -> result rrule) (lines : list string)
    (st st' : parser_state) :
  state_ok st -> parse_lines rrulestr st lines = Ok st' -> state_ok st'.
Proof.
  revert st. induction lines as [|line rest IH]; intros st Hok; cbn [parse_lines].
  - intros [= <-]. exact Hok.
  - destruct (parse_line rrulestr st line) as [st1|e] eqn:Hl; [|discriminate].
    rewrite bind_ok. apply IH. exact (parse_line_ok _ _ _ _ Hok Hl).
Qed.

(** X7. Every zone that [_parse_rfc] stores is stored under its own,
    non-empty [TZID], has one component or more and empty caches, and each
    of its components has a recurrence set (so [_find_compdt] never meets
    [None] for it) and, as [tzoffsetdiff], the difference of its two
    offsets. *)
Theorem parse_rfc_zones_well_formed (rrulestr : string -> result rrule)
    (s : string) (vtz : gmap string _tzicalvtz) (id : string) (z : _tzicalvtz) :
  _parse_rfc rrulestr s = Ok vtz ->
  vtz !! id = Some z ->
  _tzid z = id /\ id <> EmptyString /\ _comps z <> []
  /\ Forall (fun c => comp_rrule c <> None
                      /\ tzoffsetdiff c = tzoffsetto c - tzoffsetfrom c) (_comps z)
  /\ _cachedate z = [] /\ _cachecomp z = [].
Proof.
  unfold _parse_rfc. destruct (Str.splitlines s) as [|l ls]; [discriminate|].
  destruct (parse_lines _ _ _) as [st|e] eqn:Hp; [|discriminate].
  rewrite bind_ok. intros [= <-] Hz.
  destruct (parse_lines_ok _ _ _ _ initial_state_ok Hp) as (_ & _ & Hv).
  exact (Hv id z Hz).
Qed.

Lemma parse_rfc_zones_well_formed_witness :
  _tzid us_eastern = "US-Eastern" /\ "US-Eastern" <> EmptyString
  /\ _comps us_eastern <> []
  /\ Forall (fun c => comp_rrule c <> None
                      /\ tzoffsetdiff c = tzoffsetto c - tzoffsetfrom c)
            (_comps us_eastern)
  /\ _cachedate us_eastern = [] /\ _cachecomp us_eastern = [].
Proof.
  apply (parse_rfc_zones_well_formed rrulestr_once complete_zone
           {[ "US-Eastern" := us_eastern ]}).
  - vm_compute. reflexivity.
  - apply lookup_singleton_eq.
Defined.

(** X8. [tzical.get()] without a [tzid] returns the zone when the file
    holds exactly one, and never [None]; it raises [ValueError] when the
    file holds none and when it holds several. *)
Theorem tzical_get_without_tzid (vtz : gmap string _tzicalvtz) :
  match get vtz None with
  | Ok r => exists id z, vtz = {[ id := z ]} /\ r = Some z
  | Raise e =>
      (vtz = ∅ /\ e = ValueError "no timezones defined")
      \/ ((1 < size vtz)%nat /\ e = ValueError "more than one timezone available")
  end.
Proof.
  unfold get. destruct (map_to_list vtz) as [|[id z] [|kv rest]] eqn:Hl.
  - left. split; [|reflexivity]. apply map_to_list_empty_iff. exact Hl.
  - rewrite bind_ok. exists id, z.
    assert (Hv : vtz = {[ id := z ]}).
    { apply map_to_list_inj. rewrite Hl, map_to_list_singleton. reflexivity. }
    split; [exact Hv|]. rewrite Hv. rewrite lookup_singleton_eq. reflexivity.
  - right. split; [|reflexivity].
    rewrite <- length_map_to_list, Hl. simpl. lia.
Qed.

(** ** Offsets and line unfolding in iCalendar text *)

Lemma digit_cases (d : Z) :
  0 <= d <= 9 ->
  d = 0 \/ d = 1 \/ d = 2 \/ d = 3 \/ d = 4 \/ d = 5 \/ d = 6 \/ d = 7 \/ d = 8 \/ d = 9.
Proof. lia. Qed.

Ltac each_digit H :=
  apply digit_cases in H;
  repeat (destruct H as [H|H]); subst.

Lemma int_two_digits (a b : Z) :
  0 <= a <= 9 -> 0 <= b <= 9 ->
  Str.int (String (Str.digit_char a) (String (Str.digit_char b) EmptyString))
  = Ok (10 * a + b).
Proof. intros Ha Hb. each_digit Ha; each_digit Hb; reflexivity. Qed.

Lemma digit_char_plain (d : Z) :
  0 <= d <= 9 ->
  Str.is_space (Str.digit_char d) = false
  /\ Ascii.eqb (Str.digit_char d) "+" = false
  /\ Ascii.eqb (Str.digit_char d) "-" = false.
Proof. intros Hd. each_digit Hd; repeat split; reflexivity. Qed.

Ltac strip_plain Hfirst Hlast :=
  unfold Str.strip; cbn [Str.lstrip]; rewrite Hfirst;
  cbn [Str.rstrip Str.is_empty andb]; rewrite Hlast;
  cbn [Str.rstrip Str.is_empty andb].

(** Four and six characters of which the first is no sign and no space and
    the last no space: the body after the sign. *)
Lemma parse_offset_four (c1 c2 c3 c4 : ascii) (h m : Z) :
  Str.is_space c1 = false -> Str.is_space c4 = false ->
  Ascii.eqb c1 "+" = false -> Ascii.eqb c1 "-" = false ->
  Str.int (String c1 (String c2 EmptyString)) = Ok h ->
  Str.int (String c3 (String c4 EmptyString)) = Ok m ->
  let body := String c1 (String c2 (String c3 (String c4 EmptyString))) in
  _parse_offset body = Ok ((h * 3600 + m * 60) * 1)
  /\ _parse_offset (String "+" body) = Ok ((h * 3600 + m * 60) * 1)
  /\ _parse_offset (String "-" body) = Ok ((h * 3600 + m * 60) * -1).
Proof.
  intros Hs1 Hs4 Hp Hm Hh Hmin. cbv zeta.
  assert (Hplus : Str.is_space "+" = false) by reflexivity.
  assert (Hminus : Str.is_space "-" = false) by reflexivity.
  unfold _parse_offset. repeat split.
  - strip_plain Hs1 Hs4. rewrite Hp, Hm.
    cbn [String.length Nat.eqb Str.slice Str.slice_from String.substring Nat.sub].
    rewrite Hh, Hmin. reflexivity.
  - strip_plain Hplus Hs4.
    cbn [String.length Nat.eqb Str.slice Str.slice_from String.substring Nat.sub Ascii.eqb Bool.eqb].
    rewrite Hh, Hmin. reflexivity.
  - strip_plain Hminus Hs4.
    cbn [String.length Nat.eqb Str.slice Str.slice_from String.substring Nat.sub Ascii.eqb Bool.eqb].
    rewrite Hh, Hmin. reflexivity.
Qed.

Lemma parse_offset_six (c1 c2 c3 c4 c5 c6 : ascii) (h m s : Z) :
  Str.is_space c1 = false -> Str.is_space c6 = false ->
  Ascii.eqb c1 "+" = false -> Ascii.eqb c1 "-" = false ->
  Str.int (String c1 (String c2 EmptyString)) = Ok h ->
  Str.int (String c3 (String c4 EmptyString)) = Ok m ->
  Str.int (String c5 (String c6 EmptyString)) = Ok s ->
  let body :=
    String c1 (String c2 (String c3 (String c4 (String c5 (String c6 EmptyString))))) in
  _parse_offset body = Ok ((h * 3600 + m * 60 + s) * 1)
  /\ _parse_offset (String "+" body) = Ok ((h * 3600 + m * 60 + s) * 1)
  /\ _parse_offset (String "-" body) = Ok ((h * 3600 + m * 60 + s) * -1).
Proof.
  intros Hs1 Hs6 Hp Hm Hh Hmin Hsec. cbv zeta.
  assert (Hplus : Str.is_space "+" = false) by reflexivity.
  assert (Hminus : Str.is_space "-" = false) by reflexivity.
  unfold _parse_offset. repeat split.
  - strip_plain Hs1 Hs6. rewrite Hp, Hm.
    cbn [String.length Nat.eqb Str.slice Str.slice_from String.substring Nat.sub].
    rewrite Hh, Hmin, Hsec. reflexivity.
  - strip_plain Hplus Hs6.
    cbn [String.length Nat.eqb Str.slice Str.slice_from String.substring Nat.sub Ascii.eqb Bool.eqb].
    rewrite Hh, Hmin, Hsec. reflexivity.
  - strip_plain Hminus Hs6.
    cbn [String.length Nat.eqb Str.slice Str.slice_from String.substring Nat.sub Ascii.eqb Bool.eqb].
    rewrite Hh, Hmin, Hsec. reflexivity.
Qed.

(** X9. [_parse_offset] reads [HHMM] and [HHMMSS], with or without a
    sign, as that many hours, minutes and seconds, in seconds, negated
    after [-]; it checks no range: every digit is accepted in every
    place, so 99 minutes are. *)
Theorem parse_offset_digits (a b c d e f : Z) :
  0 <= a <= 9 -> 0 <= b <= 9 -> 0 <= c <= 9 ->
  0 <= d <= 9 -> 0 <= e <= 9 -> 0 <= f <= 9 ->
  let hhmm :=
    String (Str.digit_char a) (String (Str.digit_char b)
      (String (Str.digit_char c) (String (Str.digit_char d) EmptyString))) in
  let hhmmss :=
    String (Str.digit_char a) (String (Str.digit_char b)
      (String (Str.digit_char c) (String (Str.digit_char d)
        (String (Str.digit_char e) (String (Str.digit_char f) EmptyString))))) in
  let minutes := (10 * a + b) * 3600 + (10 * c + d) * 60 in
  _parse_offset hhmm = Ok minutes
  /\ _parse_offset (String "+" hhmm) = Ok minutes
  /\ _parse_offset (String "-" hhmm) = Ok (- minutes)
  /\ _parse_offset hhmmss = Ok (minutes + (10 * e + f))
  /\ _parse_offset (String "+" hhmmss) = Ok (minutes + (10 * e + f))
  /\ _parse_offset (String "-" hhmmss) = Ok (- (minutes + (10 * e + f))).
Proof.
  intros Ha Hb Hc Hd He Hf. cbv zeta.
  destruct (digit_char_plain a Ha) as (Hsa & Hpa & Hma).
  destruct (digit_char_plain d Hd) as (Hsd & _ & _).
  destruct (digit_char_plain f Hf) as (Hsf & _ & _).
  destruct (parse_offset_four _ _ _ _ _ _ Hsa Hsd Hpa Hma
              (int_two_digits a b Ha Hb) (int_two_digits c d Hc Hd))
    as (H1 & H2 & H3).
  destruct (parse_offset_six _ _ _ _ _ _ _ _ _ Hsa Hsf Hpa Hma
              (int_two_digits a b Ha Hb) (int_two_digits c d Hc Hd)
              (int_two_digits e f He Hf))
    as (H4 & H5 & H6).
  rewrite H1, H2, H3, H4, H5, H6.
  repeat split; f_equal; lia.
Qed.

(** [-0530] is five and a half hours west; [+0099] is accepted. *)
Lemma parse_offset_digits_witness :
  _parse_offset "-0530" = Ok (-19800)
  /\ _parse_offset "+0099" = Ok 5940.
Proof.
  split.
  - apply (parse_offset_digits 0 5 3 0 0 0); lia.
  - apply (parse_offset_digits 0 0 9 9 0 0); lia.
Defined.

Lemma rstrip_head (c : ascii) (rest line : string) :
  Str.rstrip line = String c rest -> exists rest', line = String c rest'.
Proof.
  destruct line as [|c' rest']; cbn [Str.rstrip]; [discriminate|].
  destruct (_ && _); [discriminate|]. intros [= -> _]. eauto.
Qed.

Lemma rstrip_append (prev tail : string) :
  Str.rstrip prev <> EmptyString -> Str.rstrip (String.append prev tail) <> EmptyString.
Proof.
  induction prev as [|c prev IH]; [intros H; destruct (H eq_refl)|].
  change (String.append (String c prev) tail) with (String c (String.append prev tail)).
  cbn [Str.rstrip]. intros Hprev.
  destruct (Str.is_empty (Str.rstrip (String.append prev tail))) eqn:He;
    cbn [andb]; [|discriminate].
  destruct (Str.is_space c); [|discriminate].
  exfalso. rewrite andb_true_r in Hprev.
  destruct (Str.rstrip prev) eqn:Hp; cbn [Str.is_empty] in Hprev;
    [exact (Hprev eq_refl)|].
  destruct (Str.rstrip (String.append prev tail)); [|discriminate].
  apply IH; [discriminate|reflexivity].
Qed.

Lemma tail_rev {A : Type} (l : list A) : tail (rev l) = rev (removelast l).
Proof.
  induction l as [|x l IH]; [reflexivity|].
  destruct l as [|y l]; [reflexivity|].
  change (removelast (x :: y :: l)) with (x :: removelast (y :: l)).
  cbn [rev] in *. rewrite <- IH.
  destruct (rev l ++ [y])%list eqn:Hr; [|reflexivity].
  apply app_eq_nil in Hr as [_ Hr]. discriminate.
Qed.

Lemma unfold_lines_kept (lines kept : list string) :
  Forall (fun l => Str.rstrip l <> EmptyString) kept ->
  Forall (fun l => forall rest, l <> String " " rest) (removelast kept) ->
  Forall (fun l => Str.rstrip l <> EmptyString) (unfold_lines kept lines)
  /\ Forall (fun l => forall rest, l <> String " " rest)
            (tail (unfold_lines kept lines)).
Proof.
  revert kept. induction lines as [|l rest IH]; intros kept Hb Hs; cbn [unfold_lines].
  - split.
    + apply Forall_rev. exact Hb.
    + rewrite tail_rev. apply Forall_rev. exact Hs.
  - destruct (Str.rstrip l) as [|c tl] eqn:Hl; [exact (IH kept Hb Hs)|].
    assert (Hnb : Str.rstrip l <> EmptyString) by (rewrite Hl; discriminate).
    destruct kept as [|prev before].
    + apply IH; [constructor; [exact Hnb|constructor]|constructor].
    + destruct (Ascii.eqb c " ") eqn:Hc.
      * apply IH.
        -- inversion Hb; subst. constructor; [apply rstrip_append|]; assumption.
        -- destruct before as [|p2 before]; [constructor|].
           change (removelast (?x :: p2 :: before)) with (x :: removelast (p2 :: before)) in *.
           inversion Hs as [|? ? Hprev Hrest]; subst. constructor; [|exact Hrest].
           intros rest' Heq. inversion Hb as [|? ? Hpb _]; subst.
           destruct prev as [|p0 prev]; [apply Hpb; reflexivity|].
           change (String.append (String p0 prev) tl)
             with (String p0 (String.append prev tl)) in Heq.
           injection Heq as -> _.
           exact (Hprev _ eq_refl).
      * apply IH.
        -- constructor; assumption.
        -- change (removelast (l :: prev :: before)) with (l :: removelast (prev :: before)).
           constructor; [|exact Hs].
           intros rest' ->. destruct (rstrip_head _ _ _ Hl) as (r & Hr).
           injection Hr as <- _. discriminate.
Qed.

(** X10. After the unfolding loop of [_parse_rfc] no line is blank (the
    test [if not line: continue] of the loop that follows never holds)
    and no line but the first begins with a space: every continuation
    line has been joined to the line before it. *)
Theorem unfold_lines_unfolded (lines : list string) :
  Forall (fun l => Str.rstrip l <> EmptyString) (unfold_lines [] lines)
  /\ Forall (fun l => forall rest, l <> String " " rest)
            (tail (unfold_lines [] lines)).
Proof. apply unfold_lines_kept; constructor. Qed.

(** ** Fixed offsets under the resolver *)

(** X11. In a [tzoffset] zone whose offset the host accepts, every
    datetime whose UTC reading [datetime] can hold exists and is not
    ambiguous, and [resolve_imaginary] hands back the object it was
    given, creating none. *)
Theorem fixed_offset_always_exists (z : tzoffset) (w : naive) (a : nat) (h : heap) :
  - US_PER_DAY < _offset z < US_PER_DAY ->
  0 <= ticks w < MAX_TICKS ->
  0 <= ticks w - _offset z < MAX_TICKS ->
  let dt := {| wall := w; dt_tzinfo := Some (tzoffset_tzinfo z) |} in
  datetime_exists dt None = Ok true
  /\ datetime_ambiguous dt None = Ok false
  /\ resolve_imaginary {| addr := a; value := dt |} h
     = (Ok {| addr := a; value := dt |}, h).
Proof.
  intros Hoff Hw Hutc. cbv zeta.
  assert (He : datetime_exists {| wall := w; dt_tzinfo := Some (tzoffset_tzinfo z) |} None
               = Ok true).
  { unfold datetime_exists, zone_for, astimezone, dt_utcoffset, tzoffset_tzinfo, UTC.
    cbn [dt_tzinfo wall replace_tzinfo utcoffset fromutc].
    unfold tzoffset_utcoffset, tzutc_utcoffset, tzutc_fromutc, tzoffset_fromutc.
    rewrite !bind_ok. cbv beta. cbn [utcoffset fromutc]. rewrite !bind_ok. cbv beta.
    rewrite (proj2 (Z.ltb_lt (- US_PER_DAY) (_offset z))) by lia.
    rewrite (proj2 (Z.ltb_lt (_offset z) US_PER_DAY)) by lia.
    cbn [andb]. rewrite bind_ok. unfold dt_sub.
    rewrite dt_add_ok by lia. rewrite !bind_ok. cbv beta.
    assert (HD : US_PER_DAY = 86400000000) by reflexivity.
    unfold ZERO.
    rewrite (proj2 (Z.ltb_lt (- US_PER_DAY) 0)) by lia.
    rewrite (proj2 (Z.ltb_lt 0 US_PER_DAY)) by lia.
    cbn [andb]. rewrite bind_ok.
    rewrite dt_add_ok by (cbn [ticks]; lia). rewrite bind_ok.
    rewrite dt_add_ok by (cbn [ticks]; lia). rewrite bind_ok.
    unfold dt_eqb. cbn [ticks]. rewrite (proj2 (Z.eqb_eq _ _)) by lia. reflexivity. }
  split; [exact He|]. split; [reflexivity|].
  unfold resolve_imaginary. cbn [value dt_tzinfo]. rewrite He. reflexivity.
Qed.

(** Noon of day 730000, five hours west. *)
Lemma fixed_offset_always_exists_witness :
  datetime_exists
    {| wall := {| ticks := 729999 * US_PER_DAY + 43200 * US_PER_SECOND; fold := false |};
       dt_tzinfo := Some (tzoffset_tzinfo (tzoffset_init true (Some "EST") (Seconds (-18000)))) |}
    None = Ok true.
Proof.
  apply (fixed_offset_always_exists
           (tzoffset_init true (Some "EST") (Seconds (-18000)))
           {| ticks := 729999 * US_PER_DAY + 43200 * US_PER_SECOND; fold := false |}
           O O); vm_compute; split; congruence.
Defined.

(** ** A [tzrange] with half a rule *)

(** X12. A [tzrange] built with a start rule but without a DST
    abbreviation and without an end rule is accepted and says it has DST,
    yet [transitions] returns for no year: where the year is one
    [datetime] can hold and the start rule applies, adding the missing end
    rule raises [TypeError]. *)
Theorem tzrange_start_without_end (stdabbr dstabbr : option string)
    (stdoffset dstoffset : option offset_arg) (rd : relativedelta) (year : Z) :
  truthy dstabbr = false ->
  relativedelta_bool rd = true ->
  let z := tzrange_init stdabbr stdoffset dstabbr dstoffset (DeltaRel rd) DeltaNone in
  hasdst z = true
  /\ (exists e, transitions z year = Raise e)
  /\ (forall base start,
         datetime_new year 1 1 0 0 0 = Ok base -> radd base rd = Ok start ->
         transitions z year
         = Raise (TypeError
                    "unsupported operand type(s) for +: 'datetime.datetime' and 'NoneType'")).
Proof.
  intros Hd Hrd. cbv zeta.
  assert (Hz : forall z, z = tzrange_init stdabbr stdoffset dstabbr dstoffset
                               (DeltaRel rd) DeltaNone ->
               hasdst z = true /\ _start_delta z = DeltaRel rd /\ _end_delta z = DeltaNone).
  { intros z ->. unfold tzrange_init. cbn [hasdst _start_delta _end_delta delta_bool].
    rewrite Hd. auto. }
  destruct (Hz _ eq_refl) as (Hh & Hs & He).
  split; [exact Hh|].
  unfold transitions. rewrite Hh, Hs, He. cbn [negb add_delta]. split.
  - destruct (datetime_new year 1 1 0 0 0) as [base|e]; [|eexists; reflexivity].
    rewrite bind_ok. destruct (radd base rd) as [start|e]; [|eexists; reflexivity].
    rewrite bind_ok. eexists. reflexivity.
  - intros base start -> . rewrite bind_ok. intros ->. rewrite bind_ok. reflexivity.
Qed.

(** A start rule on 1 March, in the year 2000. *)
Lemma tzrange_start_without_end_witness :
  exists e,
    transitions
      (tzrange_init (Some "EST") (Some (Seconds (-18000))) None None
         (DeltaRel (relativedelta_new 0 0 (Some 3) (Some 1) None None None)) DeltaNone)
      2000 = Raise e.
Proof.
  apply (tzrange_start_without_end (Some "EST") None (Some (Seconds (-18000))) None
           (relativedelta_new 0 0 (Some 3) (Some 1) None None None) 2000);
    reflexivity.
Defined.

(** ** The local zone *)

Lemma naive_is_dst_enfold (t : Tzlocal.time) (w : naive) (f : bool) :
  Tzlocal._naive_is_dst t (enfold w f) = Tzlocal._naive_is_dst t w.
Proof. reflexivity. Qed.

Lemma tzlocal_is_ambiguous_enfold (t : Tzlocal.time) (self : Tzlocal.tzlocal)
    (w : naive) (f : bool) :
  Tzlocal.tzlocal_is_ambiguous t self (enfold w f) = Tzlocal.tzlocal_is_ambiguous t self w.
Proof. reflexivity. Qed.

Lemma tzlocal_ambiguous_inv (t : Tzlocal.time) (self : Tzlocal.tzlocal) (w : naive) :
  Tzlocal.tzlocal_is_ambiguous t self w = Ok true ->
  Tzlocal._naive_is_dst t w = Ok false
  /\ exists earlier, dt_sub w (Tzlocal._dst_saved self) = Ok earlier
                     /\ Tzlocal._naive_is_dst t earlier = Ok true.
Proof.
  unfold Tzlocal.tzlocal_is_ambiguous.
  destruct (Tzlocal._naive_is_dst t w) as [[|]|e]; try discriminate.
  rewrite bind_ok. cbn [negb].
  destruct (dt_sub w (Tzlocal._dst_saved self)) as [earlier|e]; [|discriminate].
  rewrite bind_ok.
  destruct (Tzlocal._naive_is_dst t earlier) as [[|]|e] eqn:He; try discriminate.
  intros _. split; [reflexivity|]. exists earlier. auto.
Qed.

(** Only a zone that has summer time finds a time ambiguous. *)
Lemma tzlocal_ambiguous_hasdst (t0 t : Tzlocal.time) (w : naive) :
  Tzlocal.tzlocal_is_ambiguous t (Tzlocal.tzlocal_init t0) w = Ok true ->
  Tzlocal._hasdst (Tzlocal.tzlocal_init t0) = true.
Proof.
  intros Ha.
  destruct (tzlocal_ambiguous_inv _ _ _ Ha) as (Hn & earlier & Hsub & He).
  destruct (Tzlocal._hasdst (Tzlocal.tzlocal_init t0)) eqn:Hh; [reflexivity|].
  exfalso. unfold Tzlocal.tzlocal_init in Hh, Hsub.
  cbn [Tzlocal._hasdst Tzlocal._dst_saved] in Hh, Hsub.
  apply negb_false_iff, Z.eqb_eq in Hh. rewrite Hh in Hsub.
  unfold dt_sub, dt_add, ZERO in Hsub.
  destruct (in_range _); [|discriminate]. injection Hsub as <-.
  unfold Tzlocal._naive_is_dst, Tzlocal._datetime_to_timestamp in *.
  cbn [ticks] in He. replace (ticks w + - 0) with (ticks w) in He by lia.
  congruence.
Qed.

(** X13. At a wall time that [tzlocal] finds ambiguous, [fold] chooses:
    with [fold=0] the zone reports its summer offset and the hour saved,
    with [fold=1] its standard offset and no saving; and only a zone
    that has summer time finds any time ambiguous. *)
Theorem tzlocal_fold_selects (t0 t : Tzlocal.time) (w : naive) :
  let self := Tzlocal.tzlocal_init t0 in
  Tzlocal.tzlocal_is_ambiguous t self w = Ok true ->
  Tzlocal._hasdst self = true
  /\ Tzlocal.tzlocal_utcoffset t self (enfold w false) = Ok (Tzlocal._dst_offset self)
  /\ Tzlocal.tzlocal_utcoffset t self (enfold w true) = Ok (Tzlocal._std_offset self)
  /\ Tzlocal.tzlocal_dst t self (enfold w false) = Ok (Tzlocal._dst_saved self)
  /\ Tzlocal.tzlocal_dst t self (enfold w true) = Ok ZERO.
Proof.
  cbv zeta. intros Ha.
  destruct (tzlocal_ambiguous_inv _ _ _ Ha) as (Hn & _).
  pose proof (tzlocal_ambiguous_hasdst t0 t w Ha) as Hh.
  split; [exact Hh|].
  unfold Tzlocal.tzlocal_utcoffset, Tzlocal.tzlocal_dst, Tzlocal._isdst.
  rewrite Hh. cbn [negb].
  rewrite !naive_is_dst_enfold, !tzlocal_is_ambiguous_enfold, Hn, Ha.
  rewrite !bind_ok. repeat split.
Qed.

Lemma tzlocal_fold_selects_witness :
  Tzlocal.tzlocal_utcoffset Tzlocal.eastern (Tzlocal.tzlocal_init Tzlocal.eastern)
    (enfold Tzlocal.repeated_half_past false) = Ok (timedelta_hours (-4))
  /\ Tzlocal.tzlocal_utcoffset Tzlocal.eastern (Tzlocal.tzlocal_init Tzlocal.eastern)
       (enfold Tzlocal.repeated_half_past true) = Ok (timedelta_hours (-5)).
Proof.
  destruct (tzlocal_fold_selects Tzlocal.eastern Tzlocal.eastern
              Tzlocal.repeated_half_past eq_refl) as (_ & H0 & H1 & _).
  split; [exact H0|exact H1].
Defined.

(** X14. A [tzlocal] built where [time.daylight] is 0, or where both
    offsets of the [time] module agree, answers [utcoffset], [dst] and
    [tzname] without a look at [localtime]: at every time its offset is
    the standard one, its saving zero and its name the first of
    [time.tzname]; and it finds no time ambiguous. *)
Theorem tzlocal_without_dst (t0 t : Tzlocal.time) (dt : naive) :
  Tzlocal.daylight t0 = 0 \/ Tzlocal.altzone t0 = Tzlocal.timezone t0 ->
  let self := Tzlocal.tzlocal_init t0 in
  Tzlocal.tzlocal_utcoffset t self dt = Ok (timedelta_seconds (- Tzlocal.timezone t0))
  /\ Tzlocal.tzlocal_dst t self dt = Ok ZERO
  /\ Tzlocal.tzlocal_tzname t self dt = Ok (fst (Tzlocal.tzname t0))
  /\ Tzlocal.tzlocal_is_ambiguous t self dt <> Ok true.
Proof.
  intros Hno. cbv zeta.
  assert (Hh : Tzlocal._hasdst (Tzlocal.tzlocal_init t0) = false).
  { unfold Tzlocal.tzlocal_init. cbn [Tzlocal._hasdst].
    apply negb_false_iff, Z.eqb_eq. unfold ZERO.
    destruct Hno as [Hd|Ha].
    - rewrite Hd. cbn [Z.eqb negb]. lia.
    - rewrite Ha. destruct (negb _); lia. }
  unfold Tzlocal.tzlocal_utcoffset, Tzlocal.tzlocal_dst, Tzlocal.tzlocal_tzname,
    Tzlocal._isdst.
  rewrite Hh. cbn [negb]. rewrite !bind_ok.
  repeat split.
  intros Ha. pose proof (tzlocal_ambiguous_hasdst t0 t dt Ha) as Hh'.
  congruence.
Qed.

(** The zone of a machine kept on UTC, asked while [localtime] fails. *)
Lemma tzlocal_without_dst_witness :
  Tzlocal.tzlocal_utcoffset
    {| Tzlocal.timezone := 0; Tzlocal.altzone := 0; Tzlocal.daylight := 0;
       Tzlocal.tzname := ("UTC", "UTC");
       Tzlocal.localtime := fun _ => Raise (OverflowError "timestamp out of range") |}
    (Tzlocal.tzlocal_init Tzlocal.greenwich) (midnight 1)
  = Ok (timedelta_seconds (- 0)).
Proof.
  apply (tzlocal_without_dst Tzlocal.greenwich). left. reflexivity.
Defined.

(** X15. Whatever [localtime] says, [tzlocal] is a consistent zone:
    [utcoffset] and [dst] succeed together or raise together, the offset is
    one of the two the zone was built with, and the offset less the saving
    is the standard offset at every time; at a time that is not ambiguous
    a zone with summer time reports what [localtime] says of that time,
    whatever [fold] is. *)
Theorem tzlocal_standard_offset_constant (t : Tzlocal.time) (self : Tzlocal.tzlocal)
    (dt : naive) :
  Tzlocal.tzlocal_utcoffset t self dt
  = (fun saved => Tzlocal._std_offset self + saved) <$> Tzlocal.tzlocal_dst t self dt
  /\ (forall off, Tzlocal.tzlocal_utcoffset t self dt = Ok off ->
                  off = Tzlocal._std_offset self \/ off = Tzlocal._dst_offset self)
  /\ (forall summer : bool,
         Tzlocal._hasdst self = true ->
         Tzlocal.tzlocal_is_ambiguous t self dt = Ok false ->
         Tzlocal._naive_is_dst t dt = Ok summer ->
         Tzlocal.tzlocal_utcoffset t self dt
         = Ok (if summer then Tzlocal._dst_offset self else Tzlocal._std_offset self)).
Proof.
  split; [|split].
  - unfold Tzlocal.tzlocal_utcoffset, Tzlocal.tzlocal_dst.
    destruct (Tzlocal._isdst t self dt) as [[|]|e]; cbn;
      [f_equal; unfold ZERO; lia|f_equal; unfold ZERO; lia|reflexivity].
  - unfold Tzlocal.tzlocal_utcoffset.
    destruct (Tzlocal._isdst t self dt) as [[|]|e]; cbn;
      [intros off [= <-]; auto|intros off [= <-]; auto|discriminate].
  - intros summer Hh Ha Hn. unfold Tzlocal.tzlocal_utcoffset, Tzlocal._isdst.
    rewrite Hh, Hn, Ha. reflexivity.
Qed.

(** An hour before the repeated hour it is summer, with either [fold]. *)
Lemma tzlocal_standard_offset_constant_witness :
  Tzlocal.tzlocal_utcoffset Tzlocal.eastern (Tzlocal.tzlocal_init Tzlocal.eastern)
    {| ticks := ticks Tzlocal.repeated_half_past - 3600 * US_PER_SECOND; fold := true |}
  = Ok (timedelta_hours (-4)).
Proof.
  apply (proj2 (proj2 (tzlocal_standard_offset_constant Tzlocal.eastern
                         (Tzlocal.tzlocal_init Tzlocal.eastern)
                         {| ticks := ticks Tzlocal.repeated_half_past - 3600 * US_PER_SECOND;
                            fold := true |})) true);
    reflexivity.
Defined.

Lemma zone_eq_sym (a b : Tzlocal.zone) : Tzlocal.zone_eq a b = Tzlocal.zone_eq b a.
Proof.
  destruct a as [f|l], b as [g|k]; unfold Tzlocal.zone_eq; cbn.
  - destruct f as [|z], g as [|y]; cbn; try reflexivity. rewrite Z.eqb_sym. reflexivity.
  - destruct f as [|z]; reflexivity.
  - destruct g as [|z]; reflexivity.
  - rewrite (Z.eqb_sym (Tzlocal._std_offset l)), (Z.eqb_sym (Tzlocal._dst_offset l)).
    reflexivity.
Qed.

(** X16. [==] among [tzutc], [tzoffset] and [tzlocal] zones is symmetric
    but not transitive: a [tzlocal] that equals [UTC] and a [tzoffset] of
    offset zero under another name both equal [UTC] and differ from each
    other, since [tzlocal] compares names with a [tzoffset] and nothing
    else does. *)
Theorem zone_eq_not_transitive (l : Tzlocal.tzlocal) (z : tzoffset) :
  Tzlocal.zone_eq (Tzlocal.Local l) (Tzlocal.Fixed TzUtc) = true ->
  _offset z = ZERO ->
  _name z <> Some (fst (Tzlocal._tznames l)) ->
  Tzlocal.zone_eq (Tzlocal.Fixed (TzOffset z)) (Tzlocal.Fixed TzUtc) = true
  /\ Tzlocal.zone_eq (Tzlocal.Fixed TzUtc) (Tzlocal.Local l) = true
  /\ Tzlocal.zone_eq (Tzlocal.Fixed (TzOffset z)) (Tzlocal.Local l) = false
  /\ (forall a b, Tzlocal.zone_eq a b = Tzlocal.zone_eq b a).
Proof.
  intros Hl Hz Hn. split; [|split; [|split; [|exact zone_eq_sym]]].
  - unfold Tzlocal.zone_eq; cbn. rewrite Hz. reflexivity.
  - rewrite zone_eq_sym. exact Hl.
  - unfold Tzlocal.zone_eq; cbn.
    destruct (_name z) as [name|]; [|rewrite andb_false_r; reflexivity].
    destruct (String.eqb (fst (Tzlocal._tznames l)) name) eqn:He.
    + apply String.eqb_eq in He. subst name. exfalso. exact (Hn eq_refl).
    + rewrite andb_false_r. reflexivity.
Qed.

Lemma zone_eq_not_transitive_witness :
  Tzlocal.zone_eq (Tzlocal.Fixed (TzOffset (tzoffset_init true (Some "Zulu") (Seconds 0))))
                  (Tzlocal.Local (Tzlocal.tzlocal_init Tzlocal.greenwich)) = false.
Proof.
  apply (zone_eq_not_transitive (Tzlocal.tzlocal_init Tzlocal.greenwich)
           (tzoffset_init true (Some "Zulu") (Seconds 0)));
    [reflexivity|reflexivity|discriminate].
Defined.

(** ** Ambiguity without [fold] *)

(** X17. For a zone that has no [is_ambiguous] (or whose [is_ambiguous]
    raises) and whose [utcoffset] and [dst] do not read [fold],
    [datetime_ambiguous] never answers [True]: its fall-back sees only
    what [fold] changes. *)
Theorem datetime_ambiguous_needs_fold (tz : tzinfo) (dt : datetime) :
  (is_ambiguous tz = None
   \/ exists f e, is_ambiguous tz = Some f
                   /\ f (attach <$> dt_tzinfo dt) (wall dt) = Raise e) ->
  (forall w f, utcoffset tz (enfold w f) = utcoffset tz w) ->
  (forall w f, dst tz (enfold w f) = dst tz w) ->
  datetime_ambiguous dt (Some tz) <> Ok true.
Proof.
  intros Hna Hu Hd. unfold datetime_ambiguous, zone_for. rewrite bind_ok.
  assert (Hown : match is_ambiguous tz with
                 | Some fn =>
                     match fn (attach <$> dt_tzinfo dt) (wall dt) with
                     | Ok b => Some b
                     | Raise _ => None
                     end
                 | None => None
                 end = None).
  { destruct Hna as [->|(f & e & -> & ->)]; reflexivity. }
  rewrite Hown. cbn [wall replace_tzinfo]. unfold dt_utcoffset, dt_dst.
  rewrite !Hu, !Hd.
  destruct (utcoffset tz (wall dt)) as [off|e]; [|discriminate]. rewrite !bind_ok.
  destruct ((- US_PER_DAY <? off) && (off <? US_PER_DAY)); [|discriminate].
  rewrite !bind_ok.
  destruct (dst tz (wall dt)) as [d|e]; [|discriminate]. rewrite !bind_ok.
  destruct ((- US_PER_DAY <? d) && (d <? US_PER_DAY)); [|discriminate].
  rewrite !bind_ok. rewrite !Z.eqb_refl. discriminate.
Qed.

(** A zone that falls back one hour at 01:00 UTC of day 730000 and keeps a
    table, not [fold]: 01:30 of that day shows twice on its clock, and
    [datetime_ambiguous] does not say so. *)
Lemma datetime_ambiguous_needs_fold_witness :
  datetime_ambiguous
    {| wall := {| ticks := 729999 * US_PER_DAY + 5400 * US_PER_SECOND; fold := false |};
       dt_tzinfo := None |}
    (Some (single_change (729999 * US_PER_DAY + 3600 * US_PER_SECOND)
             (timedelta_hours 1) ZERO))
  = Ok false
  /\ datetime_ambiguous
       {| wall := {| ticks := 729999 * US_PER_DAY + 5400 * US_PER_SECOND; fold := false |};
          dt_tzinfo := None |}
       (Some (single_change (729999 * US_PER_DAY + 3600 * US_PER_SECOND)
                (timedelta_hours 1) ZERO))
     <> Ok true.
Proof.
  split; [vm_compute; reflexivity|].
  apply datetime_ambiguous_needs_fold.
  - left. reflexivity.
  - intros w f. reflexivity.
  - intros w f. reflexivity.
Defined.

(** ** Finding a zone by name *)

Lemma substring_all (s : string) : String.substring 0 (String.length s) s = s.
Proof. induction s as [|c s IH]; [reflexivity|]. cbn. rewrite IH. reflexivity. Qed.

(** A name that is plain: not empty, no leading colon (so not [":"]). *)
Lemma plain_name (name : string) :
  name <> EmptyString -> Nocache.startswith_colon name = false ->
  String.eqb name "" || String.eqb name ":" = false.
Proof.
  intros Hne Hc. destruct name as [|c rest]; [destruct (Hne eq_refl)|].
  cbn [Nocache.startswith_colon] in Hc.
  change (String.eqb (String c rest) "") with false. cbn [orb].
  change (String.eqb (String c rest) ":")
    with (if Ascii.eqb c ":" then String.eqb rest "" else false).
  rewrite Hc. reflexivity.
Qed.

(** X18. A colon before the name changes nothing: [nocache(":" + name)]
    is [nocache(name)] for every name that is not empty and does not
    itself begin with a colon. *)
Theorem nocache_colon_prefix (T : Type) (e : Nocache.env T) (name : string) :
  name <> EmptyString ->
  Nocache.startswith_colon name = false ->
  Nocache.nocache e (Some (String ":" name)) = Nocache.nocache e (Some name).
Proof.
  intros Hne Hc. pose proof (plain_name name Hne Hc) as Hp.
  destruct name as [|c rest]; [destruct (Hne eq_refl)|].
  unfold Nocache.nocache.
  change (String.eqb (String ":" (String c rest)) "") with false.
  change (String.eqb (String ":" (String c rest)) ":") with false.
  rewrite Hp, Hc. cbn [orb Nocache.startswith_colon].
  change (Ascii.eqb ":" ":") with true. cbv iota.
  replace (Str.slice_from (String ":" (String c rest)) 1) with (String c rest);
    [reflexivity|].
  unfold Str.slice_from.
  change (String.length (String ":" (String c rest)) - 1)%nat
    with (String.length (String c rest)).
  change (String.substring 1 (String.length (String c rest)) (String ":" (String c rest)))
    with (String.substring 0 (String.length (String c rest)) (String c rest)).
  symmetry. apply substring_all.
Qed.

Lemma nocache_colon_prefix_witness :
  Nocache.nocache (Nocache.posix ["/usr/share/zoneinfo/Europe/Paris"] None)
    (Some ":Europe/Paris")
  = Nocache.nocache (Nocache.posix ["/usr/share/zoneinfo/Europe/Paris"] None)
      (Some "Europe/Paris").
Proof. apply nocache_colon_prefix; [discriminate|reflexivity]. Defined.

Lemma local_files_zone (T : Type) (e : Nocache.env T) (files : list string) :
  (exists tz, Nocache.local_files e files = Nocache.Return tz)
  \/ (exists err, Nocache.local_files e files = Nocache.Throw err
                  /\ Nocache.caught_loading err = false).
Proof.
  induction files as [|f rest IH]; cbn [Nocache.local_files]; [left; eauto|].
  destruct (if negb (Nocache.isabs e f) then _ else _) as [path|]; [|exact IH].
  destruct (Nocache._isfile e path); [|exact IH].
  destruct (Nocache.tzfile e path None) as [tz|err]; [left; eauto|].
  destruct (Nocache.caught_loading err) eqn:Hc; [exact IH|].
  right. eauto.
Qed.

Lemma local_files_passed_over (T : Type) (e : Nocache.env T) (f : string)
    (rest : list string) :
  Nocache.passed_over e f ->
  Nocache.local_files e (f :: rest) = Nocache.local_files e rest.
Proof.
  unfold Nocache.passed_over, Nocache.located. cbn [Nocache.local_files].
  destruct (if negb (Nocache.isabs e f) then _ else _) as [path|]; [|reflexivity].
  destruct (Nocache._isfile e path); [|reflexivity].
  intros (err & -> & ->). reflexivity.
Qed.

Lemma local_files_loaded (T : Type) (e : Nocache.env T) (f path : string)
    (rest : list string) (tz : T) :
  Nocache.located e f = Some path ->
  Nocache.tzfile e path None = Nocache.Return tz ->
  Nocache.local_files e (f :: rest) = Nocache.Return tz.
Proof.
  unfold Nocache.located. cbn [Nocache.local_files].
  destruct (if negb (Nocache.isabs e f) then _ else _) as [path'|]; [|discriminate].
  destruct (Nocache._isfile e path'); [|discriminate].
  intros [= ->] ->. reflexivity.
Qed.

Lemma local_files_skip (T : Type) (e : Nocache.env T) (before rest : list string) :
  Forall (Nocache.passed_over e) before ->
  Nocache.local_files e (before ++ rest) = Nocache.local_files e rest.
Proof.
  induction 1 as [|f before Hf _ IH]; [reflexivity|].
  change ((f :: before) ++ rest)%list with (f :: (before ++ rest))%list.
  rewrite local_files_passed_over by exact Hf. exact IH.
Qed.

(** X19. Asked for no name ([None], the empty string or a lone colon)
    where [TZ] is not set, [nocache] returns the zone of the first entry
    of [TZFILES] whose file is there and loads, the entries before it
    having no file or a file that [tzfile] refuses with [IOError],
    [OSError] or [ValueError]; it returns [tzlocal()] when every entry is
    passed over in that way; it never returns [None], and what it raises,
    if it raises, is an error of [tzfile] that is none of those three. *)
Theorem nocache_local_zone (T : Type) (e : Nocache.env T) (name : option string) :
  Nocache.environ_TZ e = None ->
  name = None \/ name = Some EmptyString \/ name = Some ":" ->
  (forall (before after : list string) (f path : string) (tz : T),
      Nocache.TZFILES e = (before ++ f :: after)%list ->
      Forall (Nocache.passed_over e) before ->
      Nocache.located e f = Some path ->
      Nocache.tzfile e path None = Nocache.Return tz ->
      Nocache.nocache e name = Nocache.Return (Some tz))
  /\ (Forall (Nocache.passed_over e) (Nocache.TZFILES e) ->
      Nocache.nocache e name = Nocache.Return (Some (Nocache.tzlocal e)))
  /\ ((exists tz, Nocache.nocache e name = Nocache.Return (Some tz))
      \/ (exists err, Nocache.nocache e name = Nocache.Throw err
                      /\ Nocache.caught_loading err = false)).
Proof.
  intros Henv Hname.
  assert (Hn : Nocache.nocache e name
               = match Nocache.local_files e (Nocache.TZFILES e) with
                 | Nocache.Return tz => Nocache.Return (Some tz)
                 | Nocache.Throw err => Nocache.Throw err
                 end).
  { unfold Nocache.nocache. rewrite Henv.
    destruct Hname as [-> | [-> | ->]]; reflexivity. }
  rewrite Hn. split; [|split].
  - intros before after f path tz Hfiles Hbefore Hloc Hload.
    rewrite Hfiles, local_files_skip by exact Hbefore.
    rewrite (local_files_loaded T e f path after tz Hloc Hload). reflexivity.
  - intros Hall. rewrite <- (app_nil_r (Nocache.TZFILES e)).
    rewrite local_files_skip by exact Hall. reflexivity.
  - destruct (local_files_zone T e (Nocache.TZFILES e)) as [(tz & Htz)|(err & Herr & Hc)];
      [rewrite Htz; left|rewrite Herr; right]; eauto.
Qed.

(** No [/etc/localtime]; the second entry, [localtime], is found under
    the first of [TZPATHS] and is the zone. *)
Lemma nocache_local_zone_witness :
  Nocache.nocache (Nocache.posix ["/usr/share/zoneinfo/localtime"] None) None
  = Nocache.Return (Some (Nocache.FromFile "/usr/share/zoneinfo/localtime")).
Proof.
  apply (proj1 (nocache_local_zone Nocache.made
                  (Nocache.posix ["/usr/share/zoneinfo/localtime"] None) None
                  eq_refl (or_introl eq_refl))
           ["/etc/localtime"] [] "localtime" "/usr/share/zoneinfo/localtime").
  - reflexivity.
  - repeat constructor.
  - reflexivity.
  - reflexivity.
Defined.

(** A path under which no file carries the name, with or without its
    spaces replaced. *)
Lemma named_files_skip (T : Type) (e : Nocache.env T) (name : string)
    (before after : list string) :
  Forall (fun path =>
            Nocache._isfile e (Nocache.join e path name) = false
            /\ Nocache._isfile e (Nocache.replace_spaces (Nocache.join e path name))
               = false) before ->
  Nocache.named_files e (before ++ after) name = Nocache.named_files e after name.
Proof.
  induction 1 as [|path before [H1 H2] _ IH]; [reflexivity|].
  cbn [app Nocache.named_files]. rewrite H1, H2. exact IH.
Qed.

Lemma nocache_relative (T : Type) (e : Nocache.env T) (name : string) :
  name <> EmptyString ->
  Nocache.startswith_colon name = false ->
  Nocache.isabs e name = false ->
  Nocache.nocache e (Some name)
  = match Nocache.named_files e (Nocache.TZPATHS e) name with
    | Nocache.Return (Some tz) => Nocache.Return (Some tz)
    | Nocache.Return None => Nocache.fall_back e name
    | Nocache.Throw err => Nocache.Throw err
    end.
Proof.
  intros Hne Hc Habs. pose proof (plain_name name Hne Hc) as Hp.
  unfold Nocache.nocache.
  destruct name as [|c rest]; [destruct (Hne eq_refl)|].
  rewrite Hp, Hc, Habs. reflexivity.
Qed.

(** X20. A zone file wins: for a relative name, where the directories of
    [TZPATHS] before [path] hold no file of that name and [path] holds one
    that loads, that file gives the zone, whatever [tzwin], the bundled
    files, [tzstr] and the names [UTC] and [GMT] would have given. *)
Theorem nocache_zone_file_first (T : Type) (e : Nocache.env T) (name : string)
    (before after : list string) (path : string) (tz : T) :
  name <> EmptyString ->
  Nocache.startswith_colon name = false ->
  Nocache.isabs e name = false ->
  Nocache.TZPATHS e = (before ++ path :: after)%list ->
  Forall (fun path =>
            Nocache._isfile e (Nocache.join e path name) = false
            /\ Nocache._isfile e (Nocache.replace_spaces (Nocache.join e path name))
               = false) before ->
  Nocache._isfile e (Nocache.join e path name) = true ->
  Nocache.tzfile e (Nocache.join e path name) (Some name) = Nocache.Return tz ->
  Nocache.nocache e (Some name) = Nocache.Return (Some tz).
Proof.
  intros Hne Hc Habs Hpaths Hbefore Hfile Hload.
  rewrite nocache_relative by assumption.
  rewrite Hpaths, named_files_skip by exact Hbefore.
  cbn [Nocache.named_files]. rewrite Hfile, Hload. reflexivity.
Qed.

(** [UTC] with a zone file of that name in the second directory. *)
Lemma nocache_zone_file_first_witness :
  Nocache.nocache (Nocache.posix ["/usr/lib/zoneinfo/UTC"] None) (Some "UTC")
  = Nocache.Return (Some (Nocache.FromFile "/usr/lib/zoneinfo/UTC")).
Proof.
  apply (nocache_zone_file_first Nocache.made
           (Nocache.posix ["/usr/lib/zoneinfo/UTC"] None) "UTC"
           ["/usr/share/zoneinfo"] ["/usr/share/lib/zoneinfo"; "/etc/zoneinfo"]
           "/usr/lib/zoneinfo").
  - discriminate.
  - reflexivity.
  - reflexivity.
  - reflexivity.
  - repeat constructor.
  - reflexivity.
  - reflexivity.
Defined.

(** X21. Where no zone file carries a relative name, [tzwin] is absent
    and the bundled files do not know the name: [GMT] and [UTC] give the
    [UTC] singleton; a name without a digit that is none of these and none
    of [time.tzname] gives [None], as does a name with a digit that
    [tzstr] refuses with [ValueError]; no error is raised. *)
Theorem nocache_unknown_name (T : Type) (e : Nocache.env T) (name : string) :
  name <> EmptyString ->
  Nocache.startswith_colon name = false ->
  Nocache.isabs e name = false ->
  Forall (fun path =>
            Nocache._isfile e (Nocache.join e path name) = false
            /\ Nocache._isfile e (Nocache.replace_spaces (Nocache.join e path name))
               = false) (Nocache.TZPATHS e) ->
  Nocache.tzwin e = None ->
  Nocache.zonefile_get e name = None ->
  (name = "GMT" \/ name = "UTC" ->
   Nocache.nocache e (Some name) = Nocache.Return (Some (Nocache.UTC e)))
  /\ (Nocache.has_digit name = false ->
      name <> "GMT" -> name <> "UTC" ->
      name <> fst (Nocache.time_tzname e) -> name <> snd (Nocache.time_tzname e) ->
      Nocache.nocache e (Some name) = Nocache.Return None)
  /\ (forall msg, Nocache.has_digit name = true ->
                  Nocache.tzstr e name = Nocache.Throw (Nocache.Exn (ValueError msg)) ->
                  Nocache.nocache e (Some name) = Nocache.Return None).
Proof.
  intros Hne Hc Habs Hfiles Hwin Hzi.
  assert (Hn : Nocache.nocache e (Some name) = Nocache.fall_back e name).
  { rewrite nocache_relative by assumption.
    rewrite <- (app_nil_r (Nocache.TZPATHS e)), named_files_skip by exact Hfiles.
    reflexivity. }
  rewrite Hn. unfold Nocache.fall_back. rewrite Hwin, Hzi.
  split; [|split].
  - intros [-> | ->]; reflexivity.
  - intros Hd H1 H2 H3 H4. rewrite Hd.
    rewrite (proj2 (String.eqb_neq _ _) H1), (proj2 (String.eqb_neq _ _) H2),
      (proj2 (String.eqb_neq _ _) H3), (proj2 (String.eqb_neq _ _) H4).
    reflexivity.
  - intros msg Hd Hs. rewrite Hd, Hs. reflexivity.
Qed.

Lemma nocache_unknown_name_witness :
  Nocache.nocache (Nocache.posix [] None) (Some "UTC")
  = Nocache.Return (Some Nocache.UtcZone).
Proof.
  apply (nocache_unknown_name Nocache.made (Nocache.posix [] None) "UTC");
    try reflexivity.
  - discriminate.
  - repeat constructor.
  - right. reflexivity.
Defined.

(** ** Further edge behaviour *)


(** X23. [cache_clear] forgets every zone: the call of [gettz] that
    follows it returns what [nocache] returns, or raises what it raises,
    for every name. *)
Theorem gettz_after_cache_clear (T : Type) (is_tzlocal : T -> bool)
    (self : GettzFunc T) (nocache : option string -> result (option T))
    (name : option string) :
  (__call__ is_tzlocal nocache (cache_clear self) name).1 = nocache name
  /\ __strong_cache (cache_clear self) = []
  /\ __strong_cache_size (cache_clear self) = __strong_cache_size self.
Proof.
  split; [|split; reflexivity].
  unfold __call__, cache_clear. cbn [__instances]. rewrite lookup_empty.
  destruct (nocache name) as [[rv|]|e]; try reflexivity.
  destruct (negb (is_some name) || is_tzlocal rv); reflexivity.
Qed.

(** X24. [datetime_exists] finds the gap: in a zone whose offset changes
    once, a wall time (two days or more inside the range of [datetime])
    exists unless it lies in the interval that a growing offset skips;
    where the offset shrinks, every wall time exists. *)
Theorem datetime_exists_finds_gap (at_ : Z) (before after : timedelta) (w : naive)
    (own : option tzinfo) :
  - US_PER_DAY < before < US_PER_DAY ->
  - US_PER_DAY < after < US_PER_DAY ->
  inland 2 w ->
  (datetime_exists {| wall := w; dt_tzinfo := own |}
                   (Some (single_change at_ before after)) = Ok false
   <-> at_ + before <= ticks w < at_ + after)
  /\ (after <= before ->
      datetime_exists {| wall := w; dt_tzinfo := own |}
                      (Some (single_change at_ before after)) = Ok true).
Proof.
  intros Hb Ha Hw. rewrite (single_change_exists at_ before after Hb Ha w own Hw).
  split; [split|].
  - intros [= H]. apply negb_false_iff, andb_true_iff in H as [H1 H2].
    apply Z.leb_le in H1. apply Z.ltb_lt in H2. lia.
  - intros [H1 H2]. apply Z.leb_le in H1. apply Z.ltb_lt in H2.
    rewrite H1, H2. reflexivity.
  - intros Hle. f_equal. apply negb_true_iff, andb_false_iff.
    destruct (Z.leb_spec (at_ + before) (ticks w)); [right|left; reflexivity].
    apply Z.ltb_ge. lia.
Qed.

(** 12:30 of the day the date line skips does not exist. *)
Lemma datetime_exists_finds_gap_witness :
  datetime_exists (Resolver.value skipped_noon) (Some line_islands) = Ok false.
Proof.
  apply (datetime_exists_finds_gap
           ((728294 - 1) * US_PER_DAY + 10 * 3600 * US_PER_SECOND)
           (timedelta_hours (-10)) (timedelta_hours 14)
           (wall (Resolver.value skipped_noon))
           (Some line_islands));
    vm_compute; split; congruence.
Defined.

Lemma append_empty (s : string) : String.append s EmptyString = s.
Proof.
  induction s as [|c s IH]; [reflexivity|].
  change (String.append (String c s) EmptyString)
    with (String c (String.append s EmptyString)).
  rewrite IH. reflexivity.
Qed.

Lemma append_char (cur rest : string) (c : ascii) :
  String.append (String.append cur (String c EmptyString)) rest
  = String.append cur (String c rest).
Proof.
  induction cur as [|x cur IH]; [reflexivity|].
  change (String.append (String.append (String x cur) (String c EmptyString)) rest)
    with (String x (String.append (String.append cur (String c EmptyString)) rest)).
  rewrite IH. reflexivity.
Qed.

Lemma split1_no_colon (cur line : string) :
  ~ In ":"%char (list_ascii_of_string line) ->
  Str.split1_from ":" cur line = [String.append cur line].
Proof.
  revert cur. induction line as [|c rest IH]; intros cur; cbn [Str.split1_from].
  - intros _. rewrite append_empty. reflexivity.
  - intros Hno. cbn [list_ascii_of_string] in Hno.
    assert (Hc : Ascii.eqb c ":" = false).
    { apply Ascii.eqb_neq. intros ->. apply Hno. left. reflexivity. }
    rewrite Hc, IH, append_char; [reflexivity|].
    intros Hin. apply Hno. right. exact Hin.
Qed.

(** The body of the loop: a line that is not empty and holds no colon
    cannot be unpacked into a name and a value. *)
Lemma parse_line_without_colon (rrulestr : string -> result rrule)
    (st : parser_state) (line : string) :
  line <> EmptyString ->
  ~ In ":"%char (list_ascii_of_string line) ->
  parse_line rrulestr st line
  = Raise (ValueError "not enough values to unpack (expected 2, got 1)").
Proof.
  intros Hne Hno. unfold parse_line.
  destruct line as [|c rest]; [destruct (Hne eq_refl)|].
  cbn [Str.is_empty]. unfold Str.split1. rewrite split1_no_colon by exact Hno.
  reflexivity.
Qed.

Lemma parse_lines_app (rrulestr : string -> result rrule) (before rest : list string)
    (st : parser_state) :
  parse_lines rrulestr st (before ++ rest)
  = (st' ← parse_lines rrulestr st before; parse_lines rrulestr st' rest).
Proof.
  revert st. induction before as [|l before IH]; intros st; [reflexivity|].
  change ((l :: before) ++ rest)%list with (l :: (before ++ rest))%list.
  cbn [parse_lines].
  destruct (parse_line rrulestr st l) as [st1|e]; [|reflexivity].
  rewrite !bind_ok. apply IH.
Qed.

(** X25. A text in which a line holds no colon once the lines are
    unfolded (blank lines dropped, continuation lines joined to the line
    before) is never parsed: [_parse_rfc] raises, and where the lines
    before that one are accepted what it raises is the [ValueError] of the
    failed unpacking, inside a [VTIMEZONE] or outside. *)
Theorem parse_rfc_line_without_colon (rrulestr : string -> result rrule)
    (s : string) (before after : list string) (line : string) :
  unfold_lines [] (Str.splitlines s) = (before ++ line :: after)%list ->
  ~ In ":"%char (list_ascii_of_string line) ->
  (exists e, _parse_rfc rrulestr s = Raise e)
  /\ (forall st, parse_lines rrulestr initial_state before = Ok st ->
                 _parse_rfc rrulestr s
                 = Raise (ValueError "not enough values to unpack (expected 2, got 1)")).
Proof.
  intros Hlines Hno.
  assert (Hne : line <> EmptyString).
  { destruct (unfold_lines_kept (Str.splitlines s) [] (List.Forall_nil _)
                (List.Forall_nil _)) as [Hnb _].
    rewrite Hlines in Hnb. apply Forall_app in Hnb as [_ Hnb].
    apply Forall_cons in Hnb as [Hl _]. intros ->. apply Hl. reflexivity. }
  assert (Hp : parse_lines rrulestr initial_state (unfold_lines [] (Str.splitlines s))
               = (st ← parse_lines rrulestr initial_state before;
                  Raise (ValueError "not enough values to unpack (expected 2, got 1)"))).
  { rewrite Hlines, parse_lines_app.
    destruct (parse_lines rrulestr initial_state before) as [st|e]; [|reflexivity].
    rewrite !bind_ok. cbn [parse_lines].
    rewrite (parse_line_without_colon rrulestr st line Hne Hno). reflexivity. }
  unfold _parse_rfc.
  destruct (Str.splitlines s) as [|l ls] eqn:Hs.
  { split; [eexists; reflexivity|].
    destruct before; discriminate. }
  rewrite Hp. split.
  - destruct (parse_lines rrulestr initial_state before); eexists; reflexivity.
  - intros st ->. reflexivity.
Qed.

(** A stray [PRODID] after [BEGIN:VTIMEZONE]. *)
Lemma parse_rfc_line_without_colon_witness :
  _parse_rfc rrulestr_once stray_line
  = Raise (ValueError "not enough values to unpack (expected 2, got 1)").
Proof.
  refine (proj2 (parse_rfc_line_without_colon rrulestr_once stray_line
                   ["BEGIN:VTIMEZONE"] _ "PRODID" _ _) _ _).
  - vm_compute. reflexivity.
  - cbn. intros H. repeat (destruct H as [H|H]; [discriminate|]). exact H.
  - vm_compute. reflexivity.
Defined.
